(** * KithabBackendS3: cascade delete, archive assembly and the upload ledger

    A shallow embedding of the Express route handlers of [Routes/admin.js]
    and [Routes/notes.js], of the Mongoose models they use and of the S3
    helpers of [utils/s3.js].

    Handlers are [async] functions: every [await] on a collaborator (the
    metadata repository or the object store) is a point where the call may
    reject.  They are embedded in a state-and-exception monad over the
    world state (committed database, transaction view, bucket, event
    trace); which calls reject is decided by oracles carried in the state:
    sequential awaits are numbered, concurrent blob fetches are identified
    by their key.  Identifiers are strings; the driver's casting of request
    strings to ObjectId is a parameter of the handlers that depend on it.
    The authentication middlewares, which run before the handlers embedded
    here, are outside the model. *)

From stdpp Require Import base list strings gmap.
From Stdlib Require Import Lia Ascii.

Local Open Scope string_scope.

(** ** Documents *)

(** [Models/Note.js]. *)
Module Note.
Record t := mk {
  _id : string;
  title : string;
  regulation : string;
  subject : string;
  branch : string;
  semester : string;
  fileKey : string;
  uploadedBy : string;
  createdAt : nat
}.
End Note.

(** Modelled from the spec: the Regulation schema ([Models/Regulation.js] is
    imported by the routes but is not among the sources); the fields are
    those the routes read and write. *)
Module Regulation.
Record t := mk {
  _id : string;
  name : string;
  numberOfSemesters : nat;
  createdAt : nat
}.
End Regulation.

(** Modelled from the spec: the Branch schema ([Models/Branch.js]). *)
Module Branch.
Record t := mk {
  _id : string;
  name : string;
  code : string;
  regulation : string
}.
End Branch.

(** Modelled from the spec: the Subject schema ([Models/Subject.js]). *)
Module Subject.
Record t := mk {
  _id : string;
  name : string;
  code : string;
  branch : string;
  semester : string;
  createdAt : nat
}.
End Subject.

(** Modelled from the spec: the Faculty schema ([Models/Faculty.js]); the
    stored hash lives in the field the routes call [password]. *)
Module Faculty.
Record t := mk {
  _id : string;
  name : string;
  email : string;
  employeeId : string;
  designation : string;
  password : string;
  uploadedNotes : list string;
  createdAt : nat
}.
End Faculty.

(** ** The metadata repository and the object store *)

(** Collections are kept in natural order; [_id] uniqueness is the store's
    own index and appears as a hypothesis where a statement needs it. *)
Record Db := mkDb {
  regulations : list Regulation.t;
  branches : list Branch.t;
  subjects : list Subject.t;
  notes : list Note.t;
  faculty : list Faculty.t
}.

Definition Blob := list Byte.byte.

Inductive Kind := KNote | KSubject | KBranch | KRegulation.

(** What a handler does to its collaborators, in program order. *)
Inductive Event :=
| EvBlobDelete (key : string)        (* deleteObject issued for [key] *)
| EvRemove (k : Kind) (id : string)  (* a document leaves its collection *)
| EvPull (fac note : string)         (* $pull on Faculty.uploadedNotes *)
| EvCommit
| EvAbort.

Record St := mkSt {
  committed : Db;                (* what other clients of the store see *)
  session : Db;                  (* the view of the open transaction *)
  bucket : gmap string Blob;
  trace : list Event;
  clock : nat;                   (* awaited collaborator calls so far *)
  rejects : nat -> option string;         (* the n-th await rejects with .. *)
  fetch_rejects : string -> option string (* fetching this key rejects with .. *)
}.

Definition set_committed (d : Db) (st : St) : St :=
  mkSt d (session st) (bucket st) (trace st) (clock st)
       (rejects st) (fetch_rejects st).
Definition set_session (d : Db) (st : St) : St :=
  mkSt (committed st) d (bucket st) (trace st) (clock st)
       (rejects st) (fetch_rejects st).
Definition set_bucket (b : gmap string Blob) (st : St) : St :=
  mkSt (committed st) (session st) b (trace st) (clock st)
       (rejects st) (fetch_rejects st).
Definition emit (evs : list Event) (st : St) : St :=
  mkSt (committed st) (session st) (bucket st) (trace st ++ evs) (clock st)
       (rejects st) (fetch_rejects st).
Definition advance (st : St) : St :=
  mkSt (committed st) (session st) (bucket st) (trace st) (S (clock st))
       (rejects st) (fetch_rejects st).

Definition set_regulations (l : list Regulation.t) (d : Db) : Db :=
  mkDb l (branches d) (subjects d) (notes d) (faculty d).
Definition set_branches (l : list Branch.t) (d : Db) : Db :=
  mkDb (regulations d) l (subjects d) (notes d) (faculty d).
Definition set_subjects (l : list Subject.t) (d : Db) : Db :=
  mkDb (regulations d) (branches d) l (notes d) (faculty d).
Definition set_notes (l : list Note.t) (d : Db) : Db :=
  mkDb (regulations d) (branches d) (subjects d) l (faculty d).
Definition set_faculty (l : list Faculty.t) (d : Db) : Db :=
  mkDb (regulations d) (branches d) (subjects d) (notes d) l.

(** ** HTTP responses *)

(** A JSON object as the handler builds it: own keys to values. *)
Inductive JsValue :=
| JStr (s : string)
| JNum (n : nat)
| JIds (l : list string).

Inductive Body :=
| Message (message : string)
| MessageError (message error : string)
| ZipBuffer (files : gmap string Blob)
| FacultyDoc (doc : gmap string JsValue)
| FacultyDocs (docs : list (gmap string JsValue)).

Record Response := mkResponse {
  status : nat;
  headers : list (string * string);
  body : Body
}.

Definition json (code : nat) (b : Body) : Response := mkResponse code [] b.

(** ** The handler monad *)

Inductive Res (A : Type) :=
| Ok (a : A)               (* the statement completed *)
| Throw (err : string)     (* a rejected await or a thrown error *)
| Return (r : Response).   (* [return res.status(..).json(..)] *)
Arguments Ok {A} a.
Arguments Throw {A} err.
Arguments Return {A} r.

Definition M (A : Type) : Type := St -> Res A * St.

Definition ret {A} (a : A) : M A := fun st => (Ok a, st).

Definition bind {A B} (m : M A) (k : A -> M B) : M B :=
  fun st =>
    match m st with
    | (Ok a, st') => k a st'
    | (Throw e, st') => (Throw e, st')
    | (Return r, st') => (Return r, st')
    end.

Definition respond {A} (r : Response) : M A := fun st => (Return r, st).

Definition throw {A} (err : string) : M A := fun st => (Throw err, st).

Definition try_catch {A} (body : M A) (handler : string -> M A) : M A :=
  fun st =>
    match body st with
    | (Throw e, st') => handler e st'
    | other => other
    end.

Declare Scope handler_scope.
Delimit Scope handler_scope with handler.
Notation "x <~ m ;; k" := (bind m (fun x => k))
  (at level 100, m at next level, right associativity) : handler_scope.
Notation "m ;;; k" := (bind m (fun _ => k))
  (at level 100, right associativity) : handler_scope.
Local Open Scope handler_scope.

(** [for (const x of l) await body(x)]. *)
Fixpoint for_of {A} (l : list A) (body : A -> M unit) : M unit :=
  match l with
  | [] => ret tt
  | x :: rest => body x ;;; for_of rest body
  end.

(** What the client receives: the response the handler sent, or nothing
    when the handler's promise rejected outside any [catch]. *)
Definition run (h : M Response) (st : St) : option Response * St :=
  match h st with
  | (Ok r, st') => (Some r, st')
  | (Return r, st') => (Some r, st')
  | (Throw _, st') => (None, st')
  end.

(** ** Collaborator calls *)

(** One awaited call on a collaborator: it takes the next sequence number
    and rejects when the oracle says so. *)
Definition await_call : M unit :=
  fun st =>
    match rejects st (clock st) with
    | Some e => (Throw e, advance st)
    | None => (Ok tt, advance st)
    end.

(** A statement runs either inside the handler's transaction
    ([.session(session)]) or directly against the store. *)
Inductive Via := InSession | Direct.

Definition view (v : Via) (st : St) : Db :=
  match v with InSession => session st | Direct => committed st end.

Definition set_view (v : Via) (d : Db) (st : St) : St :=
  match v with InSession => set_session d st | Direct => set_committed d st end.

Definition query {A} (v : Via) (q : Db -> A) : M A :=
  await_call ;;; fun st => (Ok (q (view v st)), st).

Definition update (v : Via) (f : Db -> Db) (evs : Db -> list Event) : M unit :=
  await_call ;;;
  fun st => (Ok tt, emit (evs (view v st)) (set_view v (f (view v st)) st)).

(** [Model.findOne({_id: id})] and the removal of that one document. *)
Fixpoint find_first {A} (p : A -> bool) (l : list A) : option A :=
  match l with
  | [] => None
  | x :: rest => if p x then Some x else find_first p rest
  end.

Fixpoint remove_first {A} (p : A -> bool) (l : list A) : list A :=
  match l with
  | [] => []
  | x :: rest => if p x then rest else x :: remove_first p rest
  end.

Definition keep {A} (p : A -> bool) (l : list A) : list A :=
  filter (fun x => p x) l.
Definition drop_matching {A} (p : A -> bool) (l : list A) : list A :=
  filter (fun x => negb (p x)) l.

(** The query documents the routes pass to [Note.find] and
    [Note.deleteMany]. *)
Inductive NoteFilter :=
| ByRegulation (id : string)       (* { regulation: id } *)
| ByBranch (id : string)           (* { branch: id } *)
| BySubject (id : string)          (* { subject: id } *)
| ByIds (ids : list string).       (* { _id: { $in: ids } } *)

Definition note_matches (f : NoteFilter) (n : Note.t) : bool :=
  match f with
  | ByRegulation id => String.eqb (Note.regulation n) id
  | ByBranch id => String.eqb (Note.branch n) id
  | BySubject id => String.eqb (Note.subject n) id
  | ByIds ids => existsb (String.eqb (Note._id n)) ids
  end.

Definition removed (k : Kind) (ids : list string) : list Event :=
  map (EvRemove k) ids.

(** [Note.find(filter)] and [Note.findById(id)] on values that are
    ObjectIds.  The cast mongoose makes of a string of the request before
    it sends the query, and the CastError of a string that does not cast,
    are [casting], below: the routes that give such a string to a query
    go through it. *)
Definition Note_find (v : Via) (f : NoteFilter) : M (list Note.t) :=
  query v (fun d => keep (note_matches f) (notes d)).

Definition Note_deleteMany (v : Via) (f : NoteFilter) : M unit :=
  update v
    (fun d => set_notes (drop_matching (note_matches f) (notes d)) d)
    (fun d => removed KNote (map Note._id (keep (note_matches f) (notes d)))).

Definition Note_findById (v : Via) (id : string) : M (option Note.t) :=
  query v (fun d => find_first (fun n => String.eqb (Note._id n) id) (notes d)).

Definition has_id {A} (get : A -> string) (id : string) (l : list A) : list string :=
  match find_first (fun x => String.eqb (get x) id) l with
  | Some _ => [id]
  | None => []
  end.

(** [Note.findByIdAndDelete(id)] and [note.deleteOne()]. *)
Definition Note_findByIdAndDelete (v : Via) (id : string) : M unit :=
  update v
    (fun d => set_notes
                (remove_first (fun n => String.eqb (Note._id n) id) (notes d)) d)
    (fun d => removed KNote (has_id Note._id id (notes d))).

Definition subject_in (bid : string) (s : Subject.t) : bool :=
  String.eqb (Subject.branch s) bid.

Definition Subject_find (v : Via) (bid : string) : M (list Subject.t) :=
  query v (fun d => keep (subject_in bid) (subjects d)).

Definition Subject_deleteMany (v : Via) (bid : string) : M unit :=
  update v
    (fun d => set_subjects (drop_matching (subject_in bid) (subjects d)) d)
    (fun d => removed KSubject
                (map Subject._id (keep (subject_in bid) (subjects d)))).

Definition Subject_findById (v : Via) (id : string) : M (option Subject.t) :=
  query v (fun d =>
    find_first (fun s => String.eqb (Subject._id s) id) (subjects d)).

Definition Subject_findByIdAndDelete (v : Via) (id : string) : M unit :=
  update v
    (fun d => set_subjects
                (remove_first (fun s => String.eqb (Subject._id s) id)
                   (subjects d)) d)
    (fun d => removed KSubject (has_id Subject._id id (subjects d))).

Definition branch_in (rid : string) (b : Branch.t) : bool :=
  String.eqb (Branch.regulation b) rid.

Definition Branch_find (v : Via) (rid : string) : M (list Branch.t) :=
  query v (fun d => keep (branch_in rid) (branches d)).

Definition Branch_deleteMany (v : Via) (rid : string) : M unit :=
  update v
    (fun d => set_branches (drop_matching (branch_in rid) (branches d)) d)
    (fun d => removed KBranch
                (map Branch._id (keep (branch_in rid) (branches d)))).

Definition Branch_findById (v : Via) (id : string) : M (option Branch.t) :=
  query v (fun d =>
    find_first (fun b => String.eqb (Branch._id b) id) (branches d)).

Definition Branch_findByIdAndDelete (v : Via) (id : string) : M unit :=
  update v
    (fun d => set_branches
                (remove_first (fun b => String.eqb (Branch._id b) id)
                   (branches d)) d)
    (fun d => removed KBranch (has_id Branch._id id (branches d))).

Definition Regulation_findById (v : Via) (id : string)
  : M (option Regulation.t) :=
  query v (fun d =>
    find_first (fun r => String.eqb (Regulation._id r) id) (regulations d)).

Definition Regulation_findByIdAndDelete (v : Via) (id : string) : M unit :=
  update v
    (fun d => set_regulations
                (remove_first (fun r => String.eqb (Regulation._id r) id)
                   (regulations d)) d)
    (fun d => removed KRegulation (has_id Regulation._id id (regulations d))).

(** [Faculty.findByIdAndUpdate(fid, { $pull: { uploadedNotes: nid } })]:
    the first Faculty document with that [_id], if any, loses every
    occurrence of [nid]. *)
Definition pull_note (nid : string) (f : Faculty.t) : Faculty.t :=
  Faculty.mk (Faculty._id f) (Faculty.name f) (Faculty.email f)
    (Faculty.employeeId f) (Faculty.designation f) (Faculty.password f)
    (drop_matching (String.eqb nid) (Faculty.uploadedNotes f))
    (Faculty.createdAt f).

Fixpoint update_first {A} (p : A -> bool) (f : A -> A) (l : list A) : list A :=
  match l with
  | [] => []
  | x :: rest => if p x then f x :: rest else x :: update_first p f rest
  end.

Definition Faculty_pull (v : Via) (fid nid : string) : M unit :=
  update v
    (fun d => set_faculty
                (update_first (fun f => String.eqb (Faculty._id f) fid)
                   (pull_note nid) (faculty d)) d)
    (fun _ => [EvPull fid nid]).

(** [utils/s3.js]: [deleteS3Object], also exported as [deleteFile].  S3
    answers a delete of an absent key with success. *)
Definition deleteS3Object (fileKey : string) : M unit :=
  (fun st => (Ok tt, emit [EvBlobDelete fileKey] st)) ;;;
  await_call ;;;
  fun st => (Ok tt, set_bucket (delete fileKey (bucket st)) st).

Definition deleteFile := deleteS3Object.

(** [mongoose.startSession()] followed by [session.startTransaction()]. *)
Definition startSession : M unit :=
  await_call ;;; fun st => (Ok tt, set_session (committed st) st).

Definition commitTransaction : M unit :=
  await_call ;;; fun st => (Ok tt, emit [EvCommit] (set_committed (session st) st)).

Definition abortTransaction : M unit :=
  await_call ;;; fun st => (Ok tt, emit [EvAbort] st).

(** ** Request strings in queries on ObjectId paths *)

Section Casting.

(** The strings mongoose casts to an ObjectId, and the message of the
    CastError it raises for a value it does not cast. *)
Variable castable : string -> bool.
Variable castError : string -> string.

(** A query that gives strings of the request for a path of type
    ObjectId: mongoose casts them, in order, before it sends the query.
    A string that does not cast rejects the query with a CastError that
    names it, and no call is made.  The queries above are the queries on
    values that are ObjectIds already: the [_id]s of documents, and
    strings that [ObjectId.isValid] has accepted. *)
Definition casting {A} (values : list string) (q : M A) : M A :=
  match find_first (fun v => negb (castable v)) values with
  | Some v => throw (castError v)
  | None => q
  end.

End Casting.

(** ** [Routes/admin.js] *)

Module Admin.
Section Router.

(** [mongoose.Types.ObjectId.isValid], from the driver. *)
Variable isValid : string -> bool.

(** [bcrypt.hash(password, 10)], from bcryptjs. *)
Variable bcrypt_hash : string -> string.

(** The [_id] and the creation time a new document gets when the
    handler has made [n] collaborator calls. *)
Variable newObjectId : nat -> string.
Variable Date_now : nat -> nat.

(** The cast of a request string to an ObjectId, from mongoose: the
    routes that give [req.params.id] to a query without [isValid]. *)
Variable castable : string -> bool.
Variable castError : string -> string.

(** DELETE /admin/regulations/:id *)
Definition delete_regulations (id : string) : M Response :=
  startSession ;;;
  try_catch
    ((if negb (isValid id)
      then respond (json 400 (Message "Invalid ID")) else ret tt) ;;;
     regulation <~ Regulation_findById InSession id ;;
     (if regulation is None
      then respond (json 404 (Message "Regulation not found"))
      else ret tt) ;;;
     notes <~ Note_find InSession (ByRegulation id) ;;
     for_of notes (fun note => deleteFile (Note.fileKey note)) ;;;
     Note_deleteMany InSession (ByRegulation id) ;;;
     branches <~ Branch_find InSession id ;;
     for_of branches (fun branch =>
       branchNotes <~ Note_find InSession (ByBranch (Branch._id branch)) ;;
       for_of branchNotes (fun note => deleteFile (Note.fileKey note)) ;;;
       Note_deleteMany InSession (ByBranch (Branch._id branch)) ;;;
       subjects <~ Subject_find InSession (Branch._id branch) ;;
       for_of subjects (fun subject =>
         subjectNotes <~
           Note_find InSession (BySubject (Subject._id subject)) ;;
         for_of subjectNotes (fun note => deleteFile (Note.fileKey note)) ;;;
         Note_deleteMany InSession (BySubject (Subject._id subject))) ;;;
       Subject_deleteMany InSession (Branch._id branch)) ;;;
     Branch_deleteMany InSession id ;;;
     Regulation_findByIdAndDelete InSession id ;;;
     commitTransaction ;;;
     ret (json 200 (Message
       "Regulation and all related branches, subjects, and notes deleted successfully.")))
    (fun err =>
       abortTransaction ;;;
       ret (json 500 (Message "Error during cascade delete"))).

(** DELETE /admin/branches/:id *)
Definition delete_branches (id : string) : M Response :=
  startSession ;;;
  try_catch
    ((if negb (isValid id)
      then respond (json 400 (Message "Invalid ID")) else ret tt) ;;;
     branch <~ Branch_findById InSession id ;;
     (if branch is None
      then respond (json 404 (Message "Branch not found"))
      else ret tt) ;;;
     branchNotes <~ Note_find InSession (ByBranch id) ;;
     for_of branchNotes (fun note => deleteFile (Note.fileKey note)) ;;;
     Note_deleteMany InSession (ByBranch id) ;;;
     Subject_deleteMany InSession id ;;;
     Branch_findByIdAndDelete InSession id ;;;
     commitTransaction ;;;
     ret (json 200 (Message
       "Branch and related subjects/notes deleted successfully.")))
    (fun err =>
       abortTransaction ;;;
       ret (json 500 (Message "Error deleting branch"))).

(** DELETE /admin/subjects/:id *)
Definition delete_subjects (id : string) : M Response :=
  startSession ;;;
  try_catch
    ((if negb (isValid id)
      then respond (json 400 (Message "Invalid ID")) else ret tt) ;;;
     subject <~ Subject_findById InSession id ;;
     (if subject is None
      then respond (json 404 (Message "Subject not found"))
      else ret tt) ;;;
     notes <~ Note_find InSession (BySubject id) ;;
     for_of notes (fun note => deleteFile (Note.fileKey note)) ;;;
     Note_deleteMany InSession (BySubject id) ;;;
     Subject_findByIdAndDelete InSession id ;;;
     commitTransaction ;;;
     ret (json 200 (Message
       "Subject and related notes deleted successfully.")))
    (fun err =>
       abortTransaction ;;;
       ret (json 500 (Message "Error deleting subject"))).

(** DELETE /admin/notes/:id *)
Definition delete_notes (id : string) : M Response :=
  try_catch
    (note <~ casting castable castError [id] (Note_findById Direct id) ;;
     match note with
     | None => respond (json 404 (Message "Note not found"))
     | Some note =>
         deleteFile (Note.fileKey note) ;;;
         casting castable castError [id] (Note_findByIdAndDelete Direct id) ;;;
         ret (json 200 (Message "Note deleted"))
     end)
    (fun err => ret (json 500 (Message "Server error"))).

(** [doc.toObject()] on a Faculty document: every path of the schema. *)
Definition toObject (f : Faculty.t) : gmap string JsValue :=
  <["_id" := JStr (Faculty._id f)]>
 (<["name" := JStr (Faculty.name f)]>
 (<["email" := JStr (Faculty.email f)]>
 (<["employeeId" := JStr (Faculty.employeeId f)]>
 (<["designation" := JStr (Faculty.designation f)]>
 (<["password" := JStr (Faculty.password f)]>
 (<["uploadedNotes" := JIds (Faculty.uploadedNotes f)]>
 (<["createdAt" := JNum (Faculty.createdAt f)]> ∅))))))).

(** [.sort({ createdAt: -1 })] *)
Fixpoint insert_newest (x : Faculty.t) (l : list Faculty.t)
  : list Faculty.t :=
  match l with
  | [] => [x]
  | y :: rest =>
      if Nat.leb (Faculty.createdAt y) (Faculty.createdAt x)
      then x :: y :: rest
      else y :: insert_newest x rest
  end.

Definition newest_first (l : list Faculty.t) : list Faculty.t :=
  foldr insert_newest [] l.

(** GET /admin/faculty; [.select("-password")] leaves the path out of
    every document the query returns. *)
Definition get_faculty : M Response :=
  try_catch
    (faculty <~ query Direct (fun d =>
                  map (fun f => delete "password" (toObject f))
                      (newest_first (faculty d))) ;;
     ret (json 200 (FacultyDocs faculty)))
    (fun err => ret (json 500 (Message "Server error"))).

(** The fields the faculty routes read from [req.body]; an absent field
    and an empty string are both falsy and are both [""] here. *)
Record FacultyBody := mkFacultyBody {
  b_name : string;
  b_email : string;
  b_password : string;
  b_employeeId : string;
  b_designation : string
}.

Definition falsy (s : string) : bool := String.eqb s "".

Definition Faculty_findOne (p : Faculty.t -> bool) : M (option Faculty.t) :=
  query Direct (fun d => find_first p (faculty d)).

(** [new Faculty({..}).save()] *)
Definition Faculty_create (name email password employeeId designation : string)
  : M Faculty.t :=
  await_call ;;;
  fun st =>
    let doc := Faculty.mk (newObjectId (clock st)) name email employeeId
                 designation password [] (Date_now (clock st)) in
    (Ok doc,
     set_committed (set_faculty (faculty (committed st) ++ [doc])
                      (committed st)) st).

(** [faculty.save()] on a loaded document. *)
Definition Faculty_save (doc : Faculty.t) : M Faculty.t :=
  await_call ;;;
  fun st =>
    (Ok doc,
     set_committed
       (set_faculty
          (update_first
             (fun f => String.eqb (Faculty._id f) (Faculty._id doc))
             (fun _ => doc) (faculty (committed st)))
          (committed st)) st).

(** POST /admin/faculty *)
Definition post_faculty (b : FacultyBody) : M Response :=
  try_catch
    ((if falsy (b_name b) || falsy (b_email b) || falsy (b_password b)
         || falsy (b_employeeId b) || falsy (b_designation b)
      then respond (json 400 (Message "Required fields missing"))
      else ret tt) ;;;
     byEmail <~ Faculty_findOne
                  (fun f => String.eqb (Faculty.email f) (b_email b)) ;;
     (if byEmail is Some _
      then respond (json 400 (Message "Email already exists"))
      else ret tt) ;;;
     byEmployeeId <~ Faculty_findOne
                  (fun f => String.eqb (Faculty.employeeId f)
                              (b_employeeId b)) ;;
     (if byEmployeeId is Some _
      then respond (json 400 (Message "Employee ID already exists"))
      else ret tt) ;;;
     let hashedPassword := bcrypt_hash (b_password b) in
     saved <~ Faculty_create (b_name b) (b_email b) hashedPassword
                (b_employeeId b) (b_designation b) ;;
     let savedWithoutPassword := delete "password" (toObject saved) in
     ret (json 201 (FacultyDoc savedWithoutPassword)))
    (fun err => ret (json 500 (Message "Server error"))).

Definition with_email (e : string) (f : Faculty.t) : Faculty.t :=
  Faculty.mk (Faculty._id f) (Faculty.name f) e (Faculty.employeeId f)
    (Faculty.designation f) (Faculty.password f) (Faculty.uploadedNotes f)
    (Faculty.createdAt f).
Definition with_employeeId (e : string) (f : Faculty.t) : Faculty.t :=
  Faculty.mk (Faculty._id f) (Faculty.name f) (Faculty.email f) e
    (Faculty.designation f) (Faculty.password f) (Faculty.uploadedNotes f)
    (Faculty.createdAt f).
Definition with_name (n : string) (f : Faculty.t) : Faculty.t :=
  Faculty.mk (Faculty._id f) n (Faculty.email f) (Faculty.employeeId f)
    (Faculty.designation f) (Faculty.password f) (Faculty.uploadedNotes f)
    (Faculty.createdAt f).
Definition with_designation (d : string) (f : Faculty.t) : Faculty.t :=
  Faculty.mk (Faculty._id f) (Faculty.name f) (Faculty.email f)
    (Faculty.employeeId f) d (Faculty.password f) (Faculty.uploadedNotes f)
    (Faculty.createdAt f).
Definition with_password (p : string) (f : Faculty.t) : Faculty.t :=
  Faculty.mk (Faculty._id f) (Faculty.name f) (Faculty.email f)
    (Faculty.employeeId f) (Faculty.designation f) p
    (Faculty.uploadedNotes f) (Faculty.createdAt f).

(** PUT /admin/faculty/:id *)
Definition put_faculty (id : string) (b : FacultyBody) : M Response :=
  try_catch
    ((if negb (isValid id)
      then respond (json 400 (Message "Invalid ID")) else ret tt) ;;;
     found <~ Faculty_findOne (fun f => String.eqb (Faculty._id f) id) ;;
     match found with
     | None => respond (json 404 (Message "Faculty not found"))
     | Some faculty =>
         faculty <~
           (if negb (falsy (b_email b))
               && negb (String.eqb (b_email b) (Faculty.email faculty))
            then
              emailExists <~ Faculty_findOne (fun f =>
                String.eqb (Faculty.email f) (b_email b)
                && negb (String.eqb (Faculty._id f) id)) ;;
              if emailExists is Some _
              then respond (json 400 (Message "Email already exists"))
              else ret (with_email (b_email b) faculty)
            else ret faculty) ;;
         faculty <~
           (if negb (falsy (b_employeeId b))
               && negb (String.eqb (b_employeeId b)
                          (Faculty.employeeId faculty))
            then
              empExists <~ Faculty_findOne (fun f =>
                String.eqb (Faculty.employeeId f) (b_employeeId b)
                && negb (String.eqb (Faculty._id f) id)) ;;
              if empExists is Some _
              then respond (json 400 (Message "Employee ID already exists"))
              else ret (with_employeeId (b_employeeId b) faculty)
            else ret faculty) ;;
         let faculty :=
           if negb (falsy (b_name b))
           then with_name (b_name b) faculty else faculty in
         let faculty :=
           if negb (falsy (b_designation b))
           then with_designation (b_designation b) faculty else faculty in
         let faculty :=
           if negb (falsy (b_password b))
           then with_password (bcrypt_hash (b_password b)) faculty
           else faculty in
         updated <~ Faculty_save faculty ;;
         let updatedWithoutPassword := delete "password" (toObject updated) in
         ret (json 200 (FacultyDoc updatedWithoutPassword))
     end)
    (fun err => ret (json 500 (Message "Server error"))).

End Router.
End Admin.

(** ** [Routes/notes.js] *)

(** ** JSZip *)

(** [zip.file(name, data)] of jszip 3, the library the notes router
    imports, on the archive as a map from entry names to contents.  Its
    option [createFolders] is on by default, so adding a file also adds an
    entry for every folder of its path; a folder entry has a name that
    ends in a slash and no data. *)
Module JSZip.

Fixpoint endsWithSlash (s : string) : bool :=
  match s with
  | EmptyString => false
  | String c EmptyString => Ascii.eqb c "/"%char
  | String _ rest => endsWithSlash rest
  end.

(** [path.lastIndexOf("/")] *)
Fixpoint lastIndexOfSlash (s : string) : option nat :=
  match s with
  | EmptyString => None
  | String c rest =>
      match lastIndexOfSlash rest with
      | Some i => Some (S i)
      | None => if Ascii.eqb c "/"%char then Some 0 else None
      end
  end.

(** [path.substring(0, path.length - 1)] *)
Fixpoint dropLast (s : string) : string :=
  match s with
  | EmptyString => EmptyString
  | String _ EmptyString => EmptyString
  | String c rest => String c (dropLast rest)
  end.

Definition forceTrailingSlash (path : string) : string :=
  if endsWithSlash path then path else path ++ "/".

(** [parentFolder(path)]: the path up to its last slash, a trailing slash
    apart; empty when that slash is the first character or there is
    none. *)
Definition parentFolder (path : string) : string :=
  let path := if endsWithSlash path then dropLast path else path in
  match lastIndexOfSlash path with
  | Some (S i) => String.substring 0 (S i) path
  | _ => ""
  end.

(** [folderAdd(name)]: the entry of the folder, after those of its own
    folders, unless the archive has it already.  The parent of a path is
    shorter than the path, so [fuel] above the length of [name] is
    enough. *)
Fixpoint folderAdd (fuel : nat) (name : string) (files : gmap string Blob)
  : gmap string Blob :=
  match fuel with
  | 0 => files
  | S fuel =>
      let name := forceTrailingSlash name in
      match files !! name with
      | Some _ => files
      | None =>
          let parent := parentFolder name in
          let files := if String.eqb parent "" then files
                       else folderAdd fuel parent files in
          <[name := []]> files
      end
  end.

(** [fileAdd(name, data)] for a file: its folders, then the entry, which
    replaces an entry of the same name. *)
Definition file (name : string) (data : Blob) (files : gmap string Blob)
  : gmap string Blob :=
  let parent := parentFolder name in
  let files := if String.eqb parent "" then files
               else folderAdd (S (String.length parent)) parent files in
  <[name := data]> files.

End JSZip.

Module Notes.
Section Router.

(** The body S3 serves for a key that has no object: [fetch] resolves
    whatever the HTTP status, and the handler does not look at it. *)
Variable errorDocument : string -> Blob.

(** The cast of a request string to an ObjectId, from mongoose. *)
Variable castable : string -> bool.
Variable castError : string -> string.

(** DELETE /notes/:id *)
Definition delete_note (noteId : string) : M Response :=
  try_catch
    (note <~ casting castable castError [noteId]
               (Note_findById Direct noteId) ;;
     match note with
     | None => respond (json 404 (Message "Note not found"))
     | Some note =>
         (if negb (String.eqb (Note.fileKey note) "")
          then deleteS3Object (Note.fileKey note) else ret tt) ;;;
         Faculty_pull Direct (Note.uploadedBy note) (Note._id note) ;;;
         Note_findByIdAndDelete Direct (Note._id note) ;;;
         ret (json 200 (Message "Note deleted successfully"))
     end)
    (fun err => ret (json 500 (MessageError "Delete failed" err))).

(** [getDownloadURL(key)], [fetch(url)] and [response.arrayBuffer()]:
    the three awaits of one blob fetch, as one gateway call on [key]. *)
Definition fetch_blob (key : string) : M Blob :=
  fun st =>
    match fetch_rejects st key with
    | Some e => (Throw e, st)
    | None => (Ok (default (errorDocument key) (bucket st !! key)), st)
    end.

(** The callback of [notes.map] in the archive route. *)
Definition stage (note : Note.t) : M (option (string * Blob)) :=
  if String.eqb (Note.fileKey note) "" then ret None
  else
    buffer <~ fetch_blob (Note.fileKey note) ;;
    ret (Some (Note.title note ++ ".pdf", buffer)).

(** [Promise.all]: the results in the order of the promises, or a
    rejection when one of them rejects.  The callbacks only read, so
    their interleaving is not observable; they are run in list order. *)
Fixpoint Promise_all {A} (ps : list (M A)) : M (list A) :=
  match ps with
  | [] => ret []
  | p :: rest =>
      x <~ p ;;
      xs <~ Promise_all rest ;;
      ret (x :: xs)
  end.

(** [filesData.forEach((f) => f && zip.file(f.name, ..))] on a new JSZip:
    the archive as its entries. *)
Definition zip_files (filesData : list (option (string * Blob)))
  : gmap string Blob :=
  foldl (fun zip f =>
           match f with
           | Some (name, buffer) => JSZip.file name buffer zip
           | None => zip
           end) ∅ filesData.

(** POST /notes/download-zip; [Content-Length], the size of the
    serialised archive, is left out of the headers. *)
Definition post_download_zip (noteIds : option (list string)) : M Response :=
  try_catch
    (match noteIds with
     | None | Some [] => respond (json 400 (Message "No notes selected"))
     | Some noteIds =>
         notes <~ casting castable castError noteIds
                    (Note_find Direct (ByIds noteIds)) ;;
         (if notes is [] then respond (json 404 (Message "Notes not found"))
          else ret tt) ;;;
         filesData <~ Promise_all (map stage notes) ;;
         ret (mkResponse 200
                [("Content-Type", "application/zip");
                 ("Content-Disposition", "attachment; filename=notes.zip")]
                (ZipBuffer (zip_files filesData)))
     end)
    (fun err => ret (json 500 (MessageError "Error creating ZIP" err))).

End Router.
End Notes.

(** ** Sample data *)

Module Sample.

Definition reg1 := Regulation.mk "r1" "R20" 8 1.
Definition reg2 := Regulation.mk "r2" "R23" 8 2.
Definition br1 := Branch.mk "b1" "CSE" "05" "r1".
Definition br2 := Branch.mk "b2" "ECE" "04" "r1".
Definition sub1 := Subject.mk "s1" "Maths" "M1" "b1" "1" 3.
Definition sub2 := Subject.mk "s2" "Signals" "S1" "b2" "3" 4.
Definition note1 := Note.mk "n1" "A" "r1" "s1" "b1" "1" "uploads/1_A.pdf" "f1" 5.
Definition note2 := Note.mk "n2" "B" "r1" "s2" "b2" "3" "uploads/2_B.pdf" "f1" 6.
(** A note saved with a regulation that is not its branch's: the
    save route stores the three references as the request gives them. *)
Definition stray := Note.mk "n3" "C" "r2" "s2" "b2" "3" "uploads/3_C.pdf" "f1" 7.
Definition fac1 :=
  Faculty.mk "f1" "Asha" "asha@example.org" "E1" "Professor" "$2a$10$hash"
    ["n1"; "n2"] 0.

Definition blobA : Blob := [Byte.x41].
Definition blobB : Blob := [Byte.x42; Byte.x42].
Definition blobC : Blob := [Byte.x43].

Definition bucket0 : gmap string Blob :=
  <["uploads/1_A.pdf" := blobA]>
 (<["uploads/2_B.pdf" := blobB]>
 (<["uploads/3_C.pdf" := blobC]> ∅)).

Definition db0 : Db :=
  mkDb [reg1; reg2] [br1; br2] [sub1; sub2] [note1; note2] [fac1].

(** The same store with the stray note. *)
Definition db1 : Db := set_notes [note1; note2; stray] db0.

Definition never : nat -> option string := fun _ => None.
Definition at_call (n : nat) : nat -> option string :=
  fun k => if Nat.eqb k n then Some "ECONNRESET" else None.

Definition world (d : Db) (r : nat -> option string) : St :=
  mkSt d d bucket0 [] 0 r (fun _ => None).

Definition valid (id : string) : bool := negb (String.eqb id "").

(** The sample store after the faculty member changed password. *)
Definition db0' : Db :=
  set_faculty [Admin.with_password "$2a$10$other" fac1] db0.

Definition newId (n : nat) : string := "new".
Definition now (n : nat) : nat := 100 + n.

End Sample.

(** ** The cascade deletion engine as one operation *)

(** The router dispatches DELETE /admin/{regulations|branches|subjects}/:id
    to the three cascade handlers. *)
Inductive RootKind := RegulationRoot | BranchRoot | SubjectRoot.

Definition deleteHierarchy (isValid : string -> bool)
    (kind : RootKind) (id : string) : M Response :=
  match kind with
  | RegulationRoot => Admin.delete_regulations isValid id
  | BranchRoot => Admin.delete_branches isValid id
  | SubjectRoot => Admin.delete_subjects isValid id
  end.

Definition success_message (kind : RootKind) : string :=
  match kind with
  | RegulationRoot =>
      "Regulation and all related branches, subjects, and notes deleted successfully."
  | BranchRoot => "Branch and related subjects/notes deleted successfully."
  | SubjectRoot => "Subject and related notes deleted successfully."
  end.

Definition not_found_message (kind : RootKind) : string :=
  match kind with
  | RegulationRoot => "Regulation not found"
  | BranchRoot => "Branch not found"
  | SubjectRoot => "Subject not found"
  end.

(** The [_id]s of the collection the root lives in. *)
Definition root_ids (kind : RootKind) (d : Db) : list string :=
  match kind with
  | RegulationRoot => map Regulation._id (regulations d)
  | BranchRoot => map Branch._id (branches d)
  | SubjectRoot => map Subject._id (subjects d)
  end.

(** The events a run added to the trace. *)
Definition events_since (st st' : St) : list Event :=
  drop (length (trace st)) (trace st').

(** The three statements every cascade repeats for a note filter: find the
    notes, delete their blobs one by one, delete the notes. *)
Definition purge (f : NoteFilter) : M unit :=
  notes <~ Note_find InSession f ;;
  for_of notes (fun note => deleteFile (Note.fileKey note)) ;;;
  Note_deleteMany InSession f.

(** ** Specification vocabulary *)

(** Outcomes of the contract of the engine. *)
Definition succeeded (kind : RootKind) (r : option Response) : Prop :=
  r = Some (json 200 (Message (success_message kind))).

Definition is_not_found (kind : RootKind) (r : option Response) : Prop :=
  r = Some (json 404 (Message (not_found_message kind))).

(** StorageError: the 500 of the [catch] block, or no response at all when
    the abort itself rejects. *)
Definition storage_error (r : option Response) : Prop :=
  match r with
  | Some r => status r = 500
  | None => True
  end.

(** Events of the body of a transaction. *)
Definition inner (e : Event) : bool :=
  match e with
  | EvBlobDelete _ | EvRemove _ _ => true
  | _ => false
  end.

(** Blob deletions come only after the commit. *)
Definition blobs_only_after_commit (evs : list Event) : Prop :=
  forall pre key post,
    evs = (pre ++ EvBlobDelete key :: post)%list -> EvCommit ∈ pre.

(** Children before parents. *)
Definition rank (k : Kind) : nat :=
  match k with
  | KNote => 0
  | KSubject => 1
  | KBranch => 2
  | KRegulation => 3
  end.

Fixpoint removal_ranks (evs : list Event) : list nat :=
  match evs with
  | [] => []
  | EvRemove k _ :: rest => rank k :: removal_ranks rest
  | _ :: rest => removal_ranks rest
  end.

Fixpoint nondecreasing (l : list nat) : bool :=
  match l with
  | a :: (b :: _) as rest => Nat.leb a b && nondecreasing rest
  | _ => true
  end.

Definition children_first (evs : list Event) : bool :=
  nondecreasing (removal_ranks evs).

(** The internal-consistency invariant of the data model: a Note's branch
    is its Subject's branch, its regulation is its Branch's regulation. *)
Definition consistent (d : Db) : bool :=
  forallb (fun n =>
    forallb (fun s =>
      implb (String.eqb (Subject._id s) (Note.subject n))
            (String.eqb (Subject.branch s) (Note.branch n))) (subjects d)
    && forallb (fun b =>
      implb (String.eqb (Branch._id b) (Note.branch n))
            (String.eqb (Branch.regulation b) (Note.regulation n)))
         (branches d)) (notes d).

(** Records that reference a Regulation, directly or through the
    hierarchy of a given store. *)
Definition branches_of (d : Db) (rid : string) : list Branch.t :=
  keep (branch_in rid) (branches d).

Definition subject_refs (d : Db) (rid : string) (s : Subject.t) : bool :=
  existsb (fun b => String.eqb (Subject.branch s) (Branch._id b))
    (branches_of d rid).

Definition subjects_of (d : Db) (rid : string) : list Subject.t :=
  keep (subject_refs d rid) (subjects d).

Definition note_refs (d : Db) (rid : string) (n : Note.t) : bool :=
  String.eqb (Note.regulation n) rid
  || existsb (fun b => String.eqb (Note.branch n) (Branch._id b))
       (branches_of d rid)
  || existsb (fun s => String.eqb (Note.subject n) (Subject._id s))
       (subjects_of d rid).

(** The ledger invariant: [Faculty.uploadedNotes] names existing Notes only. *)
Definition ledger_ok (d : Db) : bool :=
  forallb (fun f =>
    forallb (fun nid =>
      existsb (fun n => String.eqb (Note._id n) nid) (notes d))
      (Faculty.uploadedNotes f)) (faculty d).

(** Two stores that differ at most in the password hashes they hold. *)
Definition forget_password (f : Faculty.t) : Faculty.t :=
  Admin.with_password "" f.

Definition same_but_passwords (d1 d2 : Db) : Prop :=
  regulations d1 = regulations d2 /\ branches d1 = branches d2 /\
  subjects d1 = subjects d2 /\ notes d1 = notes d2 /\
  map forget_password (faculty d1) = map forget_password (faculty d2).

(** The Faculty documents a response carries. *)
Definition faculty_docs (r : option Response) : list (gmap string JsValue) :=
  match r with
  | Some (mkResponse _ _ (FacultyDoc doc)) => [doc]
  | Some (mkResponse _ _ (FacultyDocs docs)) => docs
  | _ => []
  end.

(** ** Reasoning about handlers *)

(** [triple P m Q E]: from a state in [P], [m] either completes with a
    value and a state in [Q], or leaves in a state in [E]: [E None] after a
    rejection, [E (Some r)] after responding [r] early. *)
Definition triple {A} (P : St -> Prop) (m : M A)
    (Q : A -> St -> Prop) (E : option Response -> St -> Prop) : Prop :=
  forall st, P st ->
    match m st with
    | (Ok a, st') => Q a st'
    | (Throw _, st') => E None st'
    | (Return r, st') => E (Some r) st'
    end.

(** An early response is never the success response. *)
Definition refusal (r : option Response) : Prop :=
  match r with
  | Some r => status r <> 200
  | None => True
  end.

(** [steps R m]: whatever its outcome, [m] moves the state along [R], and
    it responds early only to refuse. *)
Definition steps {A} (R : St -> St -> Prop) (m : M A) : Prop :=
  forall st,
    R st (m st).2 /\
    match (m st).1 with
    | Return r => refusal (Some r)
    | _ => True
    end.

(** Predicates on the view of the transaction and on the trace. *)
Definition on_body (X : Db -> list Event -> Prop) : St -> Prop :=
  fun st => X (session st) (trace st).

(** Inside the body of a transaction: the committed store does not move
    and the trace grows by blob deletions and removals only. *)
Definition in_body (st st' : St) : Prop :=
  committed st' = committed st /\
  exists evs, trace st' = (trace st ++ evs)%list /\ forallb inner evs = true.

(** What a run of a cascade handler can look like from outside: blob
    deletions and removals, closed by the commit on success, and otherwise
    by the abort or by nothing; without commit the committed store is the
    one before the call. *)
Definition cascade_outcome (kind : RootKind) (st : St)
    (r : option Response) (st' : St) : Prop :=
  exists evs, forallb inner evs = true /\
    ((succeeded kind r /\ committed st' = session st' /\
      trace st' = (trace st ++ evs ++ [EvCommit])%list) \/
     (~ succeeded kind r /\ committed st' = committed st /\
      (trace st' = (trace st ++ evs)%list \/
       trace st' = (trace st ++ evs ++ [EvAbort])%list))).

Definition blob_events (ns : list Note.t) : list Event :=
  map (fun n => EvBlobDelete (Note.fileKey n)) ns.

(** The transaction view holds records of the store [d0] only. *)
Definition sub_db (d0 d : Db) : Prop :=
  notes d ⊆ notes d0 /\ subjects d ⊆ subjects d0 /\ branches d ⊆ branches d0.

(** No note of the view matches the filter. *)
Definition no_match (f : NoteFilter) (d : Db) : Prop :=
  forall n, n ∈ notes d -> note_matches f n = false.

Definition bounded (k : nat) (l : list nat) : bool :=
  forallb (fun r => Nat.leb r k) l.

(** The trace has grown from [t0] by events whose removals are in order
    and of rank at most [k]. *)
Definition ranked (t0 : list Event) (k : nat) (t : list Event) : Prop :=
  exists evs, t = (t0 ++ evs)%list /\ children_first evs = true /\
              bounded k (removal_ranks evs) = true.

(** Assertions of the walk through a cascade: at the start of the
    transaction, and once the notes of the regulation are gone, with
    removals so far of rank at most [k]. *)
Definition fresh (d0 : Db) (t0 : list Event) : Db -> list Event -> Prop :=
  fun d t => d = d0 /\ t = t0.

Definition tidy_reg (d0 : Db) (t0 : list Event) (rid : string) (k : nat)
  : Db -> list Event -> Prop :=
  fun d t => sub_db d0 d /\ no_match (ByRegulation rid) d /\ ranked t0 k t.

Definition ordered_exit (t0 : list Event)
  : option Response -> Db -> list Event -> Prop :=
  fun _ _ t => ranked t0 3 t.

(** Assertions of the walk through a successful cascade on a regulation.
    Every note of the store [d0] is still in the view or has had the
    deletion of its blob issued since [t0]. *)
Definition blob_inv (d0 : Db) (t0 : list Event) (d : Db) (t : list Event)
  : Prop :=
  exists evs, t = (t0 ++ evs)%list /\
    forall n, n ∈ notes d0 ->
      n ∈ notes d \/ EvBlobDelete (Note.fileKey n) ∈ evs.

(** A subject leaves the view only after its notes. *)
Definition subj_inv (d0 d : Db) : Prop :=
  forall s, s ∈ subjects d0 ->
    s ∈ subjects d \/ no_match (BySubject (Subject._id s)) d.

Definition no_subject (bid : string) (d : Db) : Prop :=
  forall s, s ∈ subjects d -> subject_in bid s = false.

Definition thorough (d0 : Db) (t0 : list Event) (d : Db) (t : list Event)
  : Prop :=
  regulations d = regulations d0 /\ branches d = branches d0 /\
  sub_db d0 d /\ blob_inv d0 t0 d t /\ subj_inv d0 d.

Definition branch_done (b : Branch.t) (d : Db) : Prop :=
  no_match (ByBranch (Branch._id b)) d /\ no_subject (Branch._id b) d.

(** What a successful cascade on regulation [rid] leaves. *)
Definition complete (d0 : Db) (t0 : list Event) (rid : string)
    (d : Db) (t : list Event) : Prop :=
  keep (branch_in rid) (branches d) = [] /\
  keep (subject_refs d0 rid) (subjects d) = [] /\
  keep (note_refs d0 rid) (notes d) = [] /\
  exists evs, t = (t0 ++ evs)%list /\
    forall n, n ∈ notes d0 -> note_refs d0 rid n = true ->
      EvBlobDelete (Note.fileKey n) ∈ evs.

(** Exits of a walk that only follows the successful path. *)
Definition passes : option Response -> Db -> list Event -> Prop :=
  fun r _ _ => refusal r.

(** Descent.  The Notes under a Branch of the store [d]: those that name
    it, and those of its Subjects. *)
Definition note_under (d : Db) (bid : string) (n : Note.t) : bool :=
  String.eqb (Note.branch n) bid
  || existsb (fun s => String.eqb (Note.subject n) (Subject._id s))
       (keep (subject_in bid) (subjects d)).

(** The removals of the descendants a record has in the store [d]. *)
Definition descendants (d : Db) (k : Kind) (id : string) : list Event :=
  match k with
  | KNote => []
  | KSubject =>
      removed KNote
        (map Note._id (keep (note_matches (BySubject id)) (notes d)))
  | KBranch =>
      removed KSubject
        (map Subject._id (keep (subject_in id) (subjects d)))
      ++ removed KNote (map Note._id (keep (note_under d id) (notes d)))
  | KRegulation =>
      removed KBranch (map Branch._id (branches_of d id))
      ++ removed KSubject (map Subject._id (subjects_of d id))
      ++ removed KNote (map Note._id (keep (note_refs d id) (notes d)))
  end.

(** No record leaves while a descendant remains: when the removal of a
    record is issued, the removals of all the descendants it had in the
    store [d] have been issued before. *)
Definition descendants_first (d : Db) (evs : list Event) : Prop :=
  forall pre k id post, evs = (pre ++ EvRemove k id :: post)%list ->
    forall e, e ∈ descendants d k id -> e ∈ pre.

(** Every record of the store [d0] is still in the view or has had its
    removal issued. *)
Definition gone (d0 d : Db) (evs : list Event) : Prop :=
  (forall n, n ∈ notes d0 ->
     n ∈ notes d \/ EvRemove KNote (Note._id n) ∈ evs) /\
  (forall s, s ∈ subjects d0 ->
     s ∈ subjects d \/ EvRemove KSubject (Subject._id s) ∈ evs) /\
  (forall b, b ∈ branches d0 ->
     b ∈ branches d \/ EvRemove KBranch (Branch._id b) ∈ evs).

(** Assertions of the walk that follows the descent. *)
Definition descent (d0 : Db) (t0 t : list Event) : Prop :=
  exists evs, t = (t0 ++ evs)%list /\ descendants_first d0 evs.

Definition orderly (d0 : Db) (t0 : list Event) (d : Db) (t : list Event)
  : Prop :=
  exists evs, t = (t0 ++ evs)%list /\ descendants_first d0 evs /\
              sub_db d0 d /\ gone d0 d evs.

Definition descent_exit (d0 : Db) (t0 : list Event)
  : option Response -> Db -> list Event -> Prop :=
  fun _ _ t => descent d0 t0 t.

(** The assertion of the loop over the branches of regulation [rid]. *)
Definition reg_walk (d0 : Db) (t0 : list Event) (rid : string)
    (done : list Branch.t) : Db -> list Event -> Prop :=
  fun d t =>
    orderly d0 t0 d t /\ no_match (ByRegulation rid) d /\
    branches d = branches d0 /\
    forall b, b ∈ done -> no_subject (Branch._id b) d.

(** NotFound without side effects: the answer is the 404 of the root kind
    and neither store nor the trace has moved. *)
Definition idle_not_found (isValid : string -> bool) (kind : RootKind)
    (id : string) (st : St) : Prop :=
  is_not_found kind (run (deleteHierarchy isValid kind id) st).1 /\
  committed (run (deleteHierarchy isValid kind id) st).2 = committed st /\
  bucket (run (deleteHierarchy isValid kind id) st).2 = bucket st /\
  trace (run (deleteHierarchy isValid kind id) st).2 = trace st.

(** ** Vocabulary of the archive route *)

(** The Notes a selection resolves to. *)
Definition resolve (noteIds : list string) (d : Db) : list Note.t :=
  keep (note_matches (ByIds noteIds)) (notes d).

(** What a Note contributes to the archive when its fetch is answered. *)
Definition entry (errorDocument : string -> Blob) (b : gmap string Blob)
    (n : Note.t) : option (string * Blob) :=
  if String.eqb (Note.fileKey n) "" then None
  else Some (Note.title n ++ ".pdf",
             default (errorDocument (Note.fileKey n)) (b !! Note.fileKey n)).

Definition zip_response (files : gmap string Blob) : Response :=
  mkResponse 200
    [("Content-Type", "application/zip");
     ("Content-Disposition", "attachment; filename=notes.zip")]
    (ZipBuffer files).

(** The staged files among the results of the fetches. *)
Fixpoint entries (fd : list (option (string * Blob)))
  : list (string * Blob) :=
  match fd with
  | [] => []
  | Some e :: rest => e :: entries rest
  | None :: rest => entries rest
  end.

Definition entry_names (fd : list (option (string * Blob))) : list string :=
  map fst (entries fd).

(** ** Vocabulary of the faculty routes *)

(** Two worlds that an observer who cannot see password hashes cannot
    tell apart: the committed stores differ at most in the hashes, and the
    collaborators answer alike. *)
Definition low_eq (st1 st2 : St) : Prop :=
  same_but_passwords (committed st1) (committed st2) /\
  clock st1 = clock st2 /\
  forall n, rejects st1 n = rejects st2 n.

(** Two outcomes that such an observer cannot tell apart, values being
    compared by [RA]. *)
Definition rel_res {A} (RA : A -> A -> Prop) (x1 x2 : Res A * St) : Prop :=
  low_eq x1.2 x2.2 /\
  match x1.1, x2.1 with
  | Ok a1, Ok a2 => RA a1 a2
  | Throw _, Throw _ => True
  | Return r1, Return r2 => r1 = r2
  | _, _ => False
  end.

Definition related {A} (RA : A -> A -> Prop) (m1 m2 : M A) : Prop :=
  forall st1 st2, low_eq st1 st2 -> rel_res RA (m1 st1) (m2 st2).

Definition same_public (f1 f2 : Faculty.t) : Prop :=
  forget_password f1 = forget_password f2.

Definition same_public_opt (o1 o2 : option Faculty.t) : Prop :=
  match o1, o2 with
  | Some f1, Some f2 => same_public f1 f2
  | None, None => True
  | _, _ => False
  end.

Definition no_password (doc : gmap string JsValue) : Prop :=
  doc !! "password" = None.

(** Two request bodies that differ at most in the password, which both
    give or both leave out. *)
Definition same_but_password_body (b1 b2 : Admin.FacultyBody) : Prop :=
  Admin.b_name b1 = Admin.b_name b2 /\
  Admin.b_email b1 = Admin.b_email b2 /\
  Admin.b_employeeId b1 = Admin.b_employeeId b2 /\
  Admin.b_designation b1 = Admin.b_designation b2 /\
  Admin.falsy (Admin.b_password b1) = Admin.falsy (Admin.b_password b2).

(** Two request bodies that differ at most in the password. *)
Definition same_public_body (b1 b2 : Admin.FacultyBody) : Prop :=
  Admin.b_name b1 = Admin.b_name b2 /\
  Admin.b_email b1 = Admin.b_email b2 /\
  Admin.b_employeeId b1 = Admin.b_employeeId b2 /\
  Admin.b_designation b1 = Admin.b_designation b2.

(** No Faculty document of the response has a [password] key. *)
Definition clean (r : option Response) : Prop :=
  Forall no_password (faculty_docs r).

Definition clean_exit : option Response -> St -> Prop := fun r _ => clean r.


(** ** More sample data *)

Module Sample2.

(** A second note titled "A", whose blob is not in the sample bucket. *)
Definition note4 :=
  Note.mk "n4" "A" "r1" "s1" "b1" "1" "uploads/4_A.pdf" "f1" 8.

Definition db2 : Db :=
  set_notes [Sample.note1; Sample.note2; note4] Sample.db0.

(** The body of the answer of the store to a GET of a missing key. *)
Definition noSuchKey (key : string) : Blob := [Byte.x3c; Byte.x3f].

End Sample2.

(** ** Vocabulary of the frame of a cascade *)

(** [d'] holds records of [d] only, and its Faculty collection. *)
Definition shrunk (d d' : Db) : Prop :=
  regulations d' ⊆ regulations d /\ branches d' ⊆ branches d /\
  subjects d' ⊆ subjects d /\ notes d' ⊆ notes d /\
  faculty d' = faculty d.

(** The view of the transaction holds nothing the store does not. *)
Definition in_sync (st : St) : Prop := shrunk (committed st) (session st).

(** What a statement of a cascade may do: delete blobs, each deletion
    recorded in the trace, and take records out of the view or commit the
    view. *)
Definition framed (st st' : St) : Prop :=
  bucket st' ⊆ bucket st /\
  (exists evs, trace st' = (trace st ++ evs)%list /\
     forall k, is_Some (bucket st !! k) -> bucket st' !! k = None ->
       EvBlobDelete k ∈ evs) /\
  (in_sync st -> in_sync st' /\ shrunk (committed st) (committed st')).

(** Since the trace was [t0], every blob whose deletion was issued is
    gone from the bucket. *)
Definition swept (t0 : list Event) (st : St) : Prop :=
  exists evs, trace st = (t0 ++ evs)%list /\
    forall k, EvBlobDelete k ∈ evs -> bucket st !! k = None.

(** Exits that are refusals, whatever the state. *)
Definition refused : option Response -> St -> Prop := fun r _ => refusal r.

Module Sample3.

(** A note filed under subject [s1] of branch [b1] that names branch
    [b2]: the save route stores the references as the request gives them. *)
Definition misfiled :=
  Note.mk "n5" "D" "r1" "s1" "b2" "1" "uploads/5_D.pdf" "f1" 9.

Definition db3 : Db :=
  set_notes [Sample.note1; Sample.note2; misfiled] Sample.db0.

End Sample3.

(** The view holds every record of [d0] outside the hierarchy of
    regulation [rid], and no record that [d0] does not hold. *)
Definition spared (d0 : Db) (rid : string) (d : Db) : Prop :=
  faculty d = faculty d0 /\
  notes d ⊆ notes d0 /\ subjects d ⊆ subjects d0 /\
  (forall n, n ∈ notes d0 -> note_refs d0 rid n = false -> n ∈ notes d) /\
  (forall s, s ∈ subjects d0 -> subject_refs d0 rid s = false ->
     s ∈ subjects d).

(** ** Vocabulary of the writes of the faculty routes *)

(** Exits of a handler that has not written: the store is [d0], and an
    early response does not carry the code of success. *)
Definition left_alone (d0 : Db) (code : nat)
  : option Response -> St -> Prop :=
  fun r st =>
    committed st = d0 /\
    match r with Some r => status r <> code | None => True end.

(** What POST /admin/faculty created: [doc], from the body [b], last in
    the collection of the store [d0]. *)
Definition created (hash : string -> string) (b : Admin.FacultyBody)
    (d0 : Db) (doc : Faculty.t) (d : Db) : Prop :=
  d = set_faculty (faculty d0 ++ [doc]) d0 /\
  Faculty.name doc = Admin.b_name b /\
  Faculty.email doc = Admin.b_email b /\
  Faculty.employeeId doc = Admin.b_employeeId b /\
  Faculty.designation doc = Admin.b_designation b /\
  Faculty.password doc = hash (Admin.b_password b) /\
  Faculty.uploadedNotes doc = [] /\
  Admin.b_name b <> "" /\ Admin.b_email b <> "" /\
  Admin.b_password b <> "" /\ Admin.b_employeeId b <> "" /\
  Admin.b_designation b <> "" /\
  (Admin.b_email b ∉ map Faculty.email (faculty d0)) /\
  (Admin.b_employeeId b ∉ map Faculty.employeeId (faculty d0)).

(** The e-mail addresses and the employee ids of the store are unique. *)
Definition unique_faculty (d : Db) : Prop :=
  NoDup (map Faculty.email (faculty d)) /\
  NoDup (map Faculty.employeeId (faculty d)).

(** What PUT /admin/faculty/:id wrote: [doc] in the place of [f], the
    first document of the store [d0] with that [_id].  A field the body
    gives replaces the one of [f], the password by its hash; a new e-mail
    address or employee id was that of no other document. *)
Definition edited (hash : string -> string) (id : string)
    (b : Admin.FacultyBody) (d0 : Db) (f doc : Faculty.t) (d : Db) : Prop :=
  find_first (fun x => String.eqb (Faculty._id x) id) (faculty d0) = Some f /\
  d = set_faculty
        (update_first
           (fun x => String.eqb (Faculty._id x) (Faculty._id doc))
           (fun _ => doc) (faculty d0)) d0 /\
  Faculty._id doc = id /\
  Faculty.uploadedNotes doc = Faculty.uploadedNotes f /\
  Faculty.createdAt doc = Faculty.createdAt f /\
  Faculty.name doc
    = (if Admin.falsy (Admin.b_name b) then Faculty.name f
       else Admin.b_name b) /\
  Faculty.email doc
    = (if Admin.falsy (Admin.b_email b) then Faculty.email f
       else Admin.b_email b) /\
  Faculty.employeeId doc
    = (if Admin.falsy (Admin.b_employeeId b) then Faculty.employeeId f
       else Admin.b_employeeId b) /\
  Faculty.designation doc
    = (if Admin.falsy (Admin.b_designation b) then Faculty.designation f
       else Admin.b_designation b) /\
  Faculty.password doc
    = (if Admin.falsy (Admin.b_password b) then Faculty.password f
       else hash (Admin.b_password b)) /\
  (forall g, g ∈ faculty d0 -> Faculty.email g = Faculty.email doc ->
     Faculty.email doc <> Faculty.email f -> Faculty._id g = id) /\
  (forall g, g ∈ faculty d0 ->
     Faculty.employeeId g = Faculty.employeeId doc ->
     Faculty.employeeId doc <> Faculty.employeeId f -> Faculty._id g = id).

(** ** [Routes/notes.js]: POST /save-notes *)

(** [req.user], as [authMiddleware] leaves it. *)
Module User.
Record t := mk {
  id : string;
  role : string
}.
End User.

(** An element of [req.body.uploadedFiles]; a file without
    [originalName] has [None] there. *)
Module UploadedFile.
Record t := mk {
  originalName : option string;
  fileKey : string
}.
End UploadedFile.

(** The fields POST /save-notes reads from [req.body]; [uploadedFiles] is
    [None] when the body has none. *)
Module SaveBody.
Record t := mk {
  regulation : string;
  subject : string;
  branch : string;
  semester : string;
  uploadedFiles : option (list UploadedFile.t)
}.
End SaveBody.

(** An element of [savedNotes] in the answer of POST /save-notes. *)
Module SavedNote.
Record t := mk {
  _id : string;
  title : string;
  semester : string;
  branch : string;
  subject : string;
  regulation : string;
  fileKey : string
}.
End SavedNote.

(** What a handler of the notes router answers: a plain response, or the
    message and the list of POST /save-notes. *)
Inductive Reply :=
| Plain (r : Response)
| SavedNotes (code : nat) (message : string) (savedNotes : list SavedNote.t).

Definition run_reply (h : M Reply) (st : St) : option Reply * St :=
  match h st with
  | (Ok r, st') => (Some r, st')
  | (Return r, st') => (Some (Plain r), st')
  | (Throw _, st') => (None, st')
  end.

(** A character of the class [[^/.]]. *)
Definition plain_char (c : ascii) : bool :=
  negb (Ascii.eqb c "/"%char) && negb (Ascii.eqb c "."%char).

Fixpoint plain (s : string) : bool :=
  match s with
  | EmptyString => true
  | String c rest => plain_char c && plain rest
  end.

(** [name.replace(/\.[^/.]+$/, "")]: the match starts at the first dot
    that is followed, up to the end, by one or more characters other than
    a slash and a dot. *)
Fixpoint strip_extension (s : string) : string :=
  match s with
  | EmptyString => EmptyString
  | String c rest =>
      if Ascii.eqb c "."%char && negb (String.eqb rest "") && plain rest
      then EmptyString
      else String c (strip_extension rest)
  end.

(** [{ $push: { uploadedNotes: nid } }] *)
Definition push_note (nid : string) (f : Faculty.t) : Faculty.t :=
  Faculty.mk (Faculty._id f) (Faculty.name f) (Faculty.email f)
    (Faculty.employeeId f) (Faculty.designation f) (Faculty.password f)
    (Faculty.uploadedNotes f ++ [nid])
    (Faculty.createdAt f).

(** [Faculty.findByIdAndUpdate(fid, { $push: { uploadedNotes: nid } })]:
    the first Faculty document with that [_id], if any, gains [nid]. *)
Definition Faculty_push (v : Via) (fid nid : string) : M unit :=
  update v
    (fun d => set_faculty
                (update_first (fun f => String.eqb (Faculty._id f) fid)
                   (push_note nid) (faculty d)) d)
    (fun _ => []).

Module SaveNotes.
Section Router.

(** The values mongoose casts to an ObjectId. *)
Variable castable : string -> bool.

(** The [_id] and the creation time a new document gets when the
    handler has made [n] collaborator calls. *)
Variable newObjectId : nat -> string.
Variable Date_now : nat -> nat.

(** The messages of the ValidationError of mongoose and of the TypeError
    of a method call on [undefined]. *)
Variable validationError : string.
Variable typeError : string.

(** [Models/Note.js]: every path but [createdAt] is required; a required
    String is not empty, a required ObjectId is castable. *)
Definition validate (title regulation subject branch semester fileKey
    uploadedBy : string) : bool :=
  negb (String.eqb title "") && castable regulation && castable subject
  && castable branch && negb (String.eqb semester "")
  && negb (String.eqb fileKey "") && castable uploadedBy.

(** [new Note({..}).save()]: validation first, then the insert. *)
Definition Note_create (title regulation subject branch semester fileKey
    uploadedBy : string) : M Note.t :=
  if validate title regulation subject branch semester fileKey uploadedBy
  then
    await_call ;;;
    fun st =>
      let doc := Note.mk (newObjectId (clock st)) title regulation subject
                   branch semester fileKey uploadedBy (Date_now (clock st)) in
      (Ok doc,
       set_committed (set_notes (notes (committed st) ++ [doc])
                        (committed st)) st)
  else throw validationError.

(** The body of [for (let file of uploadedFiles)], with [savedNotes] as
    it stands. *)
Fixpoint save_each (user : User.t) (b : SaveBody.t)
    (files : list UploadedFile.t) (savedNotes : list SavedNote.t)
  : M (list SavedNote.t) :=
  match files with
  | [] => ret savedNotes
  | file :: rest =>
      title <~ match UploadedFile.originalName file with
               | Some name => ret (strip_extension name)
               | None => throw typeError
               end ;;
      savedNote <~ Note_create title (SaveBody.regulation b)
                     (SaveBody.subject b) (SaveBody.branch b)
                     (SaveBody.semester b) (UploadedFile.fileKey file)
                     (User.id user) ;;
      Faculty_push Direct (User.id user) (Note._id savedNote) ;;;
      save_each user b rest
        (savedNotes ++
         [SavedNote.mk (Note._id savedNote) (Note.title savedNote)
            (Note.semester savedNote) (SaveBody.branch b)
            (SaveBody.subject b) (SaveBody.regulation b)
            (Note.fileKey savedNote)])
  end.

(** POST /save-notes *)
Definition post_save_notes (user : User.t) (b : SaveBody.t) : M Reply :=
  try_catch
    ((if negb (String.eqb (User.role user) "faculty")
      then respond (json 403 (Message "Only faculty can save notes"))
      else ret tt) ;;;
     match SaveBody.uploadedFiles b with
     | None | Some [] =>
         respond (json 400 (Message "No successfully uploaded files"))
     | Some uploadedFiles =>
         savedNotes <~ save_each user b uploadedFiles [] ;;
         ret (SavedNotes 201 "Notes saved successfully" savedNotes)
     end)
    (fun err => ret (Plain (json 500 (MessageError "Server error" err)))).

End Router.
End SaveNotes.

(** ** [routes/admin.js]: DELETE /admin/faculty/:id *)

(** [Faculty.findByIdAndDelete(id)]: the first document with that [_id]
    is removed and returned. *)
Definition Faculty_findByIdAndDelete (id : string) : M (option Faculty.t) :=
  await_call ;;;
  fun st =>
    (Ok (find_first (fun f => String.eqb (Faculty._id f) id)
           (faculty (committed st))),
     set_committed
       (set_faculty
          (remove_first (fun f => String.eqb (Faculty._id f) id)
             (faculty (committed st)))
          (committed st)) st).

Module AdminFaculty.
Section Router.

Variable isValid : string -> bool.

Definition delete_faculty (id : string) : M Response :=
  try_catch
    ((if negb (isValid id)
      then respond (json 400 (Message "Invalid ID")) else ret tt) ;;;
     deleted <~ Faculty_findByIdAndDelete id ;;
     (if deleted is None
      then respond (json 404 (Message "Faculty not found"))
      else ret tt) ;;;
     ret (json 200 (Message "Faculty deleted")))
    (fun err => ret (json 500 (Message "Server error"))).

End Router.
End AdminFaculty.
(** ** Vocabulary of POST /save-notes *)

Definition push_all (ids : list string) (f : Faculty.t) : Faculty.t :=
  Faculty.mk (Faculty._id f) (Faculty.name f) (Faculty.email f)
    (Faculty.employeeId f) (Faculty.designation f) (Faculty.password f)
    (Faculty.uploadedNotes f ++ ids)
    (Faculty.createdAt f).

(** The Faculty collection once the first document with [_id] [uid] has
    gained [ids]. *)
Definition pushed (uid : string) (ids : list string) (l : list Faculty.t)
  : list Faculty.t :=
  update_first (fun f => String.eqb (Faculty._id f) uid) (push_all ids) l.

(** The element of [savedNotes] for a saved Note. *)
Definition to_saved (b : SaveBody.t) (n : Note.t) : SavedNote.t :=
  SavedNote.mk (Note._id n) (Note.title n) (Note.semester n)
    (SaveBody.branch b) (SaveBody.subject b) (SaveBody.regulation b)
    (Note.fileKey n).

(** [n] is a Note the route builds from [file]: the title is the name of
    the file without its extension, the references are those of the body,
    the uploader is the user, and the Note passes validation. *)
Definition built (castable : string -> bool) (user : User.t)
    (b : SaveBody.t) (file : UploadedFile.t) (n : Note.t) : Prop :=
  (exists name, UploadedFile.originalName file = Some name /\
                Note.title n = strip_extension name) /\
  Note.regulation n = SaveBody.regulation b /\
  Note.subject n = SaveBody.subject b /\
  Note.branch n = SaveBody.branch b /\
  Note.semester n = SaveBody.semester b /\
  Note.fileKey n = UploadedFile.fileKey file /\
  Note.uploadedBy n = User.id user /\
  SaveNotes.validate castable (Note.title n) (Note.regulation n)
    (Note.subject n) (Note.branch n) (Note.semester n) (Note.fileKey n)
    (Note.uploadedBy n) = true.

(** From [st] to [st'] the store has gained the Notes [new], the first
    Faculty document with [_id] [uid] has gained [ids], and nothing else
    has moved. *)
Definition grown (uid : string) (st : St) (new : list Note.t)
    (ids : list string) (st' : St) : Prop :=
  notes (committed st') = (notes (committed st) ++ new)%list /\
  faculty (committed st') = pushed uid ids (faculty (committed st)) /\
  regulations (committed st') = regulations (committed st) /\
  branches (committed st') = branches (committed st) /\
  subjects (committed st') = subjects (committed st) /\
  bucket st' = bucket st /\ trace st' = trace st /\
  session st' = session st.

(** The uploads listed are those of [new], but for the last one when the
    call stopped between the save and the listing. *)
Definition listed (new : list Note.t) (ids : list string) : Prop :=
  ids = map Note._id new \/
  exists new' n, new = (new' ++ [n])%list /\ ids = map Note._id new'.
(** The file passes the checks of a turn of the loop: it has a name and
    the Note built from it passes validation. *)
Definition savable (castable : string -> bool) (user : User.t)
    (b : SaveBody.t) (file : UploadedFile.t) : bool :=
  match UploadedFile.originalName file with
  | Some name =>
      SaveNotes.validate castable (strip_extension name)
        (SaveBody.regulation b) (SaveBody.subject b) (SaveBody.branch b)
        (SaveBody.semester b) (UploadedFile.fileKey file) (User.id user)
  | None => false
  end.

(** The Notes the loop saves for [files] when it starts after [c] calls
    and every call is answered: a turn makes two calls and its Note is
    stamped after the first. *)
Fixpoint fresh_notes (newObjectId : nat -> string) (Date_now : nat -> nat)
    (user : User.t) (b : SaveBody.t) (c : nat)
    (files : list UploadedFile.t) : list Note.t :=
  match files with
  | [] => []
  | file :: rest =>
      Note.mk (newObjectId (S c))
        (strip_extension (default "" (UploadedFile.originalName file)))
        (SaveBody.regulation b) (SaveBody.subject b) (SaveBody.branch b)
        (SaveBody.semester b) (UploadedFile.fileKey file) (User.id user)
        (Date_now (S c))
      :: fresh_notes newObjectId Date_now user b (S (S c)) rest
  end.

Module Sample4.

Definition asha := User.mk "f1" "faculty".

Definition unit1 := UploadedFile.mk (Some "unit1.v2.pdf") "uploads/9_unit1.v2.pdf".
Definition hidden := UploadedFile.mk (Some ".pdf") "uploads/9_.pdf".
Definition unit2 := UploadedFile.mk (Some "unit2.pdf") "uploads/9_unit2.pdf".

Definition body (files : list UploadedFile.t) :=
  SaveBody.mk "r1" "s1" "b1" "1" (Some files).

Definition objectId (n : nat) : string :=
  "new" ++ String (ascii_of_nat (48 + n)) "".

End Sample4.

(** ** A sample driver *)

Module SampleDriver.

(** The strings this driver casts to an ObjectId: those that end in a
    digit, as the [_id]s of the samples do. *)
Fixpoint castable (s : string) : bool :=
  match s with
  | EmptyString => false
  | String c EmptyString =>
      Nat.leb 48 (nat_of_ascii c) && Nat.leb (nat_of_ascii c) 57
  | String _ rest => castable rest
  end.

Definition castError (value : string) : string :=
  "Cast to ObjectId failed for value " ++ value.

(** The two routes that delete one note, with this driver. *)
Definition delete_note : string -> M Response :=
  Notes.delete_note castable castError.
Definition delete_notes : string -> M Response :=
  Admin.delete_notes castable castError.





End SampleDriver.

(** ** Vocabulary of the archive route, continued *)

(** The Notes of the store that a selection names, in store order. *)
Definition selected (noteIds : list string) (d : Db) : list Note.t :=
  filter (fun n => Note._id n ∈ noteIds) (notes d).



(** * Properties *)

(** ** The monad *)

Section Rules.
Context {A B : Type}.

Lemma bind_run (m : M A) (k : A -> M B) st :
  bind m k st =
  match m st with
  | (Ok a, st') => k a st'
  | (Throw e, st') => (Throw e, st')
  | (Return r, st') => (Return r, st')
  end.
Proof. reflexivity. Qed.

Lemma triple_ret (a : A) (P : St -> Prop) (Q : A -> St -> Prop) E :
  (forall st, P st -> Q a st) -> triple P (ret a) Q E.
Proof. intros H st HP. exact (H st HP). Qed.

Lemma triple_respond r (P : St -> Prop) (Q : A -> St -> Prop)
    (E : option Response -> St -> Prop) :
  (forall st, P st -> E (Some r) st) -> triple P (respond r) Q E.
Proof. intros H st HP. exact (H st HP). Qed.

Lemma triple_bind (m : M A) (k : A -> M B) P R Q E :
  triple P m R E ->
  (forall a, triple (R a) (k a) Q E) ->
  triple P (bind m k) Q E.
Proof.
  intros Hm Hk st HP. specialize (Hm st HP). rewrite bind_run.
  destruct (m st) as [[a|e|r] st']; try exact Hm.
  exact (Hk a st' Hm).
Qed.

Lemma triple_conseq (m : M A) (P P' : St -> Prop) (Q Q' : A -> St -> Prop)
    (E E' : option Response -> St -> Prop) :
  triple P m Q E ->
  (forall st, P' st -> P st) ->
  (forall a st, Q a st -> Q' a st) ->
  (forall r st, E r st -> E' r st) ->
  triple P' m Q' E'.
Proof.
  intros Hm HP HQ HE st H. specialize (Hm st (HP st H)).
  destruct (m st) as [[a|e|r] st']; auto.
Qed.

(** A fact that does not depend on the state can be taken out of the
    precondition. *)
Lemma triple_pure (m : M A) (phi : Prop) (P : St -> Prop) Q E :
  (phi -> triple P m Q E) -> triple (fun st => phi /\ P st) m Q E.
Proof. intros H st [Hphi HP]. exact (H Hphi st HP). Qed.

Lemma steps_bind (R : St -> St -> Prop) `{!PreOrder R}
    (m : M A) (k : A -> M B) :
  steps R m -> (forall a, steps R (k a)) -> steps R (bind m k).
Proof.
  intros Hm Hk st. specialize (Hm st). rewrite bind_run.
  destruct (m st) as [[a|e|r] st']; simpl in *; try exact Hm.
  destruct Hm as [Hm _]. specialize (Hk a st') as [Hk Hr].
  split; [etrans; eauto | exact Hr].
Qed.

Lemma steps_ret (R : St -> St -> Prop) `{!Reflexive R} (a : A) :
  steps R (ret a).
Proof. intros st. simpl. split; [reflexivity | exact I]. Qed.

Lemma steps_respond (R : St -> St -> Prop) `{!Reflexive R} r :
  status r <> 200 -> steps R (respond r : M A).
Proof. intros Hr st. simpl. split; [reflexivity | exact Hr]. Qed.

Lemma steps_triple (R : St -> St -> Prop) `{!Transitive R} (m : M A) st0 :
  steps R m ->
  triple (R st0) m (fun _ => R st0) (fun r st => R st0 st /\ refusal r).
Proof.
  intros Hm st H. specialize (Hm st) as [Hm Hr].
  destruct (m st) as [[a|e|r] st']; simpl in *;
    repeat split; try (etrans; eauto); auto.
Qed.
End Rules.

Lemma steps_for_of {A} (R : St -> St -> Prop) `{!PreOrder R}
    (l : list A) (body : A -> M unit) :
  (forall x, x ∈ l -> steps R (body x)) -> steps R (for_of l body).
Proof.
  induction l as [|x l IH]; intros H; simpl.
  - apply steps_ret; apply _.
  - apply steps_bind; [apply _ | apply H; left |].
    intros ?. apply IH. intros y Hy. apply H. by right.
Qed.

(** The loop rule: [I] is indexed by the elements already visited. *)
Lemma triple_for_of {A} (l : list A) (body : A -> M unit)
    (I : list A -> St -> Prop) E :
  (forall pre x post, l = (pre ++ x :: post)%list ->
     triple (I pre) (body x) (fun _ => I (pre ++ [x])%list) E) ->
  triple (I []) (for_of l body) (fun _ => I l) E.
Proof.
  intros H.
  assert (G : forall post pre, l = (pre ++ post)%list ->
            triple (I pre) (for_of post body) (fun _ => I l) E).
  { induction post as [|x post IH]; intros pre Hl; simpl.
    - rewrite app_nil_r in Hl. subst l. intros st HP. exact HP.
    - eapply triple_bind; [apply (H pre x post Hl) |].
      intros ?. apply IH. by rewrite <- app_assoc. }
  apply (G l []). reflexivity.
Qed.

(** A loop whose invariant does not count. *)
Lemma triple_for_each {A} (l : list A) (body : A -> M unit)
    (I : St -> Prop) E :
  (forall x, x ∈ l -> triple I (body x) (fun _ => I) E) ->
  triple I (for_of l body) (fun _ => I) E.
Proof.
  intros H. apply (triple_for_of l body (fun _ => I)).
  intros pre x post ->. apply H. set_solver.
Qed.

(** ** Inside a transaction *)

#[local] Instance in_body_preorder : PreOrder in_body.
Proof.
  split.
  - intros st. split; [reflexivity|]. exists []. by rewrite app_nil_r.
  - intros st1 st2 st3 [Hc1 (e1 & Ht1 & Hi1)] [Hc2 (e2 & Ht2 & Hi2)]. split.
    + congruence.
    + exists (e1 ++ e2)%list. split.
      * by rewrite Ht2, Ht1, app_assoc.
      * by rewrite forallb_app, Hi1, Hi2.
Qed.

Lemma in_body_advance st : in_body st (advance st).
Proof. split; [reflexivity|]. exists []. by rewrite app_nil_r. Qed.

Lemma steps_await : steps in_body await_call.
Proof.
  intros st. unfold await_call.
  destruct (rejects st (clock st)); (split; [apply in_body_advance | exact I]).
Qed.

Lemma steps_query {A} (q : Db -> A) : steps in_body (query InSession q).
Proof.
  intros st. unfold query, await_call. rewrite bind_run.
  destruct (rejects st (clock st)); (split; [apply in_body_advance | exact I]).
Qed.

Lemma steps_update f evs :
  (forall d, forallb inner (evs d) = true) ->
  steps in_body (update InSession f evs).
Proof.
  intros Hev st. unfold update, await_call. rewrite bind_run.
  destruct (rejects st (clock st)); simpl;
    (split; [|exact I]); [apply in_body_advance|].
  split; [reflexivity|]. eexists. split; [reflexivity | apply Hev].
Qed.

Lemma inner_removed k ids : forallb inner (removed k ids) = true.
Proof. induction ids; simpl; auto. Qed.

Lemma steps_deleteFile key : steps in_body (deleteFile key).
Proof.
  intros st. unfold deleteFile, deleteS3Object, await_call.
  rewrite !bind_run. simpl.
  destruct (rejects st (clock st)); simpl; (split; [|exact I]);
    (split; [reflexivity|]; exists [EvBlobDelete key]; split; reflexivity).
Qed.

Create HintDb body_steps.

#[local] Hint Resolve steps_await steps_query steps_deleteFile : body_steps.
#[local] Hint Extern 1 (steps in_body (update InSession _ _)) =>
  apply steps_update; intros; apply inner_removed : body_steps.
#[local] Hint Extern 1 (steps in_body (ret _)) =>
  apply steps_ret; apply _ : body_steps.
#[local] Hint Extern 1 (steps in_body (respond _)) =>
  apply steps_respond; [apply _ | simpl; discriminate] : body_steps.
#[local] Hint Extern 2 (steps in_body (bind _ _)) =>
  apply steps_bind; [apply _ | | intros ?] : body_steps.
#[local] Hint Extern 2 (steps in_body (for_of _ _)) =>
  apply steps_for_of; [apply _ | intros ? _] : body_steps.
#[local] Hint Extern 3 (steps in_body (if ?c then _ else _)) =>
  destruct c : body_steps.
#[local] Hint Extern 3 (steps in_body (match ?c with _ => _ end)) =>
  destruct c : body_steps.

Ltac body_steps :=
  unfold Note_find, Note_deleteMany, Note_findById, Note_findByIdAndDelete,
    Subject_find, Subject_deleteMany, Subject_findById,
    Subject_findByIdAndDelete, Branch_find, Branch_deleteMany,
    Branch_findById, Branch_findByIdAndDelete, Regulation_findById,
    Regulation_findByIdAndDelete;
  auto 30 with body_steps.

(** ** The transaction skeleton of the cascade handlers *)

Lemma triple_commit st0 (r : Response) :
  triple (in_body st0) (commitTransaction ;;; ret r)
    (fun r' st' => r' = r /\ committed st' = session st' /\
       exists evs, trace st' = (trace st0 ++ evs ++ [EvCommit])%list /\
                   forallb inner evs = true)
    (fun r st => in_body st0 st /\ refusal r).
Proof.
  intros st [Hc (evs & Ht & Hi)]. unfold commitTransaction, await_call.
  rewrite !bind_run. destruct (rejects st (clock st)); simpl.
  - split; [|exact I]. split; [exact Hc|]. by exists evs.
  - split; [reflexivity|]. split; [reflexivity|]. exists evs.
    by rewrite Ht, app_assoc.
Qed.

Ltac body_prefix :=
  repeat (eapply triple_bind;
          [ apply steps_triple; [apply _ | solve [body_steps]] | intros ? ]).

Lemma cascade_body isValid kind id st0 :
  exists body msg,
    deleteHierarchy isValid kind id =
      (startSession ;;;
       try_catch body
         (fun _ => abortTransaction ;;; ret (json 500 (Message msg)))) /\
    triple (in_body st0) body
      (fun r st' => r = json 200 (Message (success_message kind)) /\
         committed st' = session st' /\
         exists evs, trace st' = (trace st0 ++ evs ++ [EvCommit])%list /\
                     forallb inner evs = true)
      (fun r st => in_body st0 st /\ refusal r).
Proof.
  destruct kind; simpl;
    (eexists; eexists; split; [reflexivity|]);
    body_prefix; apply triple_commit.
Qed.

Lemma refusal_not_succeeded kind r :
  refusal (Some r) -> ~ succeeded kind (Some r).
Proof.
  unfold succeeded. intros Hr Hs. injection Hs as ->. by apply Hr.
Qed.

Lemma cascade_run isValid kind id st :
  cascade_outcome kind st
    (run (deleteHierarchy isValid kind id) st).1
    (run (deleteHierarchy isValid kind id) st).2.
Proof.
  destruct (cascade_body isValid kind id
              (set_session (committed st) (advance st)))
    as (body & msg & -> & Hbody).
  unfold run, startSession, await_call. rewrite !bind_run.
  destruct (rejects st (clock st)) as [e|]; simpl.
  { exists []. split; [reflexivity|]. right. split; [done|].
    split; [reflexivity|]. left. by rewrite app_nil_r. }
  unfold try_catch.
  specialize (Hbody (set_session (committed st) (advance st))
                (reflexivity _)).
  destruct (body _) as [[r|e|r] st1]; simpl in *.
  - destruct Hbody as (-> & Hc & evs & Ht & Hi). exists evs. split; [done|].
    left. done.
  - destruct Hbody as [[Hc (evs & Ht & Hi)] _].
    unfold abortTransaction, await_call. rewrite !bind_run.
    destruct (rejects st1 (clock st1)); simpl;
      exists evs; (split; [done|]); right; (split; [done|]);
      (split; [done|]).
    + by left.
    + right. simpl. by rewrite Ht, app_assoc.
  - destruct Hbody as [[Hc (evs & Ht & Hi)] Hr].
    exists evs. split; [done|]. right.
    split; [by apply refusal_not_succeeded|]. split; [done|]. by left.
Qed.

Lemma events_since_app st st' evs :
  trace st' = (trace st ++ evs)%list -> events_since st st' = evs.
Proof. intros H. unfold events_since. rewrite H. apply drop_app_length. Qed.

(** ** Blob deletion and the commit *)

(** C1, as the spec states it, fails: deleting regulation [r1] of the
    sample store issues the blob deletions of its two notes while the
    transaction is still open, before any commit. *)
Lemma blob_deleted_before_commit :
  ~ blobs_only_after_commit
      (events_since (Sample.world Sample.db0 Sample.never)
         (run (deleteHierarchy Sample.valid RegulationRoot "r1")
            (Sample.world Sample.db0 Sample.never)).2).
Proof.
  intros H.
  specialize (H [] "uploads/1_A.pdf"
    [EvBlobDelete "uploads/2_B.pdf";
     EvRemove KNote "n1"; EvRemove KNote "n2";
     EvRemove KSubject "s1"; EvRemove KSubject "s2";
     EvRemove KBranch "b1"; EvRemove KBranch "b2";
     EvRemove KRegulation "r1"; EvCommit]).
  apply not_elem_of_nil in H; [exact H|]. vm_compute. reflexivity.
Qed.

(** C1, amended: in every cascade delete the blob deletions are issued
    inside the metadata transaction.  The events of a run are blob
    deletions and record removals, followed by the commit exactly when the
    call succeeds, and otherwise by the abort or by nothing: every blob
    deletion precedes the commit, and none follows it. *)
Theorem cascade_blobs_inside_transaction isValid kind id st :
  exists body fin,
    events_since st (run (deleteHierarchy isValid kind id) st).2
      = (body ++ fin)%list /\
    forallb inner body = true /\
    ((fin = [EvCommit] /\
      succeeded kind (run (deleteHierarchy isValid kind id) st).1)
     \/ ((fin = [EvAbort] \/ fin = []) /\
         ~ succeeded kind (run (deleteHierarchy isValid kind id) st).1)).
Proof.
  destruct (cascade_run isValid kind id st)
    as (evs & Hi & [(Hs & _ & Ht) | (Hn & _ & [Ht | Ht])]).
  - exists evs, [EvCommit]. rewrite (events_since_app _ _ _ Ht).
    split; [reflexivity|]. split; [exact Hi|]. left. by split.
  - exists evs, []. rewrite (events_since_app _ _ _ Ht), app_nil_r.
    split; [reflexivity|]. split; [exact Hi|]. right. split; [by right|done].
  - exists evs, [EvAbort]. rewrite (events_since_app _ _ _ Ht).
    split; [reflexivity|]. split; [exact Hi|]. right. split; [by left|done].
Qed.

(** ** Atomicity of the metadata transaction *)

(** C2: a cascade delete that ends in a storage error (the 500 of the
    [catch] block, or no response when the abort itself rejects) leaves
    the committed metadata store exactly as it was before the call. *)
Theorem cascade_abort_leaves_store isValid kind id st :
  storage_error (run (deleteHierarchy isValid kind id) st).1 ->
  committed (run (deleteHierarchy isValid kind id) st).2 = committed st.
Proof.
  intros Herr.
  destruct (cascade_run isValid kind id st)
    as (evs & Hi & [(Hs & _ & _) | (_ & Hc & _)]); [|exact Hc].
  unfold succeeded in Hs. rewrite Hs in Herr. simpl in Herr. discriminate.
Qed.

(** The rejection of the ninth awaited call, the [deleteMany] of the notes
    of the first branch, aborts the cascade on [r1]. *)
Lemma cascade_abort_leaves_store_witness :
  storage_error
    (run (deleteHierarchy Sample.valid RegulationRoot "r1")
       (Sample.world Sample.db1 (Sample.at_call 8))).1 /\
  committed
    (run (deleteHierarchy Sample.valid RegulationRoot "r1")
       (Sample.world Sample.db1 (Sample.at_call 8))).2 = Sample.db1.
Proof.
  split.
  - vm_compute. reflexivity.
  - apply (cascade_abort_leaves_store Sample.valid RegulationRoot "r1"
             (Sample.world Sample.db1 (Sample.at_call 8))).
    vm_compute. reflexivity.
Defined.

(** ** Looking up and removing one document *)

Lemma find_first_none {A} (get : A -> string) id (l : list A) :
  id ∉ map get l -> find_first (fun x => String.eqb (get x) id) l = None.
Proof.
  induction l as [|x l IH]; simpl; intros H; [reflexivity|].
  destruct (String.eqb_spec (get x) id) as [Heq|Hne].
  - exfalso. apply H. rewrite Heq. left.
  - apply IH. intros Hin. apply H. by right.
Qed.

Lemma remove_first_absent {A} (get : A -> string) id (l : list A) :
  NoDup (map get l) ->
  id ∉ map get (remove_first (fun x => String.eqb (get x) id) l).
Proof.
  induction l as [|x l IH]; simpl; intros Hnd.
  - apply not_elem_of_nil.
  - apply NoDup_cons in Hnd as [Hx Hnd].
    destruct (String.eqb_spec (get x) id) as [<-|Hne]; [exact Hx|].
    simpl. intros Hin. apply elem_of_cons in Hin as [Heq|Hin];
      [congruence | by apply IH].
Qed.

(** The run of a cascade on an identifier that is not in the root
    collection, when the two calls it makes are answered. *)
Lemma not_found_run isValid kind id st :
  isValid id = true ->
  id ∉ root_ids kind (committed st) ->
  rejects st (clock st) = None ->
  rejects st (S (clock st)) = None ->
  run (deleteHierarchy isValid kind id) st =
    (Some (json 404 (Message (not_found_message kind))),
     set_session (committed st) (advance (advance st))).
Proof.
  intros Hv Habs H0 H1.
  destruct kind; simpl in Habs;
    apply find_first_none in Habs;
    unfold run, deleteHierarchy, Admin.delete_regulations,
      Admin.delete_branches, Admin.delete_subjects, startSession, try_catch,
      Regulation_findById, Branch_findById, Subject_findById, query,
      await_call, bind, ret, respond;
    rewrite H0; simpl; rewrite Hv; simpl; rewrite H1;
    simpl; rewrite Habs; reflexivity.
Qed.

(** ** The purge of the notes of a filter *)

Lemma blob_loop_run ns st :
  match for_of ns (fun note => deleteFile (Note.fileKey note)) st with
  | (Ok _, st') =>
      session st' = session st /\ committed st' = committed st /\
      trace st' = (trace st ++ blob_events ns)%list
  | (Throw _, st') =>
      session st' = session st /\ committed st' = committed st /\
      exists j, trace st' = (trace st ++ blob_events (take j ns))%list
  | (Return _, st') => False
  end.
Proof.
  revert st. induction ns as [|n ns IH]; intros st; simpl.
  - by rewrite app_nil_r.
  - rewrite bind_run.
    unfold deleteFile at 1, deleteS3Object at 1, await_call.
    rewrite !bind_run. simpl.
    destruct (rejects st (clock st)) as [e|]; simpl.
    + repeat split. by exists 1.
    + match goal with |- context [for_of ns ?b ?s] =>
        specialize (IH s); destruct (for_of ns b s) as [[[]|e|r] st'] end;
        simpl in IH; try done.
      * destruct IH as (-> & -> & ->). repeat split.
        by rewrite <- app_assoc.
      * destruct IH as (-> & -> & j & ->). repeat split.
        exists (S j). by rewrite <- app_assoc.
Qed.

Lemma triple_purge f (P : St -> Prop) (Q : unit -> St -> Prop)
    (E : option Response -> St -> Prop) :
  (forall st st', P st ->
     session st' = session st -> committed st' = committed st ->
     (exists j, trace st' =
        (trace st ++ blob_events
           (take j (keep (note_matches f) (notes (session st)))))%list) ->
     E None st') ->
  (forall st st', P st ->
     session st' =
       set_notes (drop_matching (note_matches f) (notes (session st)))
         (session st) ->
     committed st' = committed st ->
     trace st' =
       (trace st ++ blob_events (keep (note_matches f) (notes (session st)))
        ++ removed KNote
             (map Note._id (keep (note_matches f) (notes (session st)))))%list ->
     Q tt st') ->
  triple P (purge f) Q E.
Proof.
  intros HE HQ st HP. unfold purge, Note_find, query, await_call.
  rewrite !bind_run.
  destruct (rejects st (clock st)) as [e|]; simpl.
  { apply (HE st); auto. exists 0. by rewrite app_nil_r. }
  set (ns := keep (note_matches f) (notes (session st))).
  pose proof (blob_loop_run ns (advance st)) as Hloop. rewrite bind_run.
  destruct (for_of ns _ (advance st)) as [[[]|e|r] st1]; simpl in Hloop;
    [| |done].
  - destruct Hloop as (Hs & Hc & Ht).
    unfold Note_deleteMany, update, await_call. rewrite !bind_run.
    destruct (rejects st1 (clock st1)) as [e|]; simpl.
    + apply (HE st); simpl; auto. exists (length ns).
      by rewrite firstn_all.
    + apply (HQ st); simpl; auto.
      * by rewrite Hs.
      * rewrite Ht, Hs. fold ns. by rewrite <- app_assoc.
  - destruct Hloop as (Hs & Hc & j & Ht). apply (HE st); auto. by exists j.
Qed.

(** ** Rules for the statements of a transaction *)

Lemma body_query {A} (q : Db -> A) (X : Db -> list Event -> Prop)
    (E : option Response -> Db -> list Event -> Prop) :
  (forall d t, X d t -> E None d t) ->
  triple (on_body X) (query InSession q)
    (fun a => on_body (fun d t => X d t /\ a = q d))
    (fun r => on_body (E r)).
Proof.
  intros HE st HX. unfold query, await_call. rewrite bind_run.
  destruct (rejects st (clock st)); simpl.
  - apply HE, HX.
  - split; [exact HX | reflexivity].
Qed.

Lemma body_update f evs (X Y : Db -> list Event -> Prop)
    (E : option Response -> Db -> list Event -> Prop) :
  (forall d t, X d t -> E None d t /\ Y (f d) (t ++ evs d)%list) ->
  triple (on_body X) (update InSession f evs)
    (fun _ => on_body Y) (fun r => on_body (E r)).
Proof.
  intros H st HX. unfold update, await_call. rewrite bind_run.
  destruct (rejects st (clock st)); simpl; apply (H _ _ HX).
Qed.

Lemma body_purge f (X Y : Db -> list Event -> Prop)
    (E : option Response -> Db -> list Event -> Prop) :
  (forall d t, X d t ->
     (forall j, E None d
        (t ++ blob_events (take j (keep (note_matches f) (notes d))))%list)
     /\ Y (set_notes (drop_matching (note_matches f) (notes d)) d)
          (t ++ blob_events (keep (note_matches f) (notes d))
             ++ removed KNote
                  (map Note._id (keep (note_matches f) (notes d))))%list) ->
  triple (on_body X) (purge f) (fun _ => on_body Y) (fun r => on_body (E r)).
Proof.
  intros H. apply triple_purge; unfold on_body.
  - intros st st' HX Hs Hc [j Ht]. rewrite Hs, Ht. apply (H _ _ HX).
  - intros st st' HX Hs Hc Ht. rewrite Hs, Ht. apply (H _ _ HX).
Qed.

Lemma triple_purge_seq {B} f (rest : M B) P R Q E :
  triple P (purge f) R E ->
  triple (R tt) rest Q E ->
  triple P
    (notes <~ Note_find InSession f ;;
     for_of notes (fun note => deleteFile (Note.fileKey note)) ;;;
     Note_deleteMany InSession f ;;; rest) Q E.
Proof.
  intros Hp Hr st HP. specialize (Hp st HP). unfold purge in Hp.
  rewrite !bind_run in *.
  destruct (Note_find InSession f st) as [[ns|e|r] st1]; try exact Hp.
  rewrite !bind_run in *.
  destruct (for_of ns _ st1) as [[[]|e|r] st2]; try exact Hp.
  rewrite !bind_run in *.
  destruct (Note_deleteMany InSession f st2) as [[[]|e|r] st3]; try exact Hp.
  exact (Hr st3 Hp).
Qed.

Lemma body_commit (r : Response) (X : Db -> list Event -> Prop)
    (E : option Response -> Db -> list Event -> Prop) :
  (forall d t, X d t -> E None d t) ->
  triple (on_body X) (commitTransaction ;;; ret r)
    (fun r' => on_body (fun d t =>
       r' = r /\ exists t', t = (t' ++ [EvCommit])%list /\ X d t'))
    (fun r => on_body (E r)).
Proof.
  intros HE st HX. unfold commitTransaction, await_call.
  rewrite !bind_run. destruct (rejects st (clock st)); simpl.
  - apply HE, HX.
  - split; [reflexivity|]. by exists (trace st).
Qed.

(** The run of a handler that wraps [body] in a transaction. *)
Lemma transaction_run (body : M Response) msg st
    (Y : Response -> Db -> list Event -> Prop)
    (E : option Response -> Db -> list Event -> Prop) :
  triple (on_body (fun d t => d = committed st /\ t = trace st)) body
    (fun r => on_body (Y r)) (fun r => on_body (E r)) ->
  forall r st',
    run (startSession ;;;
         try_catch body
           (fun _ => abortTransaction ;;; ret (json 500 (Message msg)))) st
      = (r, st') ->
    (exists r', r = Some r' /\ Y r' (session st') (trace st')) \/
    (exists r', r = Some r' /\ E (Some r') (session st') (trace st')) \/
    (storage_error r /\ exists t, E None (session st') t /\
       (trace st' = t \/ trace st' = (t ++ [EvAbort])%list)) \/
    (r = None /\ trace st' = trace st).
Proof.
  intros Hbody r st'. unfold run, startSession, await_call.
  rewrite !bind_run.
  destruct (rejects st (clock st)) as [e|]; simpl.
  { intros [= <- <-]. right. right. right. done. }
  unfold try_catch.
  specialize (Hbody (set_session (committed st) (advance st))).
  unfold on_body in Hbody. simpl in Hbody. specialize (Hbody (conj eq_refl eq_refl)).
  destruct (body _) as [[r1|e|r1] st1]; simpl in *.
  - intros [= <- <-]. left. eauto.
  - unfold abortTransaction, await_call. rewrite !bind_run.
    destruct (rejects st1 (clock st1)); simpl; intros [= <- <-];
      right; right; left; (split; [done|]); exists (trace st1); simpl; auto.
  - intros [= <- <-]. right. left. eauto.
Qed.

(** ** Ranks of removals *)

Lemma removal_ranks_app evs evs' :
  removal_ranks (evs ++ evs') = (removal_ranks evs ++ removal_ranks evs')%list.
Proof.
  induction evs as [|[] evs IH]; simpl; auto. by rewrite IH.
Qed.

Lemma removal_ranks_removed k ids :
  removal_ranks (removed k ids) = repeat (rank k) (length ids).
Proof. induction ids; simpl; auto. by f_equal. Qed.

Lemma removal_ranks_blob ns : removal_ranks (blob_events ns) = [].
Proof. induction ns; simpl; auto. Qed.

Lemma nondecreasing_snoc l k j :
  nondecreasing l = true -> bounded k l = true -> k <= j ->
  nondecreasing (l ++ [j]) = true /\ bounded j (l ++ [j]) = true.
Proof.
  intros Hn Hb Hkj. split.
  - induction l as [|a [|b l] IH]; simpl in *; auto.
    + apply andb_true_iff in Hb as [Ha _]. apply Nat.leb_le in Ha.
      apply andb_true_iff. split; [apply Nat.leb_le; lia | done].
    + apply andb_true_iff in Hn as [Hab Hn].
      apply andb_true_iff in Hb as [_ Hb].
      apply andb_true_iff. split; [done | by apply IH].
  - unfold bounded in *. rewrite forallb_app. apply andb_true_iff. split.
    + rewrite forallb_forall in *. intros x Hx. specialize (Hb x Hx).
      apply Nat.leb_le in Hb. apply Nat.leb_le. lia.
    + simpl. rewrite Nat.leb_refl. done.
Qed.

Lemma nondecreasing_repeat l k j n :
  nondecreasing l = true -> bounded k l = true -> k <= j ->
  nondecreasing (l ++ repeat j n) = true /\
  bounded j (l ++ repeat j n) = true.
Proof.
  revert l k. induction n as [|n IH]; intros l k Hn Hb Hkj; simpl.
  - rewrite app_nil_r. split; [done|].
    unfold bounded in *. rewrite forallb_forall in *. intros x Hx.
    specialize (Hb x Hx). apply Nat.leb_le in Hb. apply Nat.leb_le. lia.
  - destruct (nondecreasing_snoc l k j Hn Hb Hkj) as [Hn' Hb'].
    specialize (IH (l ++ [j])%list j Hn' Hb' (le_n j)).
    by rewrite <- app_assoc in IH.
Qed.

Lemma ranked_start t0 k : ranked t0 k t0.
Proof. exists []. by rewrite app_nil_r. Qed.

Lemma ranked_removed t0 k t kind ids :
  ranked t0 k t -> k <= rank kind ->
  ranked t0 (rank kind) (t ++ removed kind ids).
Proof.
  intros (evs & -> & Hc & Hb) Hk. exists (evs ++ removed kind ids)%list.
  split; [by rewrite app_assoc|].
  unfold children_first in *.
  rewrite removal_ranks_app, removal_ranks_removed.
  by apply (nondecreasing_repeat _ k).
Qed.

Lemma ranked_silent t0 k t evs :
  ranked t0 k t -> removal_ranks evs = [] -> ranked t0 k (t ++ evs).
Proof.
  intros (evs0 & -> & Hc & Hb) He. exists (evs0 ++ evs)%list.
  split; [by rewrite app_assoc|].
  unfold children_first in *. by rewrite removal_ranks_app, He, app_nil_r.
Qed.

Lemma ranked_mono t0 k j t : ranked t0 k t -> k <= j -> ranked t0 j t.
Proof.
  intros (evs & -> & Hc & Hb) Hk. exists evs. repeat split; auto.
  unfold bounded in *. rewrite forallb_forall in *. intros x Hx.
  specialize (Hb x Hx). apply Nat.leb_le in Hb. apply Nat.leb_le. lia.
Qed.

Lemma ranked_children_first t0 k t :
  ranked t0 k t -> children_first (drop (length t0) t) = true.
Proof. intros (evs & -> & Hc & _). by rewrite drop_app_length. Qed.

(** ** Filters *)

Lemma elem_of_keep {A} (p : A -> bool) (l : list A) x :
  x ∈ keep p l <-> p x = true /\ x ∈ l.
Proof.
  unfold keep. rewrite list_elem_of_filter. by rewrite Is_true_true.
Qed.

Lemma elem_of_drop_matching {A} (p : A -> bool) (l : list A) x :
  x ∈ drop_matching p l <-> p x = false /\ x ∈ l.
Proof.
  unfold drop_matching. rewrite list_elem_of_filter.
  rewrite Is_true_true, negb_true_iff. done.
Qed.

Lemma drop_matching_subseteq {A} (p : A -> bool) (l : list A) :
  drop_matching p l ⊆ l.
Proof. intros x Hx. by apply elem_of_drop_matching in Hx as [_ Hx]. Qed.

Lemma keep_nil {A} (p : A -> bool) (l : list A) :
  (forall x, x ∈ l -> p x = false) -> keep p l = [].
Proof.
  intros H. induction l as [|x l IH]; [reflexivity|].
  unfold keep in *. rewrite filter_cons_False.
  - apply IH. intros y Hy. apply H. by right.
  - rewrite (H x) by left. simpl. tauto.
Qed.

Lemma sub_db_refl d : sub_db d d.
Proof. by repeat split. Qed.

Lemma sub_db_notes d0 d f :
  sub_db d0 d ->
  sub_db d0 (set_notes (drop_matching (note_matches f) (notes d)) d).
Proof.
  intros (Hn & Hs & Hb). repeat split; simpl; auto.
  etrans; [apply drop_matching_subseteq | exact Hn].
Qed.

Lemma sub_db_subjects d0 d p :
  sub_db d0 d -> sub_db d0 (set_subjects (drop_matching p (subjects d)) d).
Proof.
  intros (Hn & Hs & Hb). repeat split; simpl; auto.
  etrans; [apply drop_matching_subseteq | exact Hs].
Qed.

Lemma no_match_purged f d :
  no_match f (set_notes (drop_matching (note_matches f) (notes d)) d).
Proof. intros n Hn. simpl in Hn. by apply elem_of_drop_matching in Hn as [? _]. Qed.

Lemma no_match_notes f g d :
  no_match f d ->
  no_match f (set_notes (drop_matching (note_matches g) (notes d)) d).
Proof.
  intros H n Hn. simpl in Hn. apply H.
  by apply elem_of_drop_matching in Hn as [_ ?].
Qed.

(** ** The consistency invariant *)

Lemma consistent_branch d n b :
  consistent d = true -> n ∈ notes d -> b ∈ branches d ->
  Branch._id b = Note.branch n -> Branch.regulation b = Note.regulation n.
Proof.
  unfold consistent. rewrite forallb_forall. intros H Hn Hb Heq.
  specialize (H n (proj1 (list_elem_of_In _ _) Hn)).
  apply andb_true_iff in H as [_ H]. rewrite forallb_forall in H.
  specialize (H b (proj1 (list_elem_of_In _ _) Hb)).
  rewrite Heq, String.eqb_refl in H. simpl in H. by apply String.eqb_eq.
Qed.

Lemma consistent_subject d n s :
  consistent d = true -> n ∈ notes d -> s ∈ subjects d ->
  Subject._id s = Note.subject n -> Subject.branch s = Note.branch n.
Proof.
  unfold consistent. rewrite forallb_forall. intros H Hn Hs Heq.
  specialize (H n (proj1 (list_elem_of_In _ _) Hn)).
  apply andb_true_iff in H as [H _]. rewrite forallb_forall in H.
  specialize (H s (proj1 (list_elem_of_In _ _) Hs)).
  rewrite Heq, String.eqb_refl in H. simpl in H. by apply String.eqb_eq.
Qed.

(** Once the notes of a regulation are gone, a consistent store has no
    note left under its branches or under the subjects of its branches. *)
Lemma no_notes_of_branch d0 d rid b :
  consistent d0 = true -> sub_db d0 d -> no_match (ByRegulation rid) d ->
  b ∈ branches d0 -> Branch.regulation b = rid ->
  keep (note_matches (ByBranch (Branch._id b))) (notes d) = [].
Proof.
  intros Hc (Hn & _ & _) Hnm Hb Hr. apply keep_nil. intros n Hin.
  destruct (note_matches _ n) eqn:Hm; [|done]. simpl in Hm.
  apply String.eqb_eq in Hm.
  pose proof (consistent_branch d0 n b Hc (Hn _ Hin) Hb (eq_sym Hm)) as Heq.
  specialize (Hnm n Hin). simpl in Hnm. apply String.eqb_neq in Hnm.
  congruence.
Qed.

Lemma no_notes_of_subject d0 d rid b s :
  consistent d0 = true -> sub_db d0 d -> no_match (ByRegulation rid) d ->
  b ∈ branches d0 -> Branch.regulation b = rid ->
  s ∈ subjects d0 -> Subject.branch s = Branch._id b ->
  keep (note_matches (BySubject (Subject._id s))) (notes d) = [].
Proof.
  intros Hc (Hn & _ & _) Hnm Hb Hr Hs Hsb. apply keep_nil. intros n Hin.
  destruct (note_matches _ n) eqn:Hm; [|done]. simpl in Hm.
  apply String.eqb_eq in Hm.
  pose proof (consistent_subject d0 n s Hc (Hn _ Hin) Hs (eq_sym Hm)) as Heq.
  assert (Branch._id b = Note.branch n) as Hbn by congruence.
  pose proof (consistent_branch d0 n b Hc (Hn _ Hin) Hb Hbn) as Heq'.
  specialize (Hnm n Hin). simpl in Hnm. apply String.eqb_neq in Hnm.
  congruence.
Qed.

(** ** Order of removals *)

Lemma ranked_blobs t0 k t ns :
  ranked t0 k t -> ranked t0 k (t ++ blob_events ns).
Proof. intros H. apply ranked_silent; [exact H | apply removal_ranks_blob]. Qed.

Lemma regulation_walk isValid id d0 t0 (r200 : Response) :
  consistent d0 = true ->
  triple (on_body (fresh d0 t0))
    ((if negb (isValid id)
      then respond (json 400 (Message "Invalid ID")) else ret tt) ;;;
     regulation <~ Regulation_findById InSession id ;;
     (if regulation is None
      then respond (json 404 (Message "Regulation not found"))
      else ret tt) ;;;
     notes <~ Note_find InSession (ByRegulation id) ;;
     for_of notes (fun note => deleteFile (Note.fileKey note)) ;;;
     Note_deleteMany InSession (ByRegulation id) ;;;
     branches <~ Branch_find InSession id ;;
     for_of branches (fun branch =>
       branchNotes <~ Note_find InSession (ByBranch (Branch._id branch)) ;;
       for_of branchNotes (fun note => deleteFile (Note.fileKey note)) ;;;
       Note_deleteMany InSession (ByBranch (Branch._id branch)) ;;;
       subjects <~ Subject_find InSession (Branch._id branch) ;;
       for_of subjects (fun subject =>
         subjectNotes <~
           Note_find InSession (BySubject (Subject._id subject)) ;;
         for_of subjectNotes (fun note => deleteFile (Note.fileKey note)) ;;;
         Note_deleteMany InSession (BySubject (Subject._id subject))) ;;;
       Subject_deleteMany InSession (Branch._id branch)) ;;;
     Branch_deleteMany InSession id ;;;
     Regulation_findByIdAndDelete InSession id ;;;
     commitTransaction ;;;
     ret r200)
    (fun r => on_body (ordered_exit t0 (Some r)))
    (fun r => on_body (ordered_exit t0 r)).
Proof.
  intros Hcons.
  eapply triple_bind with (R := fun _ => on_body (fresh d0 t0)).
  { destruct (negb (isValid id)).
    - apply triple_respond. intros s [_ Ht]. unfold on_body, ordered_exit.
      rewrite Ht. apply ranked_start.
    - by apply triple_ret. }
  intros _. eapply triple_bind.
  { unfold Regulation_findById. apply body_query.
    intros d t [_ ->]. apply ranked_start. }
  intros regulation.
  eapply triple_bind with (R := fun _ => on_body (fresh d0 t0)).
  { destruct regulation.
    - apply triple_ret. by intros s [H _].
    - apply triple_respond. intros s [[_ Ht] _]. unfold on_body, ordered_exit.
      rewrite Ht. apply ranked_start. }
  intros _. eapply triple_purge_seq.
  { apply (body_purge _ _ (tidy_reg d0 t0 id 0)). intros d t [-> ->]. split.
    - intros j. apply ranked_blobs, ranked_start.
    - split; [apply sub_db_notes, sub_db_refl|].
      split; [apply no_match_purged|].
      rewrite app_assoc.
      apply (ranked_removed t0 0 _ KNote); [|done].
      apply ranked_blobs, ranked_start. }
  eapply triple_bind.
  { unfold Branch_find. apply body_query.
    intros d t (_ & _ & Hr). apply (ranked_mono _ _ _ _ Hr). lia. }
  intros bs.
  eapply triple_conseq with
    (P := fun s => (forall b, b ∈ bs ->
                      b ∈ branches d0 /\ Branch.regulation b = id)
                   /\ on_body (tidy_reg d0 t0 id 1) s);
    [ | | intros ? ? H; exact H | intros ? ? H; exact H ]; cycle 1.
  { intros s [(Hsub & Hnm & Hr) ->]. split.
    - intros b Hb. apply elem_of_keep in Hb as [Hb1 Hb2].
      split; [by apply Hsub | by apply String.eqb_eq].
    - repeat split; auto; try apply Hsub. apply (ranked_mono _ _ _ _ Hr). lia. }
  apply triple_pure. intros Hbs.
  eapply triple_bind with (R := fun _ => on_body (tidy_reg d0 t0 id 1)).
  { apply triple_for_each. intros b Hb. destruct (Hbs b Hb) as [Hb0 Hbr].
    eapply triple_purge_seq.
    { apply (body_purge _ _ (tidy_reg d0 t0 id 1)).
      intros d t (Hsub & Hnm & Hr).
      rewrite (no_notes_of_branch d0 d id b) by done. split.
      - intros j. rewrite take_nil. simpl. rewrite app_nil_r.
        apply (ranked_mono _ _ _ _ Hr). lia.
      - simpl. rewrite app_nil_r.
        split; [by apply sub_db_notes|]. split; [by apply no_match_notes|done]. }
    eapply triple_bind.
    { unfold Subject_find. apply body_query.
      intros d t (_ & _ & Hr). apply (ranked_mono _ _ _ _ Hr). lia. }
    intros ss.
    eapply triple_conseq with
      (P := fun s => (forall x, x ∈ ss ->
                        x ∈ subjects d0 /\ Subject.branch x = Branch._id b)
                     /\ on_body (tidy_reg d0 t0 id 1) s);
      [ | | intros ? ? H; exact H | intros ? ? H; exact H ]; cycle 1.
    { intros s [Hinv ->]. split; [|exact Hinv].
      intros x Hx. apply elem_of_keep in Hx as [Hx1 Hx2].
      destruct Hinv as ((_ & Hs & _) & _).
      split; [by apply Hs | by apply String.eqb_eq]. }
    apply triple_pure. intros Hss.
    eapply triple_bind with (R := fun _ => on_body (tidy_reg d0 t0 id 1)).
    { apply triple_for_each. intros x Hx. destruct (Hss x Hx) as [Hx0 Hxb].
      apply (body_purge _ _ (tidy_reg d0 t0 id 1)).
      intros d t (Hsub & Hnm & Hr).
      rewrite (no_notes_of_subject d0 d id b x) by done. split.
      - intros j. rewrite take_nil. simpl. rewrite app_nil_r.
        apply (ranked_mono _ _ _ _ Hr). lia.
      - simpl. rewrite app_nil_r.
        split; [by apply sub_db_notes|]. split; [by apply no_match_notes|done]. }
    intros _. unfold Subject_deleteMany. apply body_update.
    intros d t (Hsub & Hnm & Hr). split.
    - apply (ranked_mono _ _ _ _ Hr). lia.
    - split; [by apply sub_db_subjects|]. split; [exact Hnm|].
      by apply (ranked_removed t0 1 _ KSubject). }
  intros _.
  eapply triple_bind with (R := fun _ => on_body (fun _ t => ranked t0 2 t)).
  { unfold Branch_deleteMany. apply body_update.
    intros d t (Hsub & Hnm & Hr). split.
    - apply (ranked_mono _ _ _ _ Hr). lia.
    - apply (ranked_removed t0 1 _ KBranch); [done | simpl; lia]. }
  intros _.
  eapply triple_bind with (R := fun _ => on_body (fun _ t => ranked t0 3 t)).
  { unfold Regulation_findByIdAndDelete. apply body_update.
    intros d t Hr. split.
    - apply (ranked_mono _ _ _ _ Hr). lia.
    - apply (ranked_removed t0 2 _ KRegulation); [done | simpl; lia]. }
  intros _.
  eapply triple_conseq;
    [ apply (body_commit r200 (fun _ t => ranked t0 3 t) (ordered_exit t0))
    | intros ? H; exact H | | intros ? ? H; exact H ].
  - intros d t Hr. exact Hr.
  - intros r s (-> & t' & Ht & Hr). unfold on_body, ordered_exit.
    rewrite Ht. by apply ranked_silent.
Qed.

Lemma branch_walk isValid id d0 t0 (r200 : Response) :
  triple (on_body (fresh d0 t0))
    ((if negb (isValid id)
      then respond (json 400 (Message "Invalid ID")) else ret tt) ;;;
     branch <~ Branch_findById InSession id ;;
     (if branch is None
      then respond (json 404 (Message "Branch not found"))
      else ret tt) ;;;
     branchNotes <~ Note_find InSession (ByBranch id) ;;
     for_of branchNotes (fun note => deleteFile (Note.fileKey note)) ;;;
     Note_deleteMany InSession (ByBranch id) ;;;
     Subject_deleteMany InSession id ;;;
     Branch_findByIdAndDelete InSession id ;;;
     commitTransaction ;;;
     ret r200)
    (fun r => on_body (ordered_exit t0 (Some r)))
    (fun r => on_body (ordered_exit t0 r)).
Proof.
  eapply triple_bind with (R := fun _ => on_body (fresh d0 t0)).
  { destruct (negb (isValid id)).
    - apply triple_respond. intros s [_ Ht]. unfold on_body, ordered_exit.
      rewrite Ht. apply ranked_start.
    - by apply triple_ret. }
  intros _. eapply triple_bind.
  { unfold Branch_findById. apply body_query.
    intros d t [_ ->]. apply ranked_start. }
  intros branch.
  eapply triple_bind with (R := fun _ => on_body (fresh d0 t0)).
  { destruct branch.
    - apply triple_ret. by intros s [H _].
    - apply triple_respond. intros s [[_ Ht] _]. unfold on_body, ordered_exit.
      rewrite Ht. apply ranked_start. }
  intros _. eapply triple_purge_seq.
  { apply (body_purge _ _ (fun _ t => ranked t0 0 t)). intros d t [-> ->].
    split.
    - intros j. apply ranked_blobs, ranked_start.
    - rewrite app_assoc. apply (ranked_removed t0 0 _ KNote); [|done].
      apply ranked_blobs, ranked_start. }
  eapply triple_bind with (R := fun _ => on_body (fun _ t => ranked t0 1 t)).
  { unfold Subject_deleteMany. apply body_update. intros d t Hr. split.
    - apply (ranked_mono _ _ _ _ Hr). lia.
    - apply (ranked_removed t0 0 _ KSubject); [done | simpl; lia]. }
  intros _.
  eapply triple_bind with (R := fun _ => on_body (fun _ t => ranked t0 2 t)).
  { unfold Branch_findByIdAndDelete. apply body_update. intros d t Hr. split.
    - apply (ranked_mono _ _ _ _ Hr). lia.
    - apply (ranked_removed t0 1 _ KBranch); [done | simpl; lia]. }
  intros _.
  eapply triple_conseq;
    [ apply (body_commit r200 (fun _ t => ranked t0 2 t) (ordered_exit t0))
    | intros ? H; exact H | | intros ? ? H; exact H ].
  - intros d t Hr. apply (ranked_mono _ _ _ _ Hr). lia.
  - intros r s (-> & t' & Ht & Hr). unfold on_body, ordered_exit.
    rewrite Ht. apply ranked_silent; [|done].
    apply (ranked_mono _ _ _ _ Hr). lia.
Qed.

Lemma subject_walk isValid id d0 t0 (r200 : Response) :
  triple (on_body (fresh d0 t0))
    ((if negb (isValid id)
      then respond (json 400 (Message "Invalid ID")) else ret tt) ;;;
     subject <~ Subject_findById InSession id ;;
     (if subject is None
      then respond (json 404 (Message "Subject not found"))
      else ret tt) ;;;
     notes <~ Note_find InSession (BySubject id) ;;
     for_of notes (fun note => deleteFile (Note.fileKey note)) ;;;
     Note_deleteMany InSession (BySubject id) ;;;
     Subject_findByIdAndDelete InSession id ;;;
     commitTransaction ;;;
     ret r200)
    (fun r => on_body (ordered_exit t0 (Some r)))
    (fun r => on_body (ordered_exit t0 r)).
Proof.
  eapply triple_bind with (R := fun _ => on_body (fresh d0 t0)).
  { destruct (negb (isValid id)).
    - apply triple_respond. intros s [_ Ht]. unfold on_body, ordered_exit.
      rewrite Ht. apply ranked_start.
    - by apply triple_ret. }
  intros _. eapply triple_bind.
  { unfold Subject_findById. apply body_query.
    intros d t [_ ->]. apply ranked_start. }
  intros subject.
  eapply triple_bind with (R := fun _ => on_body (fresh d0 t0)).
  { destruct subject.
    - apply triple_ret. by intros s [H _].
    - apply triple_respond. intros s [[_ Ht] _]. unfold on_body, ordered_exit.
      rewrite Ht. apply ranked_start. }
  intros _. eapply triple_purge_seq.
  { apply (body_purge _ _ (fun _ t => ranked t0 0 t)). intros d t [-> ->].
    split.
    - intros j. apply ranked_blobs, ranked_start.
    - rewrite app_assoc. apply (ranked_removed t0 0 _ KNote); [|done].
      apply ranked_blobs, ranked_start. }
  eapply triple_bind with (R := fun _ => on_body (fun _ t => ranked t0 1 t)).
  { unfold Subject_findByIdAndDelete. apply body_update. intros d t Hr. split.
    - apply (ranked_mono _ _ _ _ Hr). lia.
    - apply (ranked_removed t0 0 _ KSubject); [done | simpl; lia]. }
  intros _.
  eapply triple_conseq;
    [ apply (body_commit r200 (fun _ t => ranked t0 1 t) (ordered_exit t0))
    | intros ? H; exact H | | intros ? ? H; exact H ].
  - intros d t Hr. apply (ranked_mono _ _ _ _ Hr). lia.
  - intros r s (-> & t' & Ht & Hr). unfold on_body, ordered_exit.
    rewrite Ht. apply ranked_silent; [|done].
    apply (ranked_mono _ _ _ _ Hr). lia.
Qed.

Lemma ordered_run (body : M Response) msg st :
  triple (on_body (fresh (committed st) (trace st))) body
    (fun r => on_body (ordered_exit (trace st) (Some r)))
    (fun r => on_body (ordered_exit (trace st) r)) ->
  children_first
    (events_since st
       (run (startSession ;;;
             try_catch body
               (fun _ => abortTransaction ;;; ret (json 500 (Message msg))))
          st).2) = true.
Proof.
  intros Hbody.
  destruct (run _ st) as [r st'] eqn:Hrun.
  apply (transaction_run body msg st
           (fun r => ordered_exit (trace st) (Some r))
           (ordered_exit (trace st)) Hbody) in Hrun.
  unfold events_since, ordered_exit in *. simpl.
  destruct Hrun as [(r' & _ & H) | [(r' & _ & H)
                   | [(_ & t & H & [Ht | Ht]) | (_ & Ht)]]].
  - by apply (ranked_children_first _ 3).
  - by apply (ranked_children_first _ 3).
  - rewrite Ht. by apply (ranked_children_first _ 3).
  - rewrite Ht. apply (ranked_children_first _ 3). by apply ranked_silent.
  - rewrite Ht. apply (ranked_children_first _ 3), ranked_start.
Qed.

(** ** Descendants before their ancestors *)

Lemma existsb_false {A} (p : A -> bool) (l : list A) :
  existsb p l = false <-> forall x, x ∈ l -> p x = false.
Proof.
  induction l as [|y l IH]; simpl.
  - split; [intros _ x Hx; by apply not_elem_of_nil in Hx | done].
  - rewrite orb_false_iff, IH. split.
    + intros [Hy Hl] x Hx. apply elem_of_cons in Hx as [->|Hx]; auto.
    + intros H. split; [apply H; left | intros x Hx; apply H; by right].
Qed.

Lemma no_subject_purged bid d :
  no_subject bid (set_subjects (drop_matching (subject_in bid) (subjects d)) d).
Proof.
  intros s Hs. simpl in Hs. by apply elem_of_drop_matching in Hs as [? _].
Qed.

Lemma triple_for_of_from {A} (l : list A) (body : A -> M unit)
    (P : St -> Prop) (I : list A -> St -> Prop) E :
  (forall st, P st -> I [] st) ->
  (forall pre x post, l = (pre ++ x :: post)%list ->
     triple (I pre) (body x) (fun _ => I (pre ++ [x])%list) E) ->
  triple P (for_of l body) (fun _ => I l) E.
Proof.
  intros HP H. eapply triple_conseq; [apply (triple_for_of l body I E H) | ..];
    auto.
Qed.

Lemma descendants_first_nil d : descendants_first d [].
Proof. intros pre k id post H. by destruct pre. Qed.

Lemma descendants_first_app d evs new :
  descendants_first d evs ->
  (forall k id, EvRemove k id ∈ new ->
     forall e, e ∈ descendants d k id -> e ∈ evs) ->
  descendants_first d (evs ++ new).
Proof.
  intros Hd Hnew pre k id post Heq e He.
  apply app_eq_inv in Heq as [(m & -> & Hm) | (m & -> & Hm)].
  - destruct m as [|x m]; simpl in Hm.
    + rewrite app_nil_r in *. apply (Hnew k id); [|done]. rewrite <- Hm. left.
    + injection Hm as <- _. by apply (Hd pre k id m).
  - apply elem_of_app. left. apply (Hnew k id); [|done].
    rewrite Hm. apply elem_of_app. right. left.
Qed.

Lemma removed_elem k k' id ids :
  EvRemove k' id ∈ removed k ids -> k' = k /\ id ∈ ids.
Proof.
  unfold removed. intros H.
  apply list_elem_of_fmap in H as (x & [= -> ->] & Hx).
  by split.
Qed.

Lemma removed_elem_of k id ids : id ∈ ids -> EvRemove k id ∈ removed k ids.
Proof. intros H. by apply (list_elem_of_fmap_2 (EvRemove k)). Qed.

Lemma blob_events_removal k id ns : EvRemove k id ∉ blob_events ns.
Proof.
  unfold blob_events. intros H.
  by apply list_elem_of_fmap in H as (x & [=] & _).
Qed.

Lemma has_id_elem {A} (get : A -> string) id l x :
  x ∈ has_id get id l -> x = id.
Proof.
  unfold has_id. destruct (find_first _ l).
  - by intros ->%list_elem_of_singleton.
  - by intros ?%not_elem_of_nil.
Qed.

Lemma descent_start d0 t0 : descent d0 t0 t0.
Proof.
  exists []. split; [by rewrite app_nil_r | apply descendants_first_nil].
Qed.

Lemma descent_silent d0 t0 t new :
  descent d0 t0 t -> (forall k id, EvRemove k id ∉ new) ->
  descent d0 t0 (t ++ new).
Proof.
  intros (evs & -> & Hd) Hnew. exists (evs ++ new)%list.
  split; [by rewrite app_assoc|]. apply descendants_first_app; [done|].
  intros k id Hin. by destruct (Hnew k id).
Qed.

Lemma gone_start d : gone d d [].
Proof. repeat split; intros; by left. Qed.

Lemma orderly_start d0 t0 : orderly d0 t0 d0 t0.
Proof.
  exists []. split; [by rewrite app_nil_r|].
  split; [apply descendants_first_nil|].
  split; [apply sub_db_refl | apply gone_start].
Qed.

Lemma orderly_leaves d0 t0 d t : orderly d0 t0 d t -> descent d0 t0 t.
Proof. intros (evs & Ht & Hd & _). by exists evs. Qed.

Lemma orderly_blobs d0 t0 d t ns :
  orderly d0 t0 d t -> descent d0 t0 (t ++ blob_events ns).
Proof.
  intros H. apply descent_silent; [by apply (orderly_leaves _ _ d)|].
  intros k id. apply blob_events_removal.
Qed.

(** One statement of the body: the view moves from [d] to [d'] and the
    events [new] are issued. *)
Lemma orderly_step d0 t0 d t d' new :
  orderly d0 t0 d t ->
  sub_db d0 d' ->
  (forall evs, gone d0 d evs -> gone d0 d' (evs ++ new)) ->
  (forall k id, EvRemove k id ∈ new ->
     forall evs, gone d0 d evs ->
       forall e, e ∈ descendants d0 k id -> e ∈ evs) ->
  orderly d0 t0 d' (t ++ new).
Proof.
  intros (evs & -> & Hd & Hsub & Hg) Hsub' Hg' Hnew.
  exists (evs ++ new)%list. split; [by rewrite app_assoc|].
  split; [|split; [done | by apply Hg']].
  apply descendants_first_app; [done|].
  intros k id Hin e He. by apply (Hnew k id Hin evs).
Qed.

Lemma descent_step d0 t0 d t new :
  orderly d0 t0 d t ->
  (forall k id, EvRemove k id ∈ new ->
     forall evs, gone d0 d evs ->
       forall e, e ∈ descendants d0 k id -> e ∈ evs) ->
  descent d0 t0 (t ++ new).
Proof.
  intros (evs & -> & Hd & Hsub & Hg) Hnew.
  exists (evs ++ new)%list. split; [by rewrite app_assoc|].
  apply descendants_first_app; [done|].
  intros k id Hin e He. by apply (Hnew k id Hin evs).
Qed.

Lemma gone_purge d0 d evs g :
  gone d0 d evs ->
  gone d0 (set_notes (drop_matching (note_matches g) (notes d)) d)
    (evs ++ blob_events (keep (note_matches g) (notes d))
       ++ removed KNote (map Note._id (keep (note_matches g) (notes d)))).
Proof.
  intros (Hn & Hs & Hb). split; [|split]; simpl.
  - intros n Hin. destruct (Hn n Hin) as [Hv | He].
    + destruct (note_matches g n) eqn:Hm.
      * right. apply elem_of_app. right. apply elem_of_app. right.
        apply removed_elem_of, (list_elem_of_fmap_2 Note._id).
        by apply elem_of_keep.
      * left. by apply elem_of_drop_matching.
    + right. apply elem_of_app. by left.
  - intros s Hin. destruct (Hs s Hin) as [Hv | He]; [by left|].
    right. apply elem_of_app. by left.
  - intros b Hin. destruct (Hb b Hin) as [Hv | He]; [by left|].
    right. apply elem_of_app. by left.
Qed.

Lemma gone_subjects d0 d evs bid :
  gone d0 d evs ->
  gone d0 (set_subjects (drop_matching (subject_in bid) (subjects d)) d)
    (evs ++ removed KSubject
              (map Subject._id (keep (subject_in bid) (subjects d)))).
Proof.
  intros (Hn & Hs & Hb). split; [|split]; simpl.
  - intros n Hin. destruct (Hn n Hin) as [Hv | He]; [by left|].
    right. apply elem_of_app. by left.
  - intros s Hin. destruct (Hs s Hin) as [Hv | He].
    + destruct (subject_in bid s) eqn:Hm.
      * right. apply elem_of_app. right.
        apply removed_elem_of, (list_elem_of_fmap_2 Subject._id).
        by apply elem_of_keep.
      * left. by apply elem_of_drop_matching.
    + right. apply elem_of_app. by left.
  - intros b Hin. destruct (Hb b Hin) as [Hv | He]; [by left|].
    right. apply elem_of_app. by left.
Qed.

Lemma gone_branches d0 d evs rid :
  gone d0 d evs ->
  gone d0 (set_branches (drop_matching (branch_in rid) (branches d)) d)
    (evs ++ removed KBranch
              (map Branch._id (keep (branch_in rid) (branches d)))).
Proof.
  intros (Hn & Hs & Hb). split; [|split]; simpl.
  - intros n Hin. destruct (Hn n Hin) as [Hv | He]; [by left|].
    right. apply elem_of_app. by left.
  - intros s Hin. destruct (Hs s Hin) as [Hv | He]; [by left|].
    right. apply elem_of_app. by left.
  - intros b Hin. destruct (Hb b Hin) as [Hv | He].
    + destruct (branch_in rid b) eqn:Hm.
      * right. apply elem_of_app. right.
        apply removed_elem_of, (list_elem_of_fmap_2 Branch._id).
        by apply elem_of_keep.
      * left. by apply elem_of_drop_matching.
    + right. apply elem_of_app. by left.
Qed.

Lemma sub_db_branches d0 d p :
  sub_db d0 d -> sub_db d0 (set_branches (drop_matching p (branches d)) d).
Proof.
  intros (Hn & Hs & Hb). repeat split; simpl; auto.
  etrans; [apply drop_matching_subseteq | exact Hb].
Qed.

Lemma orderly_purge d0 t0 g d t :
  orderly d0 t0 d t ->
  orderly d0 t0
    (set_notes (drop_matching (note_matches g) (notes d)) d)
    (t ++ blob_events (keep (note_matches g) (notes d))
       ++ removed KNote (map Note._id (keep (note_matches g) (notes d)))).
Proof.
  intros Ho. apply (orderly_step d0 t0 d); [done | | |].
  - destruct Ho as (_ & _ & _ & Hsub & _). by apply sub_db_notes.
  - intros evs. apply gone_purge.
  - intros k id Hin evs _ e He. apply elem_of_app in Hin as [Hin | Hin];
      [by apply blob_events_removal in Hin|].
    apply removed_elem in Hin as [-> _]. by apply not_elem_of_nil in He.
Qed.

(** When none of its descendants is in the view, the removals of the
    descendants of a record have all been issued. *)
Lemma subject_clear d0 d evs sid :
  gone d0 d evs -> no_match (BySubject sid) d ->
  forall e, e ∈ descendants d0 KSubject sid -> e ∈ evs.
Proof.
  intros (Hn & _ & _) Hnm e He. simpl in He. unfold removed in He.
  apply list_elem_of_fmap in He as (i & -> & Hi).
  apply list_elem_of_fmap in Hi as (n & -> & Hin).
  apply elem_of_keep in Hin as [Hm Hin].
  destruct (Hn n Hin) as [Hv | Hev]; [|done].
  rewrite (Hnm n Hv) in Hm. discriminate.
Qed.

Lemma branch_clear d0 d evs bid :
  gone d0 d evs -> no_subject bid d ->
  (forall n, n ∈ notes d -> note_under d0 bid n = false) ->
  forall e, e ∈ descendants d0 KBranch bid -> e ∈ evs.
Proof.
  intros (Hn & Hs & _) Hns Hnn e He. simpl in He. unfold removed in He.
  apply elem_of_app in He as [He | He];
    apply list_elem_of_fmap in He as (i & -> & Hi).
  - apply list_elem_of_fmap in Hi as (s & -> & Hin).
    apply elem_of_keep in Hin as [Hm Hin].
    destruct (Hs s Hin) as [Hv | Hev]; [|done].
    rewrite (Hns s Hv) in Hm. discriminate.
  - apply list_elem_of_fmap in Hi as (n & -> & Hin).
    apply elem_of_keep in Hin as [Hm Hin].
    destruct (Hn n Hin) as [Hv | Hev]; [|done].
    rewrite (Hnn n Hv) in Hm. discriminate.
Qed.

Lemma regulation_clear d0 d evs rid :
  gone d0 d evs ->
  (forall b, b ∈ branches d -> branch_in rid b = false) ->
  (forall s, s ∈ subjects d -> subject_refs d0 rid s = false) ->
  (forall n, n ∈ notes d -> note_refs d0 rid n = false) ->
  forall e, e ∈ descendants d0 KRegulation rid -> e ∈ evs.
Proof.
  intros (Hn & Hs & Hb) Hnb Hns Hnn e He. simpl in He. unfold removed in He.
  apply elem_of_app in He as [He | He];
    [|apply elem_of_app in He as [He | He]];
    apply list_elem_of_fmap in He as (i & -> & Hi).
  - apply list_elem_of_fmap in Hi as (b & -> & Hin).
    apply elem_of_keep in Hin as [Hm Hin].
    destruct (Hb b Hin) as [Hv | Hev]; [|done].
    rewrite (Hnb b Hv) in Hm. discriminate.
  - apply list_elem_of_fmap in Hi as (s & -> & Hin).
    apply elem_of_keep in Hin as [Hm Hin].
    destruct (Hs s Hin) as [Hv | Hev]; [|done].
    rewrite (Hns s Hv) in Hm. discriminate.
  - apply list_elem_of_fmap in Hi as (n & -> & Hin).
    apply elem_of_keep in Hin as [Hm Hin].
    destruct (Hn n Hin) as [Hv | Hev]; [|done].
    rewrite (Hnn n Hv) in Hm. discriminate.
Qed.

(** On a consistent store the Notes under a Branch name it, and the
    Notes that reference a Regulation through the hierarchy name it. *)
Lemma under_branch d0 bid n :
  consistent d0 = true -> n ∈ notes d0 -> note_under d0 bid n = true ->
  Note.branch n = bid.
Proof.
  intros Hc Hn Hu. unfold note_under in Hu.
  apply orb_true_iff in Hu as [Hu | Hu]; [by apply String.eqb_eq|].
  apply existsb_exists in Hu as (s & Hs & Heq).
  apply list_elem_of_In, elem_of_keep in Hs as [Hsb Hs].
  apply String.eqb_eq in Heq. apply String.eqb_eq in Hsb.
  by rewrite <- (consistent_subject d0 n s Hc Hn Hs (eq_sym Heq)).
Qed.

Lemma refs_regulation d0 rid n :
  consistent d0 = true -> n ∈ notes d0 -> note_refs d0 rid n = true ->
  Note.regulation n = rid.
Proof.
  intros Hc Hn Hr. unfold note_refs in Hr.
  assert (Hvia : forall b, b ∈ branches_of d0 rid ->
            Note.branch n = Branch._id b -> Note.regulation n = rid).
  { intros b Hb Heq. apply elem_of_keep in Hb as [Hbr Hb].
    apply String.eqb_eq in Hbr.
    by rewrite <- (consistent_branch d0 n b Hc Hn Hb (eq_sym Heq)). }
  apply orb_true_iff in Hr as [Hr | Hr];
    [apply orb_true_iff in Hr as [Hr | Hr]|].
  - by apply String.eqb_eq.
  - apply existsb_exists in Hr as (b & Hb & Heq).
    apply list_elem_of_In in Hb. apply String.eqb_eq in Heq.
    by apply (Hvia b).
  - apply existsb_exists in Hr as (s & Hs & Heq).
    apply list_elem_of_In, elem_of_keep in Hs as [Href Hs].
    apply String.eqb_eq in Heq.
    unfold subject_refs in Href.
    apply existsb_exists in Href as (b & Hb & Hsb).
    apply list_elem_of_In in Hb. apply String.eqb_eq in Hsb.
    apply (Hvia b Hb).
    by rewrite <- (consistent_subject d0 n s Hc Hn Hs (eq_sym Heq)).
Qed.

Lemma no_subject_notes bid l d :
  no_subject bid d -> no_subject bid (set_notes l d).
Proof. intros H s Hs. by apply H. Qed.

Lemma no_subject_subjects bid p d :
  no_subject bid d ->
  no_subject bid (set_subjects (drop_matching p (subjects d)) d).
Proof.
  intros H s Hs. apply H. simpl in Hs.
  by apply elem_of_drop_matching in Hs as [_ ?].
Qed.

Lemma no_subject_branches bid l d :
  no_subject bid d -> no_subject bid (set_branches l d).
Proof. intros H s Hs. by apply H. Qed.

Lemma no_match_branches f l d : no_match f d -> no_match f (set_branches l d).
Proof. intros H n Hn. by apply H. Qed.

Lemma no_match_subjects f l d : no_match f d -> no_match f (set_subjects l d).
Proof. intros H n Hn. by apply H. Qed.

Lemma reg_walk_purge d0 t0 rid done g d t :
  reg_walk d0 t0 rid done d t ->
  (forall j, descent d0 t0
     (t ++ blob_events (take j (keep (note_matches g) (notes d))))) /\
  reg_walk d0 t0 rid done
    (set_notes (drop_matching (note_matches g) (notes d)) d)
    (t ++ blob_events (keep (note_matches g) (notes d))
       ++ removed KNote (map Note._id (keep (note_matches g) (notes d)))).
Proof.
  intros (Ho & Hnm & Hb & Hdone). split.
  - intros j. by apply (orderly_blobs _ _ d).
  - split; [by apply orderly_purge|]. split; [by apply no_match_notes|].
    split; [exact Hb|]. intros b Hin. by apply no_subject_notes, Hdone.
Qed.

(** The removal of the subjects of branch [b] of the regulation. *)
Lemma reg_walk_subjects d0 t0 rid done b d t :
  consistent d0 = true ->
  b ∈ branches d0 -> Branch.regulation b = rid ->
  reg_walk d0 t0 rid done d t ->
  reg_walk d0 t0 rid (done ++ [b])
    (set_subjects
       (drop_matching (subject_in (Branch._id b)) (subjects d)) d)
    (t ++ removed KSubject
            (map Subject._id
               (keep (subject_in (Branch._id b)) (subjects d)))).
Proof.
  intros Hc Hb Hbr (Ho & Hnm & Hbs & Hdone).
  assert (Hsub : sub_db d0 d) by (by destruct Ho as (_ & _ & _ & ? & _)).
  split; [|split; [by apply no_match_subjects|split; [exact Hbs|]]].
  - apply (orderly_step d0 t0 d); [done | by apply sub_db_subjects | | ].
    + intros evs. apply gone_subjects.
    + intros k sid Hin evs Hg. apply removed_elem in Hin as [-> Hin].
      apply list_elem_of_fmap in Hin as (s & -> & Hs).
      apply elem_of_keep in Hs as [Hsb Hs]. apply String.eqb_eq in Hsb.
      apply (subject_clear d0 d); [done|].
      intros n Hn. destruct (note_matches _ n) eqn:Hm; [|done].
      simpl in Hm. apply String.eqb_eq in Hm.
      destruct Hsub as (Hsn & Hss & _).
      pose proof (consistent_subject d0 n s Hc (Hsn _ Hn) (Hss _ Hs)
                    (eq_sym Hm)) as Heq.
      assert (Hbn : Branch._id b = Note.branch n) by congruence.
      pose proof (consistent_branch d0 n b Hc (Hsn _ Hn) Hb Hbn) as Heq'.
      specialize (Hnm n Hn). simpl in Hnm. apply String.eqb_neq in Hnm.
      congruence.
  - intros b' Hin. apply elem_of_app in Hin as [Hin | Hin].
    + by apply no_subject_subjects, Hdone.
    + apply list_elem_of_singleton in Hin as ->. apply no_subject_purged.
Qed.

Lemma regulation_descent isValid id d0 t0 (r200 : Response) :
  consistent d0 = true ->
  triple (on_body (fresh d0 t0))
    ((if negb (isValid id)
      then respond (json 400 (Message "Invalid ID")) else ret tt) ;;;
     regulation <~ Regulation_findById InSession id ;;
     (if regulation is None
      then respond (json 404 (Message "Regulation not found"))
      else ret tt) ;;;
     notes <~ Note_find InSession (ByRegulation id) ;;
     for_of notes (fun note => deleteFile (Note.fileKey note)) ;;;
     Note_deleteMany InSession (ByRegulation id) ;;;
     branches <~ Branch_find InSession id ;;
     for_of branches (fun branch =>
       branchNotes <~ Note_find InSession (ByBranch (Branch._id branch)) ;;
       for_of branchNotes (fun note => deleteFile (Note.fileKey note)) ;;;
       Note_deleteMany InSession (ByBranch (Branch._id branch)) ;;;
       subjects <~ Subject_find InSession (Branch._id branch) ;;
       for_of subjects (fun subject =>
         subjectNotes <~
           Note_find InSession (BySubject (Subject._id subject)) ;;
         for_of subjectNotes (fun note => deleteFile (Note.fileKey note)) ;;;
         Note_deleteMany InSession (BySubject (Subject._id subject))) ;;;
       Subject_deleteMany InSession (Branch._id branch)) ;;;
     Branch_deleteMany InSession id ;;;
     Regulation_findByIdAndDelete InSession id ;;;
     commitTransaction ;;;
     ret r200)
    (fun r => on_body (descent_exit d0 t0 (Some r)))
    (fun r => on_body (descent_exit d0 t0 r)).
Proof.
  intros Hcons.
  eapply triple_bind with (R := fun _ => on_body (fresh d0 t0)).
  { destruct (negb (isValid id)).
    - apply triple_respond. intros s [_ Ht]. unfold on_body, descent_exit.
      rewrite Ht. apply descent_start.
    - by apply triple_ret. }
  intros _. eapply triple_bind.
  { unfold Regulation_findById. apply body_query.
    intros d t [_ ->]. apply descent_start. }
  intros regulation.
  eapply triple_bind with (R := fun _ => on_body (fresh d0 t0)).
  { destruct regulation.
    - apply triple_ret. by intros s [H _].
    - apply triple_respond. intros s [[_ Ht] _]. unfold on_body, descent_exit.
      rewrite Ht. apply descent_start. }
  intros _. eapply triple_purge_seq.
  { apply (body_purge _ _ (reg_walk d0 t0 id [])). intros d t [-> ->].
    split.
    - intros j. apply (orderly_blobs _ _ d0), orderly_start.
    - split; [apply orderly_purge, orderly_start|].
      split; [apply no_match_purged|]. split; [reflexivity|].
      intros b Hb. by apply not_elem_of_nil in Hb. }
  eapply triple_bind.
  { unfold Branch_find. apply body_query.
    intros d t (Ho & _). by apply (orderly_leaves _ _ d). }
  intros bs.
  eapply triple_conseq with
    (P := fun s => bs = branches_of d0 id /\
                   on_body (reg_walk d0 t0 id []) s);
    [ | | intros ? ? H; exact H | intros ? ? H; exact H ]; cycle 1.
  { intros s [Hw ->]. split; [|exact Hw].
    destruct Hw as (_ & _ & Hb & _). unfold branches_of. by rewrite Hb. }
  apply triple_pure. intros Hbs.
  eapply triple_bind.
  { apply (triple_for_of_from bs _ _
             (fun done => on_body (reg_walk d0 t0 id done))).
    { by intros s H. }
    intros done b post Hsplit.
    assert (Hb : b ∈ branches d0 /\ Branch.regulation b = id).
    { assert (Hin : b ∈ bs)
        by (rewrite Hsplit; apply elem_of_app; right; left).
      rewrite Hbs in Hin. apply elem_of_keep in Hin as [Hr Hin].
      split; [done | by apply String.eqb_eq]. }
    destruct Hb as [Hb Hbr].
    eapply triple_purge_seq.
    { apply (body_purge _ _ (reg_walk d0 t0 id done)).
      intros d t. apply reg_walk_purge. }
    eapply triple_bind.
    { unfold Subject_find. apply body_query.
      intros d t (Ho & _). by apply (orderly_leaves _ _ d). }
    intros ss.
    eapply triple_bind with
      (R := fun _ => on_body (reg_walk d0 t0 id done)).
    { eapply triple_conseq;
        [ apply (triple_for_each ss _ (on_body (reg_walk d0 t0 id done)))
        | intros s [H _]; exact H
        | intros ? ? H; exact H | intros ? ? H; exact H ].
      intros x _. apply body_purge. intros d t. apply reg_walk_purge. }
    intros _. unfold Subject_deleteMany. apply body_update.
    intros d t Hw. split.
    - destruct Hw as (Ho & _). by apply (orderly_leaves _ _ d).
    - by apply reg_walk_subjects. }
  intros ?.
  eapply triple_bind with
    (R := fun _ => on_body (fun d t =>
            orderly d0 t0 d t /\ no_match (ByRegulation id) d /\
            (forall b, b ∈ branches d -> branch_in id b = false) /\
            forall b, b ∈ branches_of d0 id ->
              no_subject (Branch._id b) d)).
  { unfold Branch_deleteMany. apply body_update.
    intros d t (Ho & Hnm & Hb & Hdone). split;
      [by apply (orderly_leaves _ _ d)|].
    assert (Hsub : sub_db d0 d) by (by destruct Ho as (_ & _ & _ & ? & _)).
    split; [|split; [by apply no_match_branches|split]].
    - apply (orderly_step d0 t0 d); [done | by apply sub_db_branches | | ].
      + intros evs. apply gone_branches.
      + intros k bid Hin evs Hg. apply removed_elem in Hin as [-> Hin].
        apply list_elem_of_fmap in Hin as (b & -> & Hin).
        assert (Hbin : b ∈ branches_of d0 id)
          by (unfold branches_of; by rewrite <- Hb).
        apply elem_of_keep in Hin as [Hbr Hin]. apply String.eqb_eq in Hbr.
        apply (branch_clear d0 d); [done | | ].
        * apply Hdone. by rewrite Hbs.
        * intros n Hn. destruct (note_under d0 (Branch._id b) n) eqn:Hu;
            [|done].
          destruct Hsub as (Hsn & _ & Hsb).
          pose proof (under_branch d0 _ n Hcons (Hsn _ Hn) Hu) as Heq.
          pose proof (consistent_branch d0 n b Hcons (Hsn _ Hn)
                        (Hsb _ Hin) (eq_sym Heq)) as Heq'.
          specialize (Hnm n Hn). simpl in Hnm. apply String.eqb_neq in Hnm.
          congruence.
    - intros b Hin. simpl in Hin.
      by apply elem_of_drop_matching in Hin as [? _].
    - intros b Hin. apply no_subject_branches, Hdone. by rewrite Hbs. }
  intros _.
  eapply triple_bind with (R := fun _ => on_body (fun _ t => descent d0 t0 t)).
  { unfold Regulation_findByIdAndDelete. apply body_update.
    intros d t (Ho & Hnm & Hnb & Hdone). split;
      [by apply (orderly_leaves _ _ d)|].
    assert (Hsub : sub_db d0 d) by (by destruct Ho as (_ & _ & _ & ? & _)).
    apply (descent_step d0 t0 d); [done|].
    intros k rid Hin evs Hg. apply removed_elem in Hin as [-> Hin].
    apply has_id_elem in Hin as ->.
    apply (regulation_clear d0 d); [done | exact Hnb | | ].
    - intros s Hs. unfold subject_refs. apply existsb_false.
      intros b Hbin. apply (Hdone b Hbin s Hs).
    - intros n Hn. destruct (note_refs d0 id n) eqn:Hr; [|done].
      destruct Hsub as (Hsn & _ & _).
      pose proof (refs_regulation d0 id n Hcons (Hsn _ Hn) Hr) as Heq.
      specialize (Hnm n Hn). simpl in Hnm. apply String.eqb_neq in Hnm.
      congruence. }
  intros _.
  eapply triple_conseq;
    [ apply (body_commit r200 (fun _ t => descent d0 t0 t)
               (descent_exit d0 t0))
    | intros ? H; exact H | | intros ? ? H; exact H ].
  - intros d t Hr. exact Hr.
  - intros r s (-> & t' & Ht & Hr). unfold on_body, descent_exit.
    rewrite Ht. apply descent_silent; [done|].
    intros k i Hin. apply list_elem_of_singleton in Hin. discriminate.
Qed.

Lemma branch_descent isValid id d0 t0 (r200 : Response) :
  consistent d0 = true ->
  triple (on_body (fresh d0 t0))
    ((if negb (isValid id)
      then respond (json 400 (Message "Invalid ID")) else ret tt) ;;;
     branch <~ Branch_findById InSession id ;;
     (if branch is None
      then respond (json 404 (Message "Branch not found"))
      else ret tt) ;;;
     branchNotes <~ Note_find InSession (ByBranch id) ;;
     for_of branchNotes (fun note => deleteFile (Note.fileKey note)) ;;;
     Note_deleteMany InSession (ByBranch id) ;;;
     Subject_deleteMany InSession id ;;;
     Branch_findByIdAndDelete InSession id ;;;
     commitTransaction ;;;
     ret r200)
    (fun r => on_body (descent_exit d0 t0 (Some r)))
    (fun r => on_body (descent_exit d0 t0 r)).
Proof.
  intros Hcons.
  eapply triple_bind with (R := fun _ => on_body (fresh d0 t0)).
  { destruct (negb (isValid id)).
    - apply triple_respond. intros s [_ Ht]. unfold on_body, descent_exit.
      rewrite Ht. apply descent_start.
    - by apply triple_ret. }
  intros _. eapply triple_bind.
  { unfold Branch_findById. apply body_query.
    intros d t [_ ->]. apply descent_start. }
  intros branch.
  eapply triple_bind with (R := fun _ => on_body (fresh d0 t0)).
  { destruct branch.
    - apply triple_ret. by intros s [H _].
    - apply triple_respond. intros s [[_ Ht] _]. unfold on_body, descent_exit.
      rewrite Ht. apply descent_start. }
  intros _. eapply triple_purge_seq.
  { apply (body_purge _ _
             (fun d t => orderly d0 t0 d t /\ no_match (ByBranch id) d)).
    intros d t [-> ->]. split.
    - intros j. apply (orderly_blobs _ _ d0), orderly_start.
    - split; [apply orderly_purge, orderly_start | apply no_match_purged]. }
  eapply triple_bind with
    (R := fun _ => on_body (fun d t =>
            orderly d0 t0 d t /\ no_match (ByBranch id) d /\
            no_subject id d)).
  { unfold Subject_deleteMany. apply body_update. intros d t [Ho Hnm].
    split; [by apply (orderly_leaves _ _ d)|].
    assert (Hsub : sub_db d0 d) by (by destruct Ho as (_ & _ & _ & ? & _)).
    split; [|split; [by apply no_match_subjects | apply no_subject_purged]].
    apply (orderly_step d0 t0 d); [done | by apply sub_db_subjects | | ].
    - intros evs. apply gone_subjects.
    - intros k sid Hin evs Hg. apply removed_elem in Hin as [-> Hin].
      apply list_elem_of_fmap in Hin as (s & -> & Hs).
      apply elem_of_keep in Hs as [Hsb Hs]. apply String.eqb_eq in Hsb.
      apply (subject_clear d0 d); [done|].
      intros n Hn. destruct (note_matches _ n) eqn:Hm; [|done].
      simpl in Hm. apply String.eqb_eq in Hm.
      destruct Hsub as (Hsn & Hss & _).
      pose proof (consistent_subject d0 n s Hcons (Hsn _ Hn) (Hss _ Hs)
                    (eq_sym Hm)) as Heq.
      specialize (Hnm n Hn). simpl in Hnm. apply String.eqb_neq in Hnm.
      congruence. }
  intros _.
  eapply triple_bind with (R := fun _ => on_body (fun _ t => descent d0 t0 t)).
  { unfold Branch_findByIdAndDelete. apply body_update.
    intros d t (Ho & Hnm & Hns). split; [by apply (orderly_leaves _ _ d)|].
    assert (Hsub : sub_db d0 d) by (by destruct Ho as (_ & _ & _ & ? & _)).
    apply (descent_step d0 t0 d); [done|].
    intros k bid Hin evs Hg. apply removed_elem in Hin as [-> Hin].
    apply has_id_elem in Hin as ->.
    apply (branch_clear d0 d); [done | exact Hns |].
    intros n Hn. destruct (note_under d0 id n) eqn:Hu; [|done].
    destruct Hsub as (Hsn & _ & _).
    pose proof (under_branch d0 id n Hcons (Hsn _ Hn) Hu) as Heq.
    specialize (Hnm n Hn). simpl in Hnm. apply String.eqb_neq in Hnm.
    congruence. }
  intros _.
  eapply triple_conseq;
    [ apply (body_commit r200 (fun _ t => descent d0 t0 t)
               (descent_exit d0 t0))
    | intros ? H; exact H | | intros ? ? H; exact H ].
  - intros d t Hr. exact Hr.
  - intros r s (-> & t' & Ht & Hr). unfold on_body, descent_exit.
    rewrite Ht. apply descent_silent; [done|].
    intros k i Hin. apply list_elem_of_singleton in Hin. discriminate.
Qed.

Lemma subject_descent isValid id d0 t0 (r200 : Response) :
  triple (on_body (fresh d0 t0))
    ((if negb (isValid id)
      then respond (json 400 (Message "Invalid ID")) else ret tt) ;;;
     subject <~ Subject_findById InSession id ;;
     (if subject is None
      then respond (json 404 (Message "Subject not found"))
      else ret tt) ;;;
     notes <~ Note_find InSession (BySubject id) ;;
     for_of notes (fun note => deleteFile (Note.fileKey note)) ;;;
     Note_deleteMany InSession (BySubject id) ;;;
     Subject_findByIdAndDelete InSession id ;;;
     commitTransaction ;;;
     ret r200)
    (fun r => on_body (descent_exit d0 t0 (Some r)))
    (fun r => on_body (descent_exit d0 t0 r)).
Proof.
  eapply triple_bind with (R := fun _ => on_body (fresh d0 t0)).
  { destruct (negb (isValid id)).
    - apply triple_respond. intros s [_ Ht]. unfold on_body, descent_exit.
      rewrite Ht. apply descent_start.
    - by apply triple_ret. }
  intros _. eapply triple_bind.
  { unfold Subject_findById. apply body_query.
    intros d t [_ ->]. apply descent_start. }
  intros subject.
  eapply triple_bind with (R := fun _ => on_body (fresh d0 t0)).
  { destruct subject.
    - apply triple_ret. by intros s [H _].
    - apply triple_respond. intros s [[_ Ht] _]. unfold on_body, descent_exit.
      rewrite Ht. apply descent_start. }
  intros _. eapply triple_purge_seq.
  { apply (body_purge _ _
             (fun d t => orderly d0 t0 d t /\ no_match (BySubject id) d)).
    intros d t [-> ->]. split.
    - intros j. apply (orderly_blobs _ _ d0), orderly_start.
    - split; [apply orderly_purge, orderly_start | apply no_match_purged]. }
  eapply triple_bind with (R := fun _ => on_body (fun _ t => descent d0 t0 t)).
  { unfold Subject_findByIdAndDelete. apply body_update.
    intros d t (Ho & Hnm). split; [by apply (orderly_leaves _ _ d)|].
    apply (descent_step d0 t0 d); [done|].
    intros k sid Hin evs Hg. apply removed_elem in Hin as [-> Hin].
    apply has_id_elem in Hin as ->.
    by apply (subject_clear d0 d). }
  intros _.
  eapply triple_conseq;
    [ apply (body_commit r200 (fun _ t => descent d0 t0 t)
               (descent_exit d0 t0))
    | intros ? H; exact H | | intros ? ? H; exact H ].
  - intros d t Hr. exact Hr.
  - intros r s (-> & t' & Ht & Hr). unfold on_body, descent_exit.
    rewrite Ht. apply descent_silent; [done|].
    intros k i Hin. apply list_elem_of_singleton in Hin. discriminate.
Qed.

Lemma descent_run (body : M Response) msg st :
  triple (on_body (fresh (committed st) (trace st))) body
    (fun r => on_body (descent_exit (committed st) (trace st) (Some r)))
    (fun r => on_body (descent_exit (committed st) (trace st) r)) ->
  descendants_first (committed st)
    (events_since st
       (run (startSession ;;;
             try_catch body
               (fun _ => abortTransaction ;;; ret (json 500 (Message msg))))
          st).2).
Proof.
  intros Hbody.
  destruct (run _ st) as [r st'] eqn:Hrun.
  apply (transaction_run body msg st
           (fun r => descent_exit (committed st) (trace st) (Some r))
           (descent_exit (committed st) (trace st)) Hbody) in Hrun.
  unfold events_since, descent_exit in *. simpl.
  destruct Hrun as [(r' & _ & H) | [(r' & _ & H)
                   | [(_ & t & H & [Ht | Ht]) | (_ & Ht)]]].
  - destruct H as (evs & -> & Hd). by rewrite drop_app_length.
  - destruct H as (evs & -> & Hd). by rewrite drop_app_length.
  - rewrite Ht. destruct H as (evs & -> & Hd). by rewrite drop_app_length.
  - rewrite Ht. destruct H as (evs & -> & Hd).
    rewrite <- app_assoc, drop_app_length.
    apply descendants_first_app; [done|].
    intros k i Hin. apply list_elem_of_singleton in Hin. discriminate.
  - rewrite Ht, drop_all. apply descendants_first_nil.
Qed.

(** C4, as the spec states it, fails: the sample store holds a note filed
    under a branch of [r1] but under another regulation; the cascade on
    [r1] removes subject [s1] of the first branch before it reaches that
    note, a descendant of the second branch. *)
Lemma subject_removed_before_note :
  children_first
    (events_since (Sample.world Sample.db1 Sample.never)
       (run (deleteHierarchy Sample.valid RegulationRoot "r1")
          (Sample.world Sample.db1 Sample.never)).2) = false.
Proof. vm_compute. reflexivity. Qed.

(** The order by descent says more than the order by kind: a trace
    that removes subject [s1] and then branch [b1] of the sample store and
    leaves note [n1] is in order of kind and not in order of descent. *)
Lemma descent_needs_notes :
  children_first [EvRemove KSubject "s1"; EvRemove KBranch "b1"] = true /\
  ~ descendants_first Sample.db0
      [EvRemove KSubject "s1"; EvRemove KBranch "b1"].
Proof.
  split; [reflexivity|]. intros H.
  specialize (H [] KSubject "s1" [EvRemove KBranch "b1"] eq_refl
                (EvRemove KNote "n1")).
  apply (not_elem_of_nil (EvRemove KNote "n1")), H.
  vm_compute. left.
Qed.

(** C4, amended: on a metadata store that satisfies the
    internal-consistency invariant of the data model, within every
    cascade delete and whatever the outcome of the call, the records are
    removed in the order Notes, Subjects, Branches, root, and no record
    is removed while a descendant remains: when the removal of a Subject
    is issued, the removals of all its Notes have been issued; when the
    removal of a Branch is issued, those of all its Subjects and of all
    the Notes under it; when the removal of a Regulation is issued, those
    of all its Branches, of their Subjects and of all the Notes that
    reference it. *)
Theorem cascade_children_first isValid kind id st :
  consistent (committed st) = true ->
  children_first
    (events_since st (run (deleteHierarchy isValid kind id) st).2) = true /\
  descendants_first (committed st)
    (events_since st (run (deleteHierarchy isValid kind id) st).2).
Proof.
  intros Hcons. split.
  - destruct kind; simpl;
      unfold Admin.delete_regulations, Admin.delete_branches,
        Admin.delete_subjects; apply ordered_run.
    + by apply regulation_walk.
    + apply branch_walk.
    + apply subject_walk.
  - destruct kind; simpl;
      unfold Admin.delete_regulations, Admin.delete_branches,
        Admin.delete_subjects; apply descent_run.
    + by apply regulation_descent.
    + by apply branch_descent.
    + apply subject_descent.
Qed.

Lemma cascade_children_first_witness :
  consistent Sample.db0 = true /\
  children_first
    (events_since (Sample.world Sample.db0 Sample.never)
       (run (deleteHierarchy Sample.valid BranchRoot "b1")
          (Sample.world Sample.db0 Sample.never)).2) = true /\
  (forall pre post,
     events_since (Sample.world Sample.db0 Sample.never)
       (run (deleteHierarchy Sample.valid BranchRoot "b1")
          (Sample.world Sample.db0 Sample.never)).2
     = (pre ++ EvRemove KSubject "s1" :: post)%list ->
     EvRemove KNote "n1" ∈ pre) /\
  (forall pre post,
     events_since (Sample.world Sample.db0 Sample.never)
       (run (deleteHierarchy Sample.valid BranchRoot "b1")
          (Sample.world Sample.db0 Sample.never)).2
     = (pre ++ EvRemove KBranch "b1" :: post)%list ->
     EvRemove KSubject "s1" ∈ pre /\ EvRemove KNote "n1" ∈ pre) /\
  events_since (Sample.world Sample.db0 Sample.never)
    (run (deleteHierarchy Sample.valid BranchRoot "b1")
       (Sample.world Sample.db0 Sample.never)).2
  = [EvBlobDelete "uploads/1_A.pdf"; EvRemove KNote "n1";
     EvRemove KSubject "s1"; EvRemove KBranch "b1"; EvCommit].
Proof.
  destruct (cascade_children_first Sample.valid BranchRoot "b1"
              (Sample.world Sample.db0 Sample.never)) as [Hk Hd];
    [reflexivity|].
  split; [reflexivity|]. split; [exact Hk|]. split; [|split].
  - intros pre post Heq. apply (Hd pre KSubject "s1" post Heq).
    vm_compute. left.
  - intros pre post Heq.
    split; apply (Hd pre KBranch "b1" post Heq); vm_compute.
    + left.
    + right. left.
  - vm_compute. reflexivity.
Defined.

(** ** Completeness of the cascade on a regulation *)

Lemma thorough_start d0 t0 : thorough d0 t0 d0 t0.
Proof.
  repeat split; auto.
  - exists []. split; [by rewrite app_nil_r | by left].
  - intros s Hs. by left.
Qed.

Lemma blob_events_elem n ns :
  n ∈ ns -> EvBlobDelete (Note.fileKey n) ∈ blob_events ns.
Proof.
  intros H. unfold blob_events.
  apply (list_elem_of_fmap_2 (fun n => EvBlobDelete (Note.fileKey n))) in H.
  exact H.
Qed.

Lemma thorough_purge d0 t0 g d t :
  thorough d0 t0 d t ->
  thorough d0 t0
    (set_notes (drop_matching (note_matches g) (notes d)) d)
    (t ++ blob_events (keep (note_matches g) (notes d))
       ++ removed KNote (map Note._id (keep (note_matches g) (notes d)))).
Proof.
  intros (Hr & Hb & Hsub & (evs & -> & Hblob) & Hsubj).
  split; [exact Hr|]. split; [exact Hb|]. split; [by apply sub_db_notes|].
  split.
  - eexists. split; [by rewrite <- app_assoc|].
    intros n Hn. destruct (Hblob n Hn) as [Hin | Hev].
    + destruct (note_matches g n) eqn:Hm.
      * right. apply elem_of_app. right. apply elem_of_app. left.
        apply blob_events_elem. by apply elem_of_keep.
      * left. simpl. by apply elem_of_drop_matching.
    + right. apply elem_of_app. by left.
  - intros s Hs. destruct (Hsubj s Hs) as [Hin | Hnm]; [by left|].
    right. by apply no_match_notes.
Qed.

Lemma thorough_subjects d0 t0 bid d t :
  thorough d0 t0 d t ->
  (forall s, s ∈ keep (subject_in bid) (subjects d) ->
     no_match (BySubject (Subject._id s)) d) ->
  thorough d0 t0
    (set_subjects (drop_matching (subject_in bid) (subjects d)) d)
    (t ++ removed KSubject
            (map Subject._id (keep (subject_in bid) (subjects d)))).
Proof.
  intros (Hr & Hb & Hsub & (evs & -> & Hblob) & Hsubj) Hdone.
  split; [exact Hr|]. split; [exact Hb|]. split; [by apply sub_db_subjects|].
  split.
  - eexists. split; [by rewrite <- app_assoc|].
    intros n Hn. destruct (Hblob n Hn) as [Hin | Hev]; [by left|].
    right. apply elem_of_app. by left.
  - intros s Hs. destruct (Hsubj s Hs) as [Hin | Hnm]; [|by right].
    destruct (subject_in bid s) eqn:Hm.
    + right. apply (Hdone s). by apply elem_of_keep.
    + left. simpl. by apply elem_of_drop_matching.
Qed.

Lemma branch_done_notes b g d :
  branch_done b d ->
  branch_done b (set_notes (drop_matching (note_matches g) (notes d)) d).
Proof. intros [Hn Hs]. split; [by apply no_match_notes | exact Hs]. Qed.

Lemma branch_done_subjects b p d :
  branch_done b d ->
  branch_done b (set_subjects (drop_matching p (subjects d)) d).
Proof.
  intros [Hn Hs]. split; [exact Hn|]. intros s Hin. apply Hs.
  simpl in Hin. by apply elem_of_drop_matching in Hin as [_ ?].
Qed.

(** From the assertions at the end of the loop over the branches to what
    the claim asks, once the branches themselves are removed. *)
Lemma thorough_complete d0 t0 rid d t kb :
  thorough d0 t0 d t ->
  no_match (ByRegulation rid) d ->
  (forall b, b ∈ branches_of d0 rid -> branch_done b d) ->
  complete d0 t0 rid
    (set_branches (drop_matching (branch_in rid) (branches d)) d)
    (t ++ removed kb
            (map Branch._id (keep (branch_in rid) (branches d)))).
Proof.
  intros (Hr & Hb & Hsub & (evs & -> & Hblob) & Hsubj) Hreg Hdone.
  assert (Hnotes : forall n, n ∈ notes d -> note_refs d0 rid n = false).
  { intros n Hn. unfold note_refs. rewrite !orb_false_iff. repeat split.
    - apply (Hreg n Hn).
    - apply existsb_false. intros b Hbin.
      destruct (Hdone b Hbin) as [Hnm _]. apply (Hnm n Hn).
    - apply existsb_false. intros s Hs.
      apply elem_of_keep in Hs as [Href Hs0].
      unfold subject_refs in Href. apply existsb_exists in Href
        as (b & Hbin & Hsb). apply list_elem_of_In in Hbin.
      destruct (Hdone b Hbin) as [_ Hns].
      destruct (Hsubj s Hs0) as [Hin | Hnm]; [|apply (Hnm n Hn)].
      specialize (Hns s Hin). unfold subject_in in Hns. congruence. }
  split; [|split; [|split]].
  - apply keep_nil. intros b Hbin. simpl in Hbin.
    by apply elem_of_drop_matching in Hbin as [? _].
  - apply keep_nil. intros s Hs. simpl in Hs. unfold subject_refs.
    apply existsb_false. intros b Hbin.
    destruct (Hdone b Hbin) as [_ Hns]. apply (Hns s Hs).
  - apply keep_nil. exact Hnotes.
  - eexists. split; [by rewrite <- app_assoc|].
    intros n Hn Href. destruct (Hblob n Hn) as [Hin | Hev].
    + rewrite (Hnotes n Hin) in Href. discriminate.
    + apply elem_of_app. by left.
Qed.

Lemma complete_regulations d0 t0 rid d t l evs :
  complete d0 t0 rid d t ->
  complete d0 t0 rid (set_regulations l d) (t ++ evs).
Proof.
  intros (Hb & Hs & Hn & evs0 & -> & Hblob). repeat split; auto.
  eexists. split; [by rewrite <- app_assoc|].
  intros n Hin Href. apply elem_of_app. left. by apply Hblob.
Qed.

Lemma regulation_success_walk isValid id d0 t0 (r200 : Response) :
  triple (on_body (fresh d0 t0))
    ((if negb (isValid id)
      then respond (json 400 (Message "Invalid ID")) else ret tt) ;;;
     regulation <~ Regulation_findById InSession id ;;
     (if regulation is None
      then respond (json 404 (Message "Regulation not found"))
      else ret tt) ;;;
     notes <~ Note_find InSession (ByRegulation id) ;;
     for_of notes (fun note => deleteFile (Note.fileKey note)) ;;;
     Note_deleteMany InSession (ByRegulation id) ;;;
     branches <~ Branch_find InSession id ;;
     for_of branches (fun branch =>
       branchNotes <~ Note_find InSession (ByBranch (Branch._id branch)) ;;
       for_of branchNotes (fun note => deleteFile (Note.fileKey note)) ;;;
       Note_deleteMany InSession (ByBranch (Branch._id branch)) ;;;
       subjects <~ Subject_find InSession (Branch._id branch) ;;
       for_of subjects (fun subject =>
         subjectNotes <~
           Note_find InSession (BySubject (Subject._id subject)) ;;
         for_of subjectNotes (fun note => deleteFile (Note.fileKey note)) ;;;
         Note_deleteMany InSession (BySubject (Subject._id subject))) ;;;
       Subject_deleteMany InSession (Branch._id branch)) ;;;
     Branch_deleteMany InSession id ;;;
     Regulation_findByIdAndDelete InSession id ;;;
     commitTransaction ;;;
     ret r200)
    (fun r => on_body (fun d t =>
       r = r200 /\ exists t', t = (t' ++ [EvCommit])%list /\
         regulations d =
           remove_first (fun x => String.eqb (Regulation._id x) id)
             (regulations d0) /\
         complete d0 t0 id d t'))
    (fun r => on_body (passes r)).
Proof.
  eapply triple_bind with (R := fun _ => on_body (fresh d0 t0)).
  { destruct (negb (isValid id)).
    - apply triple_respond. intros s _. unfold on_body, passes. simpl. lia.
    - by apply triple_ret. }
  intros _. eapply triple_bind.
  { unfold Regulation_findById. apply body_query. by intros. }
  intros regulation.
  eapply triple_bind with (R := fun _ => on_body (fresh d0 t0)).
  { destruct regulation.
    - apply triple_ret. by intros s [H _].
    - apply triple_respond. intros s _. unfold on_body, passes. simpl. lia. }
  intros _. eapply triple_purge_seq.
  { apply (body_purge _ _
             (fun d t => thorough d0 t0 d t /\ no_match (ByRegulation id) d)).
    intros d t [-> ->]. split; [by intros|]. split.
    - apply thorough_purge, thorough_start.
    - apply no_match_purged. }
  eapply triple_bind.
  { unfold Branch_find. apply body_query. by intros. }
  intros bs.
  eapply triple_conseq with
    (P := fun s => bs = branches_of d0 id /\
                   on_body (fun d t => thorough d0 t0 d t /\
                                       no_match (ByRegulation id) d) s);
    [ | | intros ? ? H; exact H | intros ? ? H; exact H ]; cycle 1.
  { intros s [[Hth Hnm] ->]. split; [|by split].
    unfold branches_of. destruct Hth as (_ & Hb & _). by rewrite Hb. }
  apply triple_pure. intros Hbs.
  eapply triple_bind.
  { apply (triple_for_of_from bs _ _
             (fun pre => on_body (fun d t =>
                thorough d0 t0 d t /\ no_match (ByRegulation id) d /\
                forall b, b ∈ pre -> branch_done b d))).
    { intros s [Hth Hnm]. split; [exact Hth|]. split; [exact Hnm|].
      intros x Hx. by apply not_elem_of_nil in Hx. }
    intros pre b post Hsplit.
    eapply triple_purge_seq.
    { apply (body_purge _ _
               (fun d t =>
                  thorough d0 t0 d t /\ no_match (ByRegulation id) d /\
                  (forall b', b' ∈ pre -> branch_done b' d) /\
                  no_match (ByBranch (Branch._id b)) d)).
      intros d t (Hth & Hnm & Hpre). split; [by intros|].
      split; [by apply thorough_purge|]. split; [by apply no_match_notes|].
      split; [|apply no_match_purged].
      intros b' Hb'. by apply branch_done_notes, Hpre. }
    eapply triple_bind.
    { unfold Subject_find. apply body_query. by intros. }
    intros ss.
    eapply triple_bind.
    { apply (triple_for_of_from ss _ _
               (fun spre => on_body (fun d t =>
                  (thorough d0 t0 d t /\ no_match (ByRegulation id) d /\
                   (forall b', b' ∈ pre -> branch_done b' d) /\
                   no_match (ByBranch (Branch._id b)) d) /\
                  ss = keep (subject_in (Branch._id b)) (subjects d) /\
                  forall s, s ∈ spre ->
                    no_match (BySubject (Subject._id s)) d))).
      { intros s [H Hss]. split; [exact H|]. split; [exact Hss|].
        intros x Hx. by apply not_elem_of_nil in Hx. }
      intros spre s spost _.
      apply body_purge.
      intros d t ((Hth & Hnm & Hpre & Hbn) & Hss & Hspre).
      split; [by intros|].
      split; [|split; [exact Hss|]].
      - split; [by apply thorough_purge|]. split; [by apply no_match_notes|].
        split; [|by apply no_match_notes].
        intros b' Hb'. by apply branch_done_notes, Hpre.
      - intros s' Hs'. apply elem_of_app in Hs' as [Hs' | Hs'].
        + by apply no_match_notes, Hspre.
        + apply list_elem_of_singleton in Hs' as ->. apply no_match_purged. }
    intros ?. unfold Subject_deleteMany. apply body_update.
    intros d t ((Hth & Hnm & Hpre & Hbn) & Hss & Hspre).
    split; [done|].
    split; [|split; [exact Hnm|]].
    - apply thorough_subjects; [exact Hth|]. rewrite <- Hss. exact Hspre.
    - intros b' Hb'. apply elem_of_app in Hb' as [Hb' | Hb'].
      + by apply branch_done_subjects, Hpre.
      + apply list_elem_of_singleton in Hb' as ->. split.
        * exact Hbn.
        * apply no_subject_purged. }
  intros ?.
  eapply triple_bind.
  { unfold Branch_deleteMany.
    apply (body_update _ _ _
             (fun d t => regulations d = regulations d0 /\
                         complete d0 t0 id d t)).
    intros d t (Hth & Hnm & Hdone). split; [done|]. split.
    - by destruct Hth as (Hr & _).
    - apply thorough_complete; auto. by rewrite <- Hbs. }
  intros ?.
  eapply triple_bind.
  { unfold Regulation_findByIdAndDelete.
    apply (body_update _ _ _
             (fun d t =>
                regulations d =
                  remove_first (fun x => String.eqb (Regulation._id x) id)
                    (regulations d0) /\
                complete d0 t0 id d t)).
    intros d t [Hr Hc]. split; [done|]. split.
    - simpl. by rewrite Hr.
    - by apply complete_regulations. }
  intros ?. eapply triple_conseq;
    [ apply body_commit | intros ? H; exact H | | intros ? ? H; exact H ].
  - by intros.
  - intros r s H. exact H.
Qed.

Lemma branch_success_walk isValid id d0 t0 (r200 : Response) :
  triple (on_body (fresh d0 t0))
    ((if negb (isValid id)
      then respond (json 400 (Message "Invalid ID")) else ret tt) ;;;
     branch <~ Branch_findById InSession id ;;
     (if branch is None
      then respond (json 404 (Message "Branch not found"))
      else ret tt) ;;;
     branchNotes <~ Note_find InSession (ByBranch id) ;;
     for_of branchNotes (fun note => deleteFile (Note.fileKey note)) ;;;
     Note_deleteMany InSession (ByBranch id) ;;;
     Subject_deleteMany InSession id ;;;
     Branch_findByIdAndDelete InSession id ;;;
     commitTransaction ;;;
     ret r200)
    (fun r => on_body (fun d t =>
       branches d =
         remove_first (fun x => String.eqb (Branch._id x) id) (branches d0)))
    (fun r => on_body (passes r)).
Proof.
  eapply triple_bind with
    (R := fun _ => on_body (fun d _ => branches d = branches d0)).
  { destruct (negb (isValid id)).
    - apply triple_respond. intros s _. unfold on_body, passes. simpl. lia.
    - apply triple_ret. intros s [H _]. unfold on_body. by rewrite H. }
  intros _. eapply triple_bind.
  { unfold Branch_findById. apply body_query. by intros. }
  intros branch.
  eapply triple_bind with
    (R := fun _ => on_body (fun d _ => branches d = branches d0)).
  { destruct branch.
    - apply triple_ret. by intros s [H _].
    - apply triple_respond. intros s _. unfold on_body, passes. simpl. lia. }
  intros _. eapply triple_purge_seq.
  { apply (body_purge _ _ (fun d _ => branches d = branches d0)).
    intros d t H. split; [by intros | exact H]. }
  eapply triple_bind.
  { unfold Subject_deleteMany.
    apply (body_update _ _ _ (fun d _ => branches d = branches d0)).
    intros d t H. split; [done | exact H]. }
  intros ?. eapply triple_bind.
  { unfold Branch_findByIdAndDelete.
    apply (body_update _ _ _
             (fun d _ => branches d =
                remove_first (fun x => String.eqb (Branch._id x) id)
                  (branches d0))).
    intros d t H. split; [done|]. simpl. by rewrite H. }
  intros ?. eapply triple_conseq;
    [ apply body_commit | intros ? H; exact H | | intros ? ? H; exact H ].
  - by intros.
  - intros r s (_ & t' & _ & H). exact H.
Qed.

Lemma subject_success_walk isValid id d0 t0 (r200 : Response) :
  triple (on_body (fresh d0 t0))
    ((if negb (isValid id)
      then respond (json 400 (Message "Invalid ID")) else ret tt) ;;;
     subject <~ Subject_findById InSession id ;;
     (if subject is None
      then respond (json 404 (Message "Subject not found"))
      else ret tt) ;;;
     notes <~ Note_find InSession (BySubject id) ;;
     for_of notes (fun note => deleteFile (Note.fileKey note)) ;;;
     Note_deleteMany InSession (BySubject id) ;;;
     Subject_findByIdAndDelete InSession id ;;;
     commitTransaction ;;;
     ret r200)
    (fun r => on_body (fun d t =>
       subjects d =
         remove_first (fun x => String.eqb (Subject._id x) id) (subjects d0)))
    (fun r => on_body (passes r)).
Proof.
  eapply triple_bind with
    (R := fun _ => on_body (fun d _ => subjects d = subjects d0)).
  { destruct (negb (isValid id)).
    - apply triple_respond. intros s _. unfold on_body, passes. simpl. lia.
    - apply triple_ret. intros s [H _]. unfold on_body. by rewrite H. }
  intros _. eapply triple_bind.
  { unfold Subject_findById. apply body_query. by intros. }
  intros subject.
  eapply triple_bind with
    (R := fun _ => on_body (fun d _ => subjects d = subjects d0)).
  { destruct subject.
    - apply triple_ret. by intros s [H _].
    - apply triple_respond. intros s _. unfold on_body, passes. simpl. lia. }
  intros _. eapply triple_purge_seq.
  { apply (body_purge _ _ (fun d _ => subjects d = subjects d0)).
    intros d t H. split; [by intros | exact H]. }
  eapply triple_bind.
  { unfold Subject_findByIdAndDelete.
    apply (body_update _ _ _
             (fun d _ => subjects d =
                remove_first (fun x => String.eqb (Subject._id x) id)
                  (subjects d0))).
    intros d t H. split; [done|]. simpl. by rewrite H. }
  intros ?. eapply triple_conseq;
    [ apply body_commit | intros ? H; exact H | | intros ? ? H; exact H ].
  - by intros.
  - intros r s (_ & t' & _ & H). exact H.
Qed.

(** A successful run went through the whole body of the transaction. *)
Lemma success_run (body : M Response) msg kind st
    (Y : Response -> Db -> list Event -> Prop) r st' :
  triple (on_body (fresh (committed st) (trace st))) body
    (fun r => on_body (Y r)) (fun r => on_body (passes r)) ->
  run (startSession ;;;
       try_catch body
         (fun _ => abortTransaction ;;; ret (json 500 (Message msg)))) st
    = (r, st') ->
  succeeded kind r ->
  exists r', Y r' (session st') (trace st').
Proof.
  intros Hbody Hrun Hs.
  apply (transaction_run body msg st Y passes Hbody) in Hrun.
  destruct Hrun as [(r' & _ & H) | [(r' & -> & H)
                   | [(Herr & _) | (-> & _)]]].
  - eauto.
  - exfalso. by apply (refusal_not_succeeded kind r').
  - exfalso. unfold succeeded in Hs. rewrite Hs in Herr. discriminate.
  - discriminate.
Qed.

Lemma success_committed isValid kind id st :
  succeeded kind (run (deleteHierarchy isValid kind id) st).1 ->
  committed (run (deleteHierarchy isValid kind id) st).2
    = session (run (deleteHierarchy isValid kind id) st).2.
Proof.
  intros Hs.
  destruct (cascade_run isValid kind id st)
    as (evs & _ & [(_ & Hc & _) | (Hn & _)]); [exact Hc | done].
Qed.

Lemma regulation_success isValid id st :
  succeeded RegulationRoot
    (run (deleteHierarchy isValid RegulationRoot id) st).1 ->
  exists t',
    trace (run (deleteHierarchy isValid RegulationRoot id) st).2
      = (t' ++ [EvCommit])%list /\
    regulations
      (committed (run (deleteHierarchy isValid RegulationRoot id) st).2)
      = remove_first (fun x => String.eqb (Regulation._id x) id)
          (regulations (committed st)) /\
    complete (committed st) (trace st) id
      (committed (run (deleteHierarchy isValid RegulationRoot id) st).2) t'.
Proof.
  intros Hs. rewrite (success_committed _ _ _ _ Hs).
  destruct (run _ st) as [r st'] eqn:Hrun. simpl in *.
  unfold Admin.delete_regulations in Hrun.
  eapply success_run in Hrun;
    [ | apply regulation_success_walk | exact Hs ].
  destruct Hrun as (r' & _ & t' & Ht & Hr & Hc). eauto.
Qed.

Lemma root_absent_after_success isValid kind id st :
  NoDup (root_ids kind (committed st)) ->
  succeeded kind (run (deleteHierarchy isValid kind id) st).1 ->
  id ∉ root_ids kind (committed (run (deleteHierarchy isValid kind id) st).2).
Proof.
  intros Hnd Hs. destruct kind.
  - destruct (regulation_success isValid id st Hs) as (t' & _ & Hr & _).
    unfold root_ids in *. rewrite Hr. by apply remove_first_absent.
  - rewrite (success_committed _ _ _ _ Hs).
    destruct (run _ st) as [r st'] eqn:Hrun. simpl in *.
    unfold Admin.delete_branches in Hrun.
    eapply success_run in Hrun;
      [ | apply branch_success_walk | exact Hs ].
    destruct Hrun as (_ & Hb). rewrite Hb. by apply remove_first_absent.
  - rewrite (success_committed _ _ _ _ Hs).
    destruct (run _ st) as [r st'] eqn:Hrun. simpl in *.
    unfold Admin.delete_subjects in Hrun.
    eapply success_run in Hrun;
      [ | apply subject_success_walk | exact Hs ].
    destruct Hrun as (_ & Hb). rewrite Hb. by apply remove_first_absent.
Qed.

(** C3: after a successful cascade on regulation [id], the committed store
    holds no Branch of [id], no Subject of such a Branch and no Note that
    names [id], such a Branch or such a Subject, and the deletion of the
    blob of every such Note of the store before the call was issued during
    the call.  The hierarchy is the one before the call; the
    internal-consistency precondition of the claim is not needed. *)
Theorem regulation_cascade_complete isValid id st :
  succeeded RegulationRoot
    (run (deleteHierarchy isValid RegulationRoot id) st).1 ->
  keep (branch_in id)
    (branches
       (committed (run (deleteHierarchy isValid RegulationRoot id) st).2))
    = [] /\
  keep (subject_refs (committed st) id)
    (subjects
       (committed (run (deleteHierarchy isValid RegulationRoot id) st).2))
    = [] /\
  keep (note_refs (committed st) id)
    (notes
       (committed (run (deleteHierarchy isValid RegulationRoot id) st).2))
    = [] /\
  forall n, n ∈ notes (committed st) ->
    note_refs (committed st) id n = true ->
    EvBlobDelete (Note.fileKey n) ∈
      events_since st
        (run (deleteHierarchy isValid RegulationRoot id) st).2.
Proof.
  intros Hs.
  destruct (regulation_success isValid id st Hs)
    as (t' & Ht & _ & Hb & Hsub & Hn & evs & -> & Hblob).
  repeat split; auto.
  intros n Hin Href. rewrite <- app_assoc in Ht.
  rewrite (events_since_app _ _ _ Ht). apply elem_of_app. left.
  by apply Hblob.
Qed.

Lemma regulation_cascade_complete_witness :
  keep (note_refs Sample.db1 "r1")
    (notes
       (committed
          (run (deleteHierarchy Sample.valid RegulationRoot "r1")
             (Sample.world Sample.db1 Sample.never)).2)) = [] /\
  EvBlobDelete "uploads/3_C.pdf" ∈
    events_since (Sample.world Sample.db1 Sample.never)
      (run (deleteHierarchy Sample.valid RegulationRoot "r1")
         (Sample.world Sample.db1 Sample.never)).2.
Proof.
  destruct (regulation_cascade_complete Sample.valid "r1"
              (Sample.world Sample.db1 Sample.never))
    as (_ & _ & Hn & Hblob).
  - vm_compute. reflexivity.
  - split; [exact Hn|].
    apply (Hblob Sample.stray).
    + simpl. rewrite !elem_of_cons. auto.
    + vm_compute. reflexivity.
Defined.

(** C9: on a well-formed identifier that is not in the root collection,
    [deleteHierarchy] answers NotFound and leaves the committed store, the
    bucket and the trace as they were, provided the store answers the two
    calls the handler makes; this is the case, in particular, of a second
    call after a successful cascade on the same identifier (the store
    keeps [_id] unique). *)
Theorem not_found_is_idle isValid kind id st :
  isValid id = true ->
  rejects st (clock st) = None ->
  rejects st (S (clock st)) = None ->
  (id ∉ root_ids kind (committed st) -> idle_not_found isValid kind id st) /\
  (forall st0,
     NoDup (root_ids kind (committed st0)) ->
     succeeded kind (run (deleteHierarchy isValid kind id) st0).1 ->
     st = (run (deleteHierarchy isValid kind id) st0).2 ->
     idle_not_found isValid kind id st).
Proof.
  intros Hv H0 H1.
  assert (Hidle : id ∉ root_ids kind (committed st) ->
                  idle_not_found isValid kind id st).
  { intros Habs. unfold idle_not_found.
    rewrite (not_found_run isValid kind id st Hv Habs H0 H1). simpl.
    by repeat split. }
  split; [exact Hidle|].
  intros st0 Hnd Hs ->. apply Hidle.
  by apply root_absent_after_success.
Qed.

Lemma not_found_is_idle_witness :
  idle_not_found Sample.valid RegulationRoot "r1"
    (run (deleteHierarchy Sample.valid RegulationRoot "r1")
       (Sample.world Sample.db0 Sample.never)).2.
Proof.
  refine (proj2 (not_found_is_idle Sample.valid RegulationRoot "r1" _ _ _ _)
            (Sample.world Sample.db0 Sample.never) _ _ eq_refl).
  - reflexivity.
  - reflexivity.
  - reflexivity.
  - apply (bool_decide_unpack _). vm_compute. exact I.
  - vm_compute. reflexivity.
Defined.

(** ** The upload ledger *)

(** C5 does not hold of the code.  On the sample store, whose ledger is
    sound, the notes router's DELETE pulls the note from its owner's
    [uploadedNotes]; the admin router's DELETE of the same note, and the
    cascade that removes it with its regulation, answer 200 and leave the
    identifier of the deleted note in the list. *)
Theorem admin_deletes_skip_the_ledger :
  ledger_ok Sample.db0 = true /\
  (run (Notes.delete_note SampleDriver.castable SampleDriver.castError "n1")
     (Sample.world Sample.db0 Sample.never)).1
    = Some (json 200 (Message "Note deleted successfully")) /\
  ledger_ok
    (committed
       (run (Notes.delete_note SampleDriver.castable SampleDriver.castError
               "n1")
          (Sample.world Sample.db0 Sample.never)).2) = true /\
  (run (Admin.delete_notes SampleDriver.castable SampleDriver.castError "n1")
     (Sample.world Sample.db0 Sample.never)).1
    = Some (json 200 (Message "Note deleted")) /\
  map Faculty.uploadedNotes
    (faculty
       (committed
          (run (Admin.delete_notes SampleDriver.castable
                  SampleDriver.castError "n1")
             (Sample.world Sample.db0 Sample.never)).2)) = [["n1"; "n2"]] /\
  ledger_ok
    (committed
       (run (Admin.delete_notes SampleDriver.castable SampleDriver.castError
               "n1")
          (Sample.world Sample.db0 Sample.never)).2) = false /\
  succeeded RegulationRoot
    (run (deleteHierarchy Sample.valid RegulationRoot "r1")
       (Sample.world Sample.db0 Sample.never)).1 /\
  ledger_ok
    (committed
       (run (deleteHierarchy Sample.valid RegulationRoot "r1")
          (Sample.world Sample.db0 Sample.never)).2) = false.
Proof. repeat split; vm_compute; reflexivity. Qed.

(** ** The archive route *)

Lemma casting_ok {A} castable castError values (q : M A) :
  forallb castable values = true ->
  casting castable castError values q = q.
Proof.
  intros H. unfold casting.
  assert (Hn : find_first (fun v => negb (castable v)) values = None).
  { induction values as [|v vs IH]; [reflexivity|]. simpl in *.
    apply andb_true_iff in H as [Hv Hvs]. rewrite Hv. simpl. by apply IH. }
  by rewrite Hn.
Qed.

Lemma casting_throw {A} castable castError pre v post (q : M A) :
  forallb castable pre = true -> castable v = false ->
  casting castable castError (pre ++ v :: post) q = throw (castError v).
Proof.
  intros Hpre Hv. unfold casting.
  assert (Hn : find_first (fun v => negb (castable v)) (pre ++ v :: post)
               = Some v).
  { induction pre as [|x pre IH]; simpl in *; [by rewrite Hv|].
    apply andb_true_iff in Hpre as [Hx Hpre]. rewrite Hx. simpl.
    by apply IH. }
  by rewrite Hn.
Qed.

Lemma casting_cases (castable : string -> bool) (values : list string) :
  forallb castable values = true \/
  exists pre v post, values = (pre ++ v :: post)%list /\
    forallb castable pre = true /\ castable v = false.
Proof.
  induction values as [|x vs IH]; [by left|]. simpl.
  destruct (castable x) eqn:Hx; simpl.
  - destruct IH as [H | (pre & v & post & -> & Hpre & Hv)]; [by left|].
    right. exists (x :: pre), v, post. simpl. by rewrite Hx.
  - right. by exists [], x, vs.
Qed.

(** The Notes a selection resolves to are the Notes of the store whose
    [_id] is among the identifiers. *)
Lemma elem_of_resolve ids d n :
  n ∈ resolve ids d <-> n ∈ notes d /\ Note._id n ∈ ids.
Proof.
  unfold resolve. rewrite elem_of_keep. simpl. rewrite existsb_exists.
  split.
  - intros [(x & Hx & Heq) Hn]. apply String.eqb_eq in Heq. subst x.
    split; [done | by apply list_elem_of_In].
  - intros [Hn Hid]. split; [|done]. exists (Note._id n).
    split; [by apply list_elem_of_In | apply String.eqb_refl].
Qed.

Lemma resolve_selected ids d : resolve ids d = selected ids d.
Proof.
  unfold resolve, selected, keep. apply list_filter_iff. intros n.
  rewrite Is_true_true. simpl. rewrite existsb_exists. split.
  - intros (x & Hx & Heq). apply String.eqb_eq in Heq. subst x.
    by apply list_elem_of_In.
  - intros Hid. exists (Note._id n).
    split; [by apply list_elem_of_In | apply String.eqb_refl].
Qed.

Lemma elem_of_selected ids d n :
  n ∈ selected ids d <-> n ∈ notes d /\ Note._id n ∈ ids.
Proof. rewrite <- resolve_selected. apply elem_of_resolve. Qed.

Section Archive.
Variable errorDocument : string -> Blob.
Variable castable : string -> bool.
Variable castError : string -> string.

Local Abbreviation post_download_zip :=
  (Notes.post_download_zip errorDocument castable castError).

Lemma stage_ok n st :
  Note.fileKey n = "" \/ fetch_rejects st (Note.fileKey n) = None ->
  Notes.stage errorDocument n st
    = (Ok (entry errorDocument (bucket st) n), st).
Proof.
  unfold Notes.stage, entry, Notes.fetch_blob. intros H.
  destruct (String.eqb_spec (Note.fileKey n) "") as [Hk|Hk]; [done|].
  destruct H as [H|H]; [done|]. rewrite bind_run. by rewrite H.
Qed.

Lemma stage_throw n st e :
  Note.fileKey n <> "" -> fetch_rejects st (Note.fileKey n) = Some e ->
  Notes.stage errorDocument n st = (Throw e, st).
Proof.
  unfold Notes.stage, Notes.fetch_blob. intros Hk H.
  destruct (String.eqb_spec (Note.fileKey n) "") as [Hk'|_]; [done|].
  rewrite bind_run. by rewrite H.
Qed.

Lemma stage_cases n st :
  (exists x, Notes.stage errorDocument n st = (Ok x, st)) \/
  (exists e, Notes.stage errorDocument n st = (Throw e, st)).
Proof.
  destruct (String.eqb_spec (Note.fileKey n) "") as [Hk|Hk].
  - left. eexists. apply stage_ok. by left.
  - destruct (fetch_rejects st (Note.fileKey n)) as [e|] eqn:Hf.
    + right. exists e. by apply stage_throw.
    + left. eexists. apply stage_ok. by right.
Qed.

Lemma promise_all_ok ns st :
  (forall n, n ∈ ns -> fetch_rejects st (Note.fileKey n) = None) ->
  Notes.Promise_all (map (Notes.stage errorDocument) ns) st
    = (Ok (map (entry errorDocument (bucket st)) ns), st).
Proof.
  induction ns as [|n ns IH]; intros H; simpl; [reflexivity|].
  rewrite bind_run, stage_ok by (right; apply H; left).
  rewrite bind_run, IH by (intros m Hm; apply H; by right).
  reflexivity.
Qed.


#[local] Arguments Notes.Promise_all : simpl never.

(** The run of the archive route on a selection whose identifiers
    cast. *)
Lemma download_zip_run id ids st :
  forallb castable (id :: ids) = true ->
  run (post_download_zip (Some (id :: ids))) st =
  match rejects st (clock st) with
  | Some e => (Some (json 500 (MessageError "Error creating ZIP" e)),
               advance st)
  | None =>
      match resolve (id :: ids) (committed st) with
      | [] => (Some (json 404 (Message "Notes not found")), advance st)
      | n :: ns =>
          match Notes.Promise_all
                  (map (Notes.stage errorDocument) (n :: ns)) (advance st)
          with
          | (Ok filesData, st') =>
              (Some (zip_response (Notes.zip_files filesData)), st')
          | (Throw e, st') =>
              (Some (json 500 (MessageError "Error creating ZIP" e)), st')
          | (Return r, st') => (Some r, st')
          end
      end
  end.
Proof.
  intros Hcast.
  unfold run, Notes.post_download_zip, try_catch.
  rewrite (casting_ok _ _ _ _ Hcast).
  unfold Note_find, query, await_call, resolve.
  rewrite !bind_run.
  destruct (rejects st (clock st)) as [e|]; simpl; [reflexivity|].
  destruct (keep _ (notes (committed st))) as [|n ns]; simpl;
    [reflexivity|].
  change (Notes.stage errorDocument n
          :: map (Notes.stage errorDocument) ns)
    with (map (Notes.stage errorDocument) (n :: ns)).
  unfold ret. rewrite !bind_run.
  destruct (Notes.Promise_all _ (advance st)) as [[xs|e|r] st2];
    reflexivity.
Qed.

(** The run of the archive route on a selection with an identifier that
    does not cast: no call is made. *)
Lemma download_zip_cast pre v post st :
  forallb castable pre = true -> castable v = false ->
  run (post_download_zip (Some (pre ++ v :: post)%list)) st
  = (Some (json 500 (MessageError "Error creating ZIP" (castError v))), st).
Proof.
  intros Hpre Hv.
  unfold run, Notes.post_download_zip, try_catch.
  rewrite (casting_throw _ _ _ _ _ _ Hpre Hv).
  by destruct pre.
Qed.

End Archive.

(** ** The entries of the archive *)

Lemma string_length_append (s1 s2 : string) :
  String.length (s1 ++ s2) = String.length s1 + String.length s2.
Proof. induction s1; simpl; auto. Qed.

Lemma string_append_cancel (s1 s2 x : string) :
  (s1 ++ x)%string = (s2 ++ x)%string -> s1 = s2.
Proof.
  revert s2. induction s1 as [|a s1 IH]; intros [|b s2] H.
  - reflexivity.
  - apply (f_equal String.length) in H.
    rewrite !string_length_append in H. simpl in H. lia.
  - apply (f_equal String.length) in H.
    rewrite !string_length_append in H. simpl in H. lia.
  - change (String a (s1 ++ x) = String b (s2 ++ x)) in H.
    injection H as -> H. f_equal. by apply IH.
Qed.

(** *** Folders *)

Lemma endsWithSlash_cons c r :
  r <> "" -> JSZip.endsWithSlash (String c r) = JSZip.endsWithSlash r.
Proof. by destruct r. Qed.

Lemma endsWithSlash_app s x :
  x <> "" -> JSZip.endsWithSlash (s ++ x) = JSZip.endsWithSlash x.
Proof.
  intros Hx. induction s as [|c s IH]; [reflexivity|].
  change (JSZip.endsWithSlash (String c (s ++ x)) = JSZip.endsWithSlash x).
  rewrite endsWithSlash_cons; [exact IH|].
  intros H. apply (f_equal String.length) in H.
  rewrite string_length_append in H. destruct x; [done|]. simpl in H. lia.
Qed.

Lemma entry_name_is_file t : JSZip.endsWithSlash (t ++ ".pdf") = false.
Proof. by rewrite endsWithSlash_app. Qed.

Lemma forceTrailingSlash_ends p :
  JSZip.endsWithSlash (JSZip.forceTrailingSlash p) = true.
Proof.
  unfold JSZip.forceTrailingSlash.
  destruct (JSZip.endsWithSlash p) eqn:Hp; [exact Hp|].
  by rewrite endsWithSlash_app.
Qed.

(** Adding a folder touches no file entry. *)
Lemma folderAdd_lookup fuel p files k :
  JSZip.endsWithSlash k = false ->
  JSZip.folderAdd fuel p files !! k = files !! k.
Proof.
  intros Hk. revert p files.
  induction fuel as [|fuel IH]; intros p files; [reflexivity|]. simpl.
  destruct (files !! JSZip.forceTrailingSlash p); [reflexivity|].
  rewrite lookup_insert_ne.
  - destruct (String.eqb _ ""); [reflexivity | apply IH].
  - intros Heq. rewrite <- Heq, forceTrailingSlash_ends in Hk. discriminate.
Qed.

Lemma file_lookup name data files k :
  JSZip.endsWithSlash k = false ->
  JSZip.file name data files !! k = <[name := data]> files !! k.
Proof.
  intros Hk. unfold JSZip.file.
  destruct (decide (name = k)) as [->|Hne].
  - by rewrite !lookup_insert_eq.
  - rewrite !lookup_insert_ne by done.
    destruct (String.eqb _ ""); [reflexivity | by apply folderAdd_lookup].
Qed.



(** The fuel of [folderAdd]: the parent of a folder is shorter than its
    name, so any fuel above the length of the name gives the same
    archive. *)
Lemma lastIndexOfSlash_lt s i :
  JSZip.lastIndexOfSlash s = Some i -> i < String.length s.
Proof.
  revert i. induction s as [|c s IH]; intros i; simpl; [done|].
  destruct (JSZip.lastIndexOfSlash s) as [j|].
  - intros [= <-]. specialize (IH j eq_refl). lia.
  - destruct (Ascii.eqb c "/"%char); [|done]. intros [= <-]. lia.
Qed.

Lemma substring_length n s :
  String.length (String.substring 0 n s) <= n.
Proof.
  revert s. induction n as [|n IH]; intros [|c s]; simpl; try lia.
  specialize (IH s). lia.
Qed.

Lemma dropLast_length s :
  String.length (JSZip.dropLast s) = String.length s - 1.
Proof.
  induction s as [|c [|c' s] IH]; simpl in *; try lia.
Qed.

Lemma dropLast_snoc s : JSZip.dropLast (s ++ "/") = s.
Proof.
  induction s as [|c s IH]; [reflexivity|].
  change (JSZip.dropLast (String c (s ++ "/")) = String c s).
  assert (Hs : exists a r, (s ++ "/")%string = String a r)
    by (destruct s; simpl; eauto).
  destruct Hs as (a & r & Hs). rewrite Hs.
  change (String c (JSZip.dropLast (String a r)) = String c s).
  by rewrite <- Hs, IH.
Qed.

Lemma endsWithSlash_nonempty s : JSZip.endsWithSlash s = true -> s <> "".
Proof. by destruct s. Qed.

Lemma parent_shorter name :
  name <> "" ->
  String.length (JSZip.parentFolder (JSZip.forceTrailingSlash name))
    < String.length name.
Proof.
  intros Hne. unfold JSZip.parentFolder.
  rewrite forceTrailingSlash_ends. unfold JSZip.forceTrailingSlash.
  assert (Hpos : 0 < String.length name) by (destruct name; simpl; [done|lia]).
  destruct (JSZip.endsWithSlash name) eqn:He.
  - destruct (JSZip.lastIndexOfSlash (JSZip.dropLast name)) as [[|i]|] eqn:Hl;
      simpl; try lia.
    apply lastIndexOfSlash_lt in Hl. rewrite dropLast_length in Hl.
    pose proof (substring_length (S i) (JSZip.dropLast name)). simpl in *.
    lia.
  - rewrite dropLast_snoc.
    destruct (JSZip.lastIndexOfSlash name) as [[|i]|] eqn:Hl; simpl; try lia.
    apply lastIndexOfSlash_lt in Hl.
    pose proof (substring_length (S i) name). simpl in *. lia.
Qed.

Lemma folderAdd_fuel n :
  forall name files fuel1 fuel2,
    name <> "" -> String.length name <= n -> n <= fuel1 -> n <= fuel2 ->
    JSZip.folderAdd fuel1 name files = JSZip.folderAdd fuel2 name files.
Proof.
  induction n as [|n IH]; intros name files fuel1 fuel2 Hne Hlen H1 H2.
  - destruct name; [done | simpl in Hlen; lia].
  - destruct fuel1 as [|fuel1]; [lia|]. destruct fuel2 as [|fuel2]; [lia|].
    simpl. destruct (files !! JSZip.forceTrailingSlash name); [reflexivity|].
    destruct (String.eqb_spec
                (JSZip.parentFolder (JSZip.forceTrailingSlash name)) "")
      as [Hp|Hp]; [reflexivity|].
    f_equal. apply IH; [exact Hp | | lia | lia].
    pose proof (parent_shorter name Hne). lia.
Qed.



(** *** Files *)





(** On file names the archive is the one without folders. *)
Lemma zip_fold_files (acc1 acc2 : gmap string Blob) fd :
  (forall k, JSZip.endsWithSlash k = false -> acc1 !! k = acc2 !! k) ->
  forall k, JSZip.endsWithSlash k = false ->
    (foldl (fun zip f =>
              match f with
              | Some (name, buffer) => JSZip.file name buffer zip
              | None => zip
              end) acc1 fd) !! k
    = (foldl (fun zip f =>
                match f with
                | Some (name, buffer) => <[name := buffer]> zip
                | None => zip
                end) acc2 fd) !! k.
Proof.
  revert acc1 acc2. induction fd as [|[[n0 b0]|] fd IH];
    intros acc1 acc2 H k Hk; simpl; [by apply H | | by apply IH].
  apply IH; [|exact Hk]. intros k' Hk'. rewrite file_lookup by done.
  destruct (decide (n0 = k')) as [->|Hne].
  - by rewrite !lookup_insert_eq.
  - rewrite !lookup_insert_ne by done. by apply H.
Qed.



Section ArchiveEntries.
Variable errorDocument : string -> Blob.
Variable castable : string -> bool.
Variable castError : string -> string.

Local Abbreviation post_download_zip :=
  (Notes.post_download_zip errorDocument castable castError).

Lemma entries_of_notes b ns :
  entries (map (entry errorDocument b) ns)
  = map (fun n => (Note.title n ++ ".pdf",
                   default (errorDocument (Note.fileKey n))
                     (b !! Note.fileKey n)))
      (keep (fun n => negb (String.eqb (Note.fileKey n) "")) ns).
Proof.
  induction ns as [|n ns IH]; [reflexivity|]. simpl. unfold keep in *.
  unfold entry at 1.
  destruct (String.eqb (Note.fileKey n) "") eqn:Hk; simpl.
  - rewrite filter_cons_False by (rewrite Hk; simpl; tauto). exact IH.
  - rewrite filter_cons_True by (rewrite Hk; simpl; tauto).
    simpl. by rewrite IH.
Qed.

Lemma entry_names_of_notes b ns :
  entry_names (map (entry errorDocument b) ns)
  = map (fun n => Note.title n ++ ".pdf")
      (keep (fun n => negb (String.eqb (Note.fileKey n) "")) ns).
Proof.
  unfold entry_names. rewrite entries_of_notes, map_map. reflexivity.
Qed.



(** The run of the archive route when every call is answered. *)
Lemma download_zip_ok ids st :
  forallb castable ids = true ->
  rejects st (clock st) = None ->
  resolve ids (committed st) <> [] ->
  (forall n, n ∈ resolve ids (committed st) ->
     fetch_rejects st (Note.fileKey n) = None) ->
  (run (post_download_zip (Some ids)) st).1
    = Some (zip_response
              (Notes.zip_files
                 (map (entry errorDocument (bucket st))
                    (resolve ids (committed st))))).
Proof.
  intros Hc Hr Hne Hf.
  destruct ids as [|id ids];
    [exfalso; apply Hne; by apply keep_nil|].
  rewrite download_zip_run by done. rewrite Hr.
  destruct (resolve _ _) as [|n ns] eqn:Hres; [by destruct Hne|].
  by rewrite (promise_all_ok errorDocument (n :: ns) (advance st)).
Qed.








End ArchiveEntries.




(** ** The faculty routes and the password hash *)

Section Related.
Context {A B : Type}.

Lemma related_ret (RA : A -> A -> Prop) a1 a2 :
  RA a1 a2 -> related RA (ret a1) (ret a2).
Proof. intros H st1 st2 Hl. by split. Qed.

Lemma related_respond (RA : A -> A -> Prop) r :
  related RA (respond r) (respond r).
Proof. intros st1 st2 Hl. by split. Qed.

Lemma related_bind (RA : A -> A -> Prop) (RB : B -> B -> Prop)
    (m1 m2 : M A) (k1 k2 : A -> M B) :
  related RA m1 m2 ->
  (forall a1 a2, RA a1 a2 -> related RB (k1 a1) (k2 a2)) ->
  related RB (bind m1 k1) (bind m2 k2).
Proof.
  intros Hm Hk st1 st2 Hl. specialize (Hm st1 st2 Hl). rewrite !bind_run.
  destruct (m1 st1) as [[a1|e1|r1] st1'], (m2 st2) as [[a2|e2|r2] st2'];
    destruct Hm as [Hl' Hr]; simpl in *; try done.
  by apply Hk.
Qed.

Lemma related_try_catch (RA : A -> A -> Prop) (m1 m2 : M A)
    (h1 h2 : string -> M A) :
  related RA m1 m2 ->
  (forall e1 e2, related RA (h1 e1) (h2 e2)) ->
  related RA (try_catch m1 h1) (try_catch m2 h2).
Proof.
  intros Hm Hh st1 st2 Hl. specialize (Hm st1 st2 Hl). unfold try_catch.
  destruct (m1 st1) as [[a1|e1|r1] st1'], (m2 st2) as [[a2|e2|r2] st2'];
    destruct Hm as [Hl' Hr]; simpl in *; try done.
  by apply Hh.
Qed.
End Related.

Lemma low_eq_advance st1 st2 :
  low_eq st1 st2 -> low_eq (advance st1) (advance st2).
Proof.
  intros (Hd & Hc & Hr). split; [exact Hd|]. split; [|exact Hr].
  simpl. by rewrite Hc.
Qed.

Lemma related_await : related (fun _ _ => True) await_call await_call.
Proof.
  intros st1 st2 Hl. pose proof (low_eq_advance _ _ Hl) as Hl'.
  destruct Hl as (_ & Hc & Hr). unfold await_call.
  rewrite Hr, Hc. destruct (rejects st2 (clock st2)); by split.
Qed.

Lemma related_query {A} (RA : A -> A -> Prop) (q1 q2 : Db -> A) :
  (forall d1 d2, same_but_passwords d1 d2 -> RA (q1 d1) (q2 d2)) ->
  related RA (query Direct q1) (query Direct q2).
Proof.
  intros Hq. unfold query. eapply related_bind; [apply related_await|].
  intros _ _ _ st1 st2 Hl. split; [exact Hl|]. simpl. apply Hq, Hl.
Qed.

Lemma same_public_fields f1 f2 :
  same_public f1 f2 <->
  Faculty._id f1 = Faculty._id f2 /\ Faculty.name f1 = Faculty.name f2 /\
  Faculty.email f1 = Faculty.email f2 /\
  Faculty.employeeId f1 = Faculty.employeeId f2 /\
  Faculty.designation f1 = Faculty.designation f2 /\
  Faculty.uploadedNotes f1 = Faculty.uploadedNotes f2 /\
  Faculty.createdAt f1 = Faculty.createdAt f2.
Proof.
  unfold same_public, forget_password, Admin.with_password. split.
  - intros [= -> -> -> -> -> -> ->]. by repeat split.
  - intros (-> & -> & -> & -> & -> & -> & ->). reflexivity.
Qed.

Lemma find_first_public (p : Faculty.t -> bool) l1 l2 :
  (forall f1 f2, same_public f1 f2 -> p f1 = p f2) ->
  map forget_password l1 = map forget_password l2 ->
  same_public_opt (find_first p l1) (find_first p l2).
Proof.
  intros Hp. revert l2. induction l1 as [|f1 l1 IH]; intros [|f2 l2] H;
    cbn [map] in H; simpl; try done.
  assert (Hf : same_public f1 f2) by (unfold same_public; congruence).
  assert (Hl : map forget_password l1 = map forget_password l2)
    by congruence.
  rewrite (Hp f1 f2 Hf).
  destruct (p f2); [exact Hf | by apply IH].
Qed.

Lemma update_first_public (p : Faculty.t -> bool) g1 g2 l1 l2 :
  (forall f1 f2, same_public f1 f2 -> p f1 = p f2) ->
  (forall f1 f2, same_public f1 f2 -> same_public (g1 f1) (g2 f2)) ->
  map forget_password l1 = map forget_password l2 ->
  map forget_password (update_first p g1 l1)
  = map forget_password (update_first p g2 l2).
Proof.
  intros Hp Hg. revert l2. induction l1 as [|f1 l1 IH]; intros [|f2 l2] H;
    cbn [map] in H; simpl; try done.
  assert (Hf : same_public f1 f2) by (unfold same_public; congruence).
  assert (Hl : map forget_password l1 = map forget_password l2)
    by congruence.
  rewrite (Hp f1 f2 Hf).
  destruct (p f2); cbn [map].
  - f_equal; [by apply Hg | exact Hl].
  - f_equal; [exact Hf | by apply IH].
Qed.

Lemma insert_newest_public x l :
  map forget_password (Admin.insert_newest x l)
  = Admin.insert_newest (forget_password x) (map forget_password l).
Proof.
  induction l as [|y l IH]; simpl; [reflexivity|].
  destruct (Nat.leb _ _); simpl; [reflexivity|]. by rewrite IH.
Qed.

Lemma newest_first_public l :
  map forget_password (Admin.newest_first l)
  = Admin.newest_first (map forget_password l).
Proof.
  induction l as [|x l IH]; simpl; [reflexivity|].
  unfold Admin.newest_first in *. simpl.
  by rewrite insert_newest_public, IH.
Qed.

Lemma public_object f :
  delete "password" (Admin.toObject f)
  = delete "password" (Admin.toObject (forget_password f)).
Proof.
  unfold Admin.toObject. simpl.
  rewrite !(delete_insert_ne _ "password") by done.
  by rewrite !delete_insert_eq.
Qed.

Lemma public_object_eq f1 f2 :
  same_public f1 f2 ->
  delete "password" (Admin.toObject f1)
  = delete "password" (Admin.toObject f2).
Proof.
  intros H. rewrite (public_object f1), (public_object f2).
  unfold same_public in H. by rewrite H.
Qed.

Lemma public_object_no_password f :
  no_password (delete "password" (Admin.toObject f)).
Proof. apply lookup_delete_eq. Qed.

Lemma public_objects l1 l2 :
  map forget_password l1 = map forget_password l2 ->
  map (fun f => delete "password" (Admin.toObject f)) l1
  = map (fun f => delete "password" (Admin.toObject f)) l2.
Proof.
  intros H.
  rewrite (map_ext _ _ public_object l1), (map_ext _ _ public_object l2).
  rewrite <- !(map_map forget_password
                 (fun f => delete "password" (Admin.toObject f))).
  by rewrite H.
Qed.

Lemma related_get_faculty : related eq Admin.get_faculty Admin.get_faculty.
Proof.
  unfold Admin.get_faculty. apply related_try_catch.
  - eapply related_bind.
    + apply (related_query eq). intros d1 d2 (_ & _ & _ & _ & Hf).
      apply public_objects. rewrite !newest_first_public. by rewrite Hf.
    + intros a1 a2 ->. by apply related_ret.
  - intros e1 e2. by apply related_ret.
Qed.

Lemma related_findOne (p : Faculty.t -> bool) :
  (forall f1 f2, same_public f1 f2 -> p f1 = p f2) ->
  related same_public_opt (Admin.Faculty_findOne p) (Admin.Faculty_findOne p).
Proof.
  intros Hp. unfold Admin.Faculty_findOne. apply related_query.
  intros d1 d2 Hd. apply find_first_public; [exact Hp | apply Hd].
Qed.

Lemma related_create newObjectId Date_now name email p1 p2 employeeId
    designation :
  related same_public
    (Admin.Faculty_create newObjectId Date_now name email p1 employeeId
       designation)
    (Admin.Faculty_create newObjectId Date_now name email p2 employeeId
       designation).
Proof.
  unfold Admin.Faculty_create. eapply related_bind; [apply related_await|].
  intros _ _ _ st1 st2 ((Hr & Hb & Hs & Hn & Hf) & Hc & Hrej). simpl.
  rewrite Hc. split; [|reflexivity].
  split; [|by split]. simpl. repeat split; auto.
  cbn [faculty set_faculty]. rewrite !map_app, Hf. reflexivity.
Qed.

Lemma related_save doc1 doc2 :
  same_public doc1 doc2 ->
  related same_public (Admin.Faculty_save doc1) (Admin.Faculty_save doc2).
Proof.
  intros Hdoc. unfold Admin.Faculty_save.
  eapply related_bind; [apply related_await|].
  intros _ _ _ st1 st2 ((Hr & Hb & Hs & Hn & Hf) & Hc & Hrej). simpl.
  split; [|exact Hdoc]. split; [|by split]. simpl. repeat split; auto.
  pose proof (proj1 (same_public_fields _ _) Hdoc) as (Hid & _).
  cbn [faculty set_faculty]. rewrite Hid. apply update_first_public; auto.
  intros f1 f2 Hff. apply same_public_fields in Hff as (-> & _).
  reflexivity.
Qed.

Lemma related_post_faculty h1 h2 newObjectId Date_now b1 b2 :
  same_but_password_body b1 b2 ->
  related eq
    (Admin.post_faculty h1 newObjectId Date_now b1)
    (Admin.post_faculty h2 newObjectId Date_now b2).
Proof.
  intros (Hn & He & Hi & Hd & Hp). unfold Admin.post_faculty.
  rewrite Hn, He, Hi, Hd, Hp.
  apply related_try_catch; [|intros; by apply related_ret].
  eapply related_bind with (RA := fun _ _ => True).
  { destruct (_ || _); [apply related_respond | by apply related_ret]. }
  intros _ _ _. eapply related_bind.
  { apply related_findOne. intros f1 f2 Hff.
    apply same_public_fields in Hff as (_ & _ & -> & _). reflexivity. }
  intros o1 o2 Ho. eapply related_bind with (RA := fun _ _ => True).
  { destruct o1, o2; simpl in Ho;
      [apply related_respond | done | done | by apply related_ret]. }
  intros _ _ _. eapply related_bind.
  { apply related_findOne. intros f1 f2 Hff.
    apply same_public_fields in Hff as (_ & _ & _ & -> & _). reflexivity. }
  intros o1' o2' Ho'. eapply related_bind with (RA := fun _ _ => True).
  { destruct o1', o2'; simpl in Ho';
      [apply related_respond | done | done | by apply related_ret]. }
  intros _ _ _. simpl. eapply related_bind; [apply related_create|].
  intros f1 f2 Hff. apply related_ret. by rewrite (public_object_eq f1 f2).
Qed.

Lemma same_public_with_email e f1 f2 :
  same_public f1 f2 ->
  same_public (Admin.with_email e f1) (Admin.with_email e f2).
Proof.
  rewrite !same_public_fields. simpl. intros (? & ? & ? & ? & ? & ? & ?).
  by repeat split.
Qed.

Lemma same_public_with_employeeId e f1 f2 :
  same_public f1 f2 ->
  same_public (Admin.with_employeeId e f1) (Admin.with_employeeId e f2).
Proof.
  rewrite !same_public_fields. simpl. intros (? & ? & ? & ? & ? & ? & ?).
  by repeat split.
Qed.

Lemma same_public_with_name e f1 f2 :
  same_public f1 f2 ->
  same_public (Admin.with_name e f1) (Admin.with_name e f2).
Proof.
  rewrite !same_public_fields. simpl. intros (? & ? & ? & ? & ? & ? & ?).
  by repeat split.
Qed.

Lemma same_public_with_designation e f1 f2 :
  same_public f1 f2 ->
  same_public (Admin.with_designation e f1) (Admin.with_designation e f2).
Proof.
  rewrite !same_public_fields. simpl. intros (? & ? & ? & ? & ? & ? & ?).
  by repeat split.
Qed.

Lemma same_public_with_password p1 p2 f1 f2 :
  same_public f1 f2 ->
  same_public (Admin.with_password p1 f1) (Admin.with_password p2 f2).
Proof.
  rewrite !same_public_fields. simpl. intros (? & ? & ? & ? & ? & ? & ?).
  by repeat split.
Qed.

Lemma same_public_set_password p f1 f2 :
  same_public f1 f2 -> same_public (Admin.with_password p f1) f2.
Proof.
  rewrite !same_public_fields. simpl. intros (? & ? & ? & ? & ? & ? & ?).
  by repeat split.
Qed.

Lemma related_put_faculty isValid h1 h2 id b1 b2 :
  Admin.b_name b1 = Admin.b_name b2 ->
  Admin.b_email b1 = Admin.b_email b2 ->
  Admin.b_employeeId b1 = Admin.b_employeeId b2 ->
  Admin.b_designation b1 = Admin.b_designation b2 ->
  related eq
    (Admin.put_faculty isValid h1 id b1)
    (Admin.put_faculty isValid h2 id b2).
Proof.
  intros Hn He Hi Hd. unfold Admin.put_faculty.
  rewrite Hn, He, Hi, Hd.
  apply related_try_catch; [|intros; by apply related_ret].
  eapply related_bind with (RA := fun _ _ => True).
  { destruct (negb _); [apply related_respond | by apply related_ret]. }
  intros _ _ _. eapply related_bind.
  { apply related_findOne. intros f1 f2 Hff.
    apply same_public_fields in Hff as (-> & _). reflexivity. }
  intros [f1|] [f2|] Hf; simpl in Hf;
    [ | done | done | apply related_respond].
  pose proof (proj1 (same_public_fields _ _) Hf)
    as (Hid & Hname & Hemail & Hemp & Hdes & Hup & Hcr).
  eapply related_bind with (RA := same_public).
  { rewrite Hemail. destruct (_ && _); [|by apply related_ret].
    eapply related_bind.
    - apply related_findOne. intros g1 g2 Hg.
      apply same_public_fields in Hg as (-> & _ & -> & _). reflexivity.
    - intros [g1|] [g2|] Hg; simpl in Hg;
        [apply related_respond | done | done |].
      apply related_ret. by apply same_public_with_email. }
  intros f1' f2' Hf'.
  pose proof (proj1 (same_public_fields _ _) Hf')
    as (_ & _ & _ & Hemp' & _).
  eapply related_bind with (RA := same_public).
  { rewrite Hemp'. destruct (_ && _); [|by apply related_ret].
    eapply related_bind.
    - apply related_findOne. intros g1 g2 Hg.
      apply same_public_fields in Hg as (-> & _ & _ & -> & _). reflexivity.
    - intros [g1|] [g2|] Hg; simpl in Hg;
        [apply related_respond | done | done |].
      apply related_ret. by apply same_public_with_employeeId. }
  intros f1'' f2'' Hf''. cbv zeta.
  eapply related_bind.
  { apply related_save.
    assert (Hnm : same_public
              (if negb (Admin.falsy (Admin.b_name b2))
               then Admin.with_name (Admin.b_name b2) f1'' else f1'')
              (if negb (Admin.falsy (Admin.b_name b2))
               then Admin.with_name (Admin.b_name b2) f2'' else f2'')).
    { destruct (negb _); [by apply same_public_with_name | done]. }
    revert Hnm. generalize
      (if negb (Admin.falsy (Admin.b_name b2))
       then Admin.with_name (Admin.b_name b2) f1'' else f1'')
      (if negb (Admin.falsy (Admin.b_name b2))
       then Admin.with_name (Admin.b_name b2) f2'' else f2'').
    intros g1 g2 Hg.
    assert (Hds : same_public
              (if negb (Admin.falsy (Admin.b_designation b2))
               then Admin.with_designation (Admin.b_designation b2) g1
               else g1)
              (if negb (Admin.falsy (Admin.b_designation b2))
               then Admin.with_designation (Admin.b_designation b2) g2
               else g2)).
    { destruct (negb _); [by apply same_public_with_designation | done]. }
    revert Hds. generalize
      (if negb (Admin.falsy (Admin.b_designation b2))
       then Admin.with_designation (Admin.b_designation b2) g1 else g1)
      (if negb (Admin.falsy (Admin.b_designation b2))
       then Admin.with_designation (Admin.b_designation b2) g2 else g2).
    intros k1 k2 Hk.
    destruct (negb (Admin.falsy (Admin.b_password b1))),
             (negb (Admin.falsy (Admin.b_password b2))).
    - by apply same_public_with_password.
    - by apply same_public_set_password.
    - symmetry. apply same_public_set_password. by symmetry.
    - exact Hk. }
  intros u1 u2 Hu. apply related_ret. by rewrite (public_object_eq u1 u2).
Qed.

Lemma related_run (h1 h2 : M Response) st1 st2 :
  related eq h1 h2 -> low_eq st1 st2 -> (run h1 st1).1 = (run h2 st2).1.
Proof.
  intros Hh Hl. specialize (Hh st1 st2 Hl) as [_ Hr]. unfold run.
  destruct (h1 st1) as [[r1|e1|r1] st1'], (h2 st2) as [[r2|e2|r2] st2'];
    simpl in *; try done; by subst.
Qed.

Lemma triple_await (P : St -> Prop) (Q : unit -> St -> Prop)
    (E : option Response -> St -> Prop) :
  (forall st, P st -> Q tt (advance st) /\ E None (advance st)) ->
  triple P await_call Q E.
Proof.
  intros H st HP. unfold await_call.
  destruct (rejects st (clock st)); apply (H st HP).
Qed.

Lemma triple_query {A} v (q : Db -> A) (P : St -> Prop) Q
    (E : option Response -> St -> Prop) :
  (forall st, P st -> Q (q (view v st)) (advance st) /\ E None (advance st)) ->
  triple P (query v q) Q E.
Proof.
  intros H st HP. unfold query, await_call. rewrite bind_run.
  destruct (rejects st (clock st)); simpl.
  - apply (H st HP).
  - destruct v; apply (H st HP).
Qed.

Lemma clean_message code m : clean (Some (json code (Message m))).
Proof. constructor. Qed.

Lemma clean_doc code f :
  clean (Some (json code
                 (FacultyDoc (delete "password" (Admin.toObject f))))).
Proof.
  constructor; [apply public_object_no_password | constructor].
Qed.

Lemma clean_findOne p :
  triple (fun _ => True) (Admin.Faculty_findOne p) (fun _ _ => True)
    clean_exit.
Proof.
  unfold Admin.Faculty_findOne. apply triple_query. intros st _.
  split; [exact I | constructor].
Qed.

Lemma clean_try_catch (body : M Response) st :
  triple (fun _ => True) body (fun r _ => clean (Some r)) clean_exit ->
  clean (run (try_catch body
                (fun _ => ret (json 500 (Message "Server error")))) st).1.
Proof.
  intros H. specialize (H st I). unfold run, try_catch.
  destruct (body st) as [[r|e|r] st']; simpl; auto.
Qed.

Lemma clean_get_faculty st : clean (run Admin.get_faculty st).1.
Proof.
  apply clean_try_catch.
  eapply triple_bind with (R := fun a _ => Forall no_password a).
  - apply triple_query. intros s _. split; [|constructor].
    apply Forall_forall. intros doc Hin.
    apply list_elem_of_fmap in Hin as (f & -> & _).
    apply public_object_no_password.
  - intros docs. apply triple_ret. intros s H. exact H.
Qed.

Lemma clean_post_faculty h newObjectId Date_now b st :
  clean (run (Admin.post_faculty h newObjectId Date_now b) st).1.
Proof.
  apply clean_try_catch.
  eapply triple_bind with (R := fun _ _ => True).
  { destruct (_ || _); [apply triple_respond | by apply triple_ret].
    intros s _. apply clean_message. }
  intros _. eapply triple_bind; [apply clean_findOne|].
  intros o. eapply triple_bind with (R := fun _ _ => True).
  { destruct o; [apply triple_respond | by apply triple_ret].
    intros s _. apply clean_message. }
  intros _. eapply triple_bind; [apply clean_findOne|].
  intros o'. eapply triple_bind with (R := fun _ _ => True).
  { destruct o'; [apply triple_respond | by apply triple_ret].
    intros s _. apply clean_message. }
  intros _. simpl. eapply triple_bind with (R := fun _ _ => True).
  { unfold Admin.Faculty_create.
    eapply triple_bind with (R := fun _ _ => True).
    - apply triple_await. intros s _. split; [exact I | constructor].
    - intros _ s _. exact I. }
  intros saved. apply triple_ret. intros s _. apply clean_doc.
Qed.

Lemma clean_put_faculty isValid h id b st :
  clean (run (Admin.put_faculty isValid h id b) st).1.
Proof.
  apply clean_try_catch.
  eapply triple_bind with (R := fun _ _ => True).
  { destruct (negb _); [apply triple_respond | by apply triple_ret].
    intros s _. apply clean_message. }
  intros _. eapply triple_bind; [apply clean_findOne|].
  intros [f|]; [|apply triple_respond; intros s _; apply clean_message].
  eapply triple_bind with (R := fun _ _ => True).
  { destruct (_ && _); [|by apply triple_ret].
    eapply triple_bind; [apply clean_findOne|].
    intros [g|]; [apply triple_respond | by apply triple_ret].
    intros s _. apply clean_message. }
  intros f'. eapply triple_bind with (R := fun _ _ => True).
  { destruct (_ && _); [|by apply triple_ret].
    eapply triple_bind; [apply clean_findOne|].
    intros [g|]; [apply triple_respond | by apply triple_ret].
    intros s _. apply clean_message. }
  intros f''. cbv zeta. eapply triple_bind with (R := fun _ _ => True).
  { unfold Admin.Faculty_save.
    eapply triple_bind with (R := fun _ _ => True).
    - apply triple_await. intros s _. split; [exact I | constructor].
    - intros _ s _. exact I. }
  intros updated. apply triple_ret. intros s _. apply clean_doc.
Qed.

(** C10: the Faculty documents in the responses of GET, POST and PUT
    /admin/faculty have no [password] key, and the responses do not
    depend on password hashes: two stores that differ only in the hashes
    they hold, two hash functions and two request bodies that differ only
    in the password (given in both or in neither, for POST) get the same
    response. *)
Theorem faculty_responses_hide_password isValid h1 h2 newObjectId Date_now
    st1 st2 :
  low_eq st1 st2 ->
  ((run Admin.get_faculty st1).1 = (run Admin.get_faculty st2).1 /\
   clean (run Admin.get_faculty st1).1) /\
  (forall b1 b2, same_but_password_body b1 b2 ->
     (run (Admin.post_faculty h1 newObjectId Date_now b1) st1).1
       = (run (Admin.post_faculty h2 newObjectId Date_now b2) st2).1 /\
     clean (run (Admin.post_faculty h1 newObjectId Date_now b1) st1).1) /\
  (forall id b1 b2, same_public_body b1 b2 ->
     (run (Admin.put_faculty isValid h1 id b1) st1).1
       = (run (Admin.put_faculty isValid h2 id b2) st2).1 /\
     clean (run (Admin.put_faculty isValid h1 id b1) st1).1).
Proof.
  intros Hl. split; [|split].
  - split; [|apply clean_get_faculty].
    apply related_run; [apply related_get_faculty | exact Hl].
  - intros b1 b2 Hb. split; [|apply clean_post_faculty].
    apply related_run; [by apply related_post_faculty | exact Hl].
  - intros id b1 b2 (Hn & He & Hi & Hd). split; [|apply clean_put_faculty].
    apply related_run; [by apply related_put_faculty | exact Hl].
Qed.

Lemma faculty_responses_hide_password_witness :
  (run Admin.get_faculty (Sample.world Sample.db0 Sample.never)).1
    = (run Admin.get_faculty (Sample.world Sample.db0' Sample.never)).1 /\
  (run (Admin.put_faculty Sample.valid (fun p => "h1:" ++ p) "f1"
          (Admin.mkFacultyBody "Asha K" "" "secret" "" ""))
     (Sample.world Sample.db0 Sample.never)).1
    = (run (Admin.put_faculty Sample.valid (fun p => "h2:" ++ p) "f1"
              (Admin.mkFacultyBody "Asha K" "" "" "" ""))
         (Sample.world Sample.db0' Sample.never)).1.
Proof.
  assert (Hl : low_eq (Sample.world Sample.db0 Sample.never)
                 (Sample.world Sample.db0' Sample.never)).
  { repeat split; reflexivity. }
  pose proof (faculty_responses_hide_password Sample.valid
                (fun p => "h1:" ++ p) (fun p => "h2:" ++ p)
                Sample.newId Sample.now _ _ Hl) as (Hget & _ & Hput).
  split; [apply Hget|].
  refine (proj1 (Hput "f1" (Admin.mkFacultyBody "Asha K" "" "secret" "" "")
                   (Admin.mkFacultyBody "Asha K" "" "" "" "") _)).
  repeat split; reflexivity.
Defined.

(** * Further properties of the routes *)

(** ** The archive route *)

Section ArchiveMore.
Variable errorDocument : string -> Blob.
Variable castable : string -> bool.
Variable castError : string -> string.

Local Abbreviation post_download_zip :=
  (Notes.post_download_zip errorDocument castable castError).

Lemma promise_all_state ns st :
  (Notes.Promise_all (map (Notes.stage errorDocument) ns) st).2 = st.
Proof.
  induction ns as [|n ns IH]; [reflexivity|]. simpl. rewrite bind_run.
  destruct (stage_cases errorDocument n st) as [[x ->] | [e ->]];
    [|reflexivity].
  rewrite bind_run.
  destruct (Notes.Promise_all _ st) as [[xs|e|r] st'] eqn:Hp;
    simpl in *; by subst.
Qed.

(** The archive route only reads: whatever it answers, it leaves the
    committed store, the bucket and the trace as they were. *)
Theorem archive_only_reads noteIds st :
  committed (run (post_download_zip noteIds) st).2 = committed st /\
  bucket (run (post_download_zip noteIds) st).2 = bucket st /\
  trace (run (post_download_zip noteIds) st).2 = trace st.
Proof.
  destruct noteIds as [ids|]; [|by repeat split].
  destruct (casting_cases castable ids)
    as [Hc | (pre & v & post & -> & Hpre & Hv)];
    [|by rewrite download_zip_cast].
  destruct ids as [|id ids]; [by repeat split|].
  rewrite download_zip_run by done.
  destruct (rejects st (clock st)); [by repeat split|].
  destruct (resolve _ _) as [|n ns]; [by repeat split|].
  pose proof (promise_all_state (n :: ns) (advance st)) as Hst.
  destruct (Notes.Promise_all _ (advance st)) as [[xs|e|r] st'];
    simpl in *; subst; by repeat split.
Qed.

Lemma resolve_ext ids1 ids2 d :
  (forall id, id ∈ ids1 <-> id ∈ ids2) -> resolve ids1 d = resolve ids2 d.
Proof.
  intros H. unfold resolve, keep. apply list_filter_iff. intros n. simpl.
  rewrite !Is_true_true. rewrite !existsb_exists.
  split; intros (x & Hx & Hm); exists x; (split; [|done]);
    apply list_elem_of_In; apply list_elem_of_In in Hx; by apply H.
Qed.

Lemma forallb_ext_elem (ids1 ids2 : list string) :
  (forall id, id ∈ ids1 <-> id ∈ ids2) ->
  forallb castable ids1 = true -> forallb castable ids2 = true.
Proof.
  intros H H1. apply forallb_forall. intros x Hx.
  apply (proj1 (forallb_forall castable ids1) H1).
  apply list_elem_of_In, H, list_elem_of_In, Hx.
Qed.

(** The run of the archive route on a selection with an identifier that
    does not cast: a 500 and the state of the call. *)
Lemma download_zip_uncast ids st :
  forallb castable ids = false ->
  exists v, v ∈ ids /\ castable v = false /\
    run (post_download_zip (Some ids)) st
    = (Some (json 500 (MessageError "Error creating ZIP" (castError v))),
       st).
Proof.
  intros Hc.
  destruct (casting_cases castable ids)
    as [Hc' | (pre & v & post & -> & Hpre & Hv)]; [congruence|].
  exists v. split; [|split; [done | by apply download_zip_cast]].
  apply elem_of_app. right. left.
Qed.

(** Two selections with the same members are answered alike.  When the
    identifiers cast, the two answers are the same: the order and the
    repetitions of the identifiers in the request change nothing.  When
    one does not cast, the two answers have the same status, and their
    messages name the first identifier of each request that does not
    cast; in every case the route leaves the same state. *)
Theorem archive_ignores_order ids1 ids2 st :
  (forall id, id ∈ ids1 <-> id ∈ ids2) ->
  (forallb castable ids1 = true ->
   run (post_download_zip (Some ids1)) st
   = run (post_download_zip (Some ids2)) st) /\
  (forallb castable ids1 = false ->
   exists v1 v2, v1 ∈ ids1 /\ v2 ∈ ids1 /\
     castable v1 = false /\ castable v2 = false /\
     run (post_download_zip (Some ids1)) st
     = (Some (json 500 (MessageError "Error creating ZIP" (castError v1))),
        st) /\
     run (post_download_zip (Some ids2)) st
     = (Some (json 500 (MessageError "Error creating ZIP" (castError v2))),
        st)) /\
  (run (post_download_zip (Some ids1)) st).2
  = (run (post_download_zip (Some ids2)) st).2 /\
  option_map status (run (post_download_zip (Some ids1)) st).1
  = option_map status (run (post_download_zip (Some ids2)) st).1.
Proof.
  intros H.
  assert (Hsame : forallb castable ids1 = true ->
            run (post_download_zip (Some ids1)) st
            = run (post_download_zip (Some ids2)) st).
  { intros Hc1. pose proof (forallb_ext_elem ids1 ids2 H Hc1) as Hc2.
    pose proof (resolve_ext ids1 ids2 (committed st) H) as Hres.
    destruct ids1 as [|a ids1], ids2 as [|b ids2].
    - reflexivity.
    - exfalso. eapply not_elem_of_nil. apply H. left.
    - exfalso. eapply not_elem_of_nil. apply H. left.
    - rewrite !download_zip_run by done. by rewrite Hres. }
  assert (Hbad : forallb castable ids1 = false ->
            exists v1 v2, v1 ∈ ids1 /\ v2 ∈ ids1 /\
              castable v1 = false /\ castable v2 = false /\
              run (post_download_zip (Some ids1)) st
              = (Some (json 500
                         (MessageError "Error creating ZIP" (castError v1))),
                 st) /\
              run (post_download_zip (Some ids2)) st
              = (Some (json 500
                         (MessageError "Error creating ZIP" (castError v2))),
                 st)).
  { intros Hc1.
    assert (Hc2 : forallb castable ids2 = false).
    { destruct (forallb castable ids2) eqn:Hc2; [|done].
      assert (H' : forall id, id ∈ ids2 <-> id ∈ ids1)
        by (intros id; symmetry; apply H).
      rewrite (forallb_ext_elem ids2 ids1 H' Hc2) in Hc1. discriminate. }
    destruct (download_zip_uncast ids1 st Hc1) as (v1 & Hv1 & Hb1 & Hr1).
    destruct (download_zip_uncast ids2 st Hc2) as (v2 & Hv2 & Hb2 & Hr2).
    exists v1, v2. repeat split; auto. by apply H. }
  split; [exact Hsame|]. split; [exact Hbad|].
  destruct (forallb castable ids1) eqn:Hc1.
  - by rewrite Hsame.
  - destruct (Hbad eq_refl) as (v1 & v2 & _ & _ & _ & _ & -> & ->).
    by split.
Qed.

Lemma zip_fold_other (acc : gmap string Blob) fd name :
  name ∉ entry_names fd ->
  (foldl (fun zip f =>
            match f with
            | Some (name, buffer) => <[name := buffer]> zip
            | None => zip
            end) acc fd) !! name = acc !! name.
Proof.
  revert acc. induction fd as [|[[n0 b0]|] fd IH]; intros acc Hn; simpl.
  - reflexivity.
  - unfold entry_names in *. simpl in Hn. apply not_elem_of_cons in Hn
      as [Hne Hn]. rewrite (IH _ Hn). by rewrite lookup_insert_ne.
  - by apply IH.
Qed.

(** When several selected Notes share a title, the entry of that name
    holds what was fetched for the last of them in store order: the bytes
    of its blob, or the body of the store's error answer when its blob is
    not in the bucket.  The selection is one whose identifiers cast. *)
Theorem archive_last_title_wins ids st pre n post :
  forallb castable ids = true ->
  rejects st (clock st) = None ->
  resolve ids (committed st) = (pre ++ n :: post)%list ->
  Note.fileKey n <> "" ->
  (forall m, m ∈ resolve ids (committed st) ->
     fetch_rejects st (Note.fileKey m) = None) ->
  (forall m, m ∈ post -> Note.fileKey m <> "" ->
     Note.title m <> Note.title n) ->
  exists files,
    (run (post_download_zip (Some ids)) st).1
      = Some (zip_response files) /\
    files !! (Note.title n ++ ".pdf")%string
      = Some (default (errorDocument (Note.fileKey n))
                (bucket st !! Note.fileKey n)).
Proof.
  intros Hc Hr Hres Hk Hf Hpost. eexists. split.
  { apply download_zip_ok; auto. rewrite Hres. by destruct pre. }
  rewrite Hres. unfold Notes.zip_files.
  rewrite (zip_fold_files ∅ ∅) by (done || apply entry_name_is_file).
  rewrite map_app, foldl_app. cbn [map foldl].
  assert (He : entry errorDocument (bucket st) n
               = Some ((Note.title n ++ ".pdf")%string,
                       default (errorDocument (Note.fileKey n))
                         (bucket st !! Note.fileKey n))).
  { unfold entry. apply String.eqb_neq in Hk. by rewrite Hk. }
  rewrite He. rewrite zip_fold_other; [apply lookup_insert_eq|].
  rewrite entry_names_of_notes. intros Hin.
  apply list_elem_of_fmap in Hin as (m & Heq & Hm).
  apply elem_of_keep in Hm as [Hmk Hm].
  apply string_append_cancel in Heq.
  apply (Hpost m Hm); [|done].
  apply negb_true_iff in Hmk. by apply String.eqb_neq.
Qed.
End ArchiveMore.

Lemma archive_ignores_order_witness :
  run (Notes.post_download_zip (fun _ => []) SampleDriver.castable
         SampleDriver.castError (Some ["n1"; "n2"; "n1"]))
    (Sample.world Sample.db0 Sample.never)
  = run (Notes.post_download_zip (fun _ => []) SampleDriver.castable
           SampleDriver.castError (Some ["n2"; "n1"]))
      (Sample.world Sample.db0 Sample.never).
Proof.
  refine (proj1 (archive_ignores_order (fun _ => []) SampleDriver.castable
                   SampleDriver.castError ["n1"; "n2"; "n1"] ["n2"; "n1"]
                   (Sample.world Sample.db0 Sample.never) _) eq_refl).
  intros id. rewrite !elem_of_cons. tauto.
Defined.

(** Two requests with the same two identifiers that do not cast are
    answered 500 with different messages. *)
Lemma archive_cast_error_names_first :
  (run (Notes.post_download_zip (fun _ => []) SampleDriver.castable
          SampleDriver.castError (Some ["zz"; "yy"]))
     (Sample.world Sample.db0 Sample.never)).1
    = Some (json 500
              (MessageError "Error creating ZIP"
                 "Cast to ObjectId failed for value zz")) /\
  (run (Notes.post_download_zip (fun _ => []) SampleDriver.castable
          SampleDriver.castError (Some ["yy"; "zz"]))
     (Sample.world Sample.db0 Sample.never)).1
    = Some (json 500
              (MessageError "Error creating ZIP"
                 "Cast to ObjectId failed for value yy")).
Proof. split; vm_compute; reflexivity. Qed.

Lemma archive_last_title_wins_witness :
  exists files,
    (run (Notes.post_download_zip Sample2.noSuchKey SampleDriver.castable
            SampleDriver.castError (Some ["n1"; "n4"]))
       (Sample.world Sample2.db2 Sample.never)).1
      = Some (zip_response files) /\
    files !! "A.pdf" = Some (Sample2.noSuchKey "uploads/4_A.pdf").
Proof.
  apply (archive_last_title_wins Sample2.noSuchKey SampleDriver.castable
           SampleDriver.castError ["n1"; "n4"]
           (Sample.world Sample2.db2 Sample.never)
           [Sample.note1] Sample2.note4 []).
  - reflexivity.
  - reflexivity.
  - reflexivity.
  - simpl. discriminate.
  - intros m _. reflexivity.
  - intros m Hm. by apply not_elem_of_nil in Hm.
Defined.

(** ** Deleting one note *)

Lemma find_first_some {A} (p : A -> bool) (l : list A) x :
  find_first p l = Some x -> p x = true /\ x ∈ l.
Proof.
  induction l as [|y l IH]; simpl; [discriminate|].
  destruct (p y) eqn:Hp.
  - intros [= ->]. split; [done | left].
  - intros H. destruct (IH H). split; [done | by right].
Qed.

Lemma find_first_update {A} (p : A -> bool) (g : A -> A) (l : list A) :
  (forall x, p (g x) = p x) ->
  find_first p (update_first p g l) = g <$> find_first p l.
Proof.
  intros Hg. induction l as [|y l IH]; simpl; [reflexivity|].
  destruct (p y) eqn:Hp; simpl.
  - by rewrite Hg, Hp.
  - by rewrite Hp.
Qed.

Lemma remove_first_other {A} (p : A -> bool) (l : list A) x :
  x ∈ l -> p x = false -> x ∈ remove_first p l.
Proof.
  induction l as [|y l IH]; simpl; [done|]. intros Hin Hp.
  apply elem_of_cons in Hin as [->|Hin].
  - rewrite Hp. left.
  - destruct (p y); [done|]. right. by apply IH.
Qed.

Section NoteDelete.
Variable castable : string -> bool.
Variable castError : string -> string.

Local Abbreviation delete_note := (Notes.delete_note castable castError).
Local Abbreviation delete_notes := (Admin.delete_notes castable castError).

Lemma delete_note_run noteId st n :
  castable noteId = true ->
  find_first (fun x => String.eqb (Note._id x) noteId)
    (notes (committed st)) = Some n ->
  Note.fileKey n <> "" ->
  rejects st (clock st) = None ->
  rejects st (S (clock st)) = None ->
  run (delete_note noteId) st =
  match rejects st (S (S (clock st))) with
  | Some e =>
      (Some (json 500 (MessageError "Delete failed" e)),
       advance (set_bucket (delete (Note.fileKey n) (bucket st))
         (advance (emit [EvBlobDelete (Note.fileKey n)] (advance st)))))
  | None =>
      let d1 := set_faculty
                  (update_first
                     (fun f => String.eqb (Faculty._id f) (Note.uploadedBy n))
                     (pull_note (Note._id n)) (faculty (committed st)))
                  (committed st) in
      match rejects st (S (S (S (clock st)))) with
      | Some e =>
          (Some (json 500 (MessageError "Delete failed" e)),
           advance (emit [EvPull (Note.uploadedBy n) (Note._id n)]
             (set_committed d1
               (advance (set_bucket (delete (Note.fileKey n) (bucket st))
                 (advance (emit [EvBlobDelete (Note.fileKey n)]
                   (advance st))))))))
      | None =>
          (Some (json 200 (Message "Note deleted successfully")),
           emit (removed KNote (has_id Note._id (Note._id n) (notes d1)))
             (set_committed
                (set_notes
                   (remove_first
                      (fun x => String.eqb (Note._id x) (Note._id n))
                      (notes d1)) d1)
                (advance (emit [EvPull (Note.uploadedBy n) (Note._id n)]
                  (set_committed d1
                    (advance
                       (set_bucket (delete (Note.fileKey n) (bucket st))
                          (advance (emit [EvBlobDelete (Note.fileKey n)]
                            (advance st))))))))))
      end
  end.
Proof.
  intros Hc Hfind Hk H0 H1. apply String.eqb_neq in Hk.
  unfold run, Notes.delete_note, try_catch.
  rewrite casting_ok by (simpl; by rewrite Hc).
  unfold Note_findById, query,
    deleteS3Object, Faculty_pull, Note_findByIdAndDelete, update,
    await_call, bind, ret, respond.
  rewrite H0. simpl. rewrite Hfind, Hk. simpl. rewrite H1. simpl.
  destruct (rejects st (S (S (clock st)))); simpl; [reflexivity|].
  destruct (rejects st (S (S (S (clock st))))); reflexivity.
Qed.

(** DELETE /notes/:id of an identifier that casts, as the [_id] of a
    stored Note does, when every call is answered: the Note is gone
    from the store and the other Notes stay, the uploader's list no
    longer names it, and its blob is gone from the bucket. *)
Theorem note_delete_pulls_ledger noteId st n :
  castable noteId = true ->
  find_first (fun x => String.eqb (Note._id x) noteId)
    (notes (committed st)) = Some n ->
  Note.fileKey n <> "" ->
  NoDup (map Note._id (notes (committed st))) ->
  (forall i, i < 4 -> rejects st (clock st + i) = None) ->
  (run (delete_note noteId) st).1
    = Some (json 200 (Message "Note deleted successfully")) /\
  (noteId ∉ map Note._id
              (notes (committed (run (delete_note noteId) st).2))) /\
  (forall m, m ∈ notes (committed st) -> Note._id m <> noteId ->
     m ∈ notes (committed (run (delete_note noteId) st).2)) /\
  (forall f,
     find_first (fun f => String.eqb (Faculty._id f) (Note.uploadedBy n))
       (faculty (committed (run (delete_note noteId) st).2)) = Some f ->
     noteId ∉ Faculty.uploadedNotes f) /\
  bucket (run (delete_note noteId) st).2 !! Note.fileKey n = None.
Proof.
  intros Hc Hfind Hk Hnd Hrej.
  pose proof (Hrej 0 ltac:(lia)) as H0. pose proof (Hrej 1 ltac:(lia)) as H1.
  pose proof (Hrej 2 ltac:(lia)) as H2. pose proof (Hrej 3 ltac:(lia)) as H3.
  rewrite Nat.add_0_r in H0.
  replace (clock st + 1) with (S (clock st)) in H1 by lia.
  replace (clock st + 2) with (S (S (clock st))) in H2 by lia.
  replace (clock st + 3) with (S (S (S (clock st)))) in H3 by lia.
  rewrite (delete_note_run noteId st n Hc Hfind Hk H0 H1), H2, H3.
  destruct (find_first_some _ _ _ Hfind) as [Hid Hin].
  apply String.eqb_eq in Hid. cbn [fst snd committed bucket emit
    set_committed set_bucket advance notes set_notes set_faculty faculty].
  split; [reflexivity|]. rewrite Hid. split; [|split; [|split]].
  - by apply (remove_first_absent Note._id).
  - intros m Hm Hne. apply remove_first_other; [done|].
    by apply String.eqb_neq.
  - intros f Hf. rewrite find_first_update in Hf by reflexivity.
    destruct (find_first _ (faculty (committed st))) as [f0|];
      [|discriminate].
    injection Hf as <-. simpl. intros Hin'.
    apply elem_of_drop_matching in Hin' as [Hneq _].
    by rewrite String.eqb_refl in Hneq.
  - apply lookup_delete_eq.
Qed.

(** DELETE /notes/:id of an identifier that casts deletes the blob
    first: when a later call rejects
    (the update of the uploader's list, or the deletion of the Note), the
    route answers 500 "Delete failed", the Note is still in the store and
    its blob is gone. *)
Theorem note_delete_blob_goes_first noteId st n e :
  castable noteId = true ->
  find_first (fun x => String.eqb (Note._id x) noteId)
    (notes (committed st)) = Some n ->
  Note.fileKey n <> "" ->
  rejects st (clock st) = None ->
  rejects st (S (clock st)) = None ->
  rejects st (S (S (clock st))) = Some e \/
  (rejects st (S (S (clock st))) = None /\
   rejects st (S (S (S (clock st)))) = Some e) ->
  (run (delete_note noteId) st).1
    = Some (json 500 (MessageError "Delete failed" e)) /\
  n ∈ notes (committed (run (delete_note noteId) st).2) /\
  bucket (run (delete_note noteId) st).2 !! Note.fileKey n = None.
Proof.
  intros Hc Hfind Hk H0 H1 Hrej.
  rewrite (delete_note_run noteId st n Hc Hfind Hk H0 H1).
  destruct (find_first_some _ _ _ Hfind) as [_ Hin].
  destruct Hrej as [-> | [-> ->]]; simpl;
    (split; [reflexivity|]); (split; [exact Hin | apply lookup_delete_eq]).
Qed.

Lemma admin_delete_notes_run id st n :
  castable id = true ->
  find_first (fun x => String.eqb (Note._id x) id)
    (notes (committed st)) = Some n ->
  rejects st (clock st) = None ->
  rejects st (S (clock st)) = None ->
  run (delete_notes id) st =
  match rejects st (S (S (clock st))) with
  | Some e =>
      (Some (json 500 (Message "Server error")),
       advance (set_bucket (delete (Note.fileKey n) (bucket st))
         (advance (emit [EvBlobDelete (Note.fileKey n)] (advance st)))))
  | None =>
      (Some (json 200 (Message "Note deleted")),
       emit (removed KNote (has_id Note._id id (notes (committed st))))
         (set_committed
            (set_notes
               (remove_first (fun x => String.eqb (Note._id x) id)
                  (notes (committed st))) (committed st))
            (advance (set_bucket (delete (Note.fileKey n) (bucket st))
              (advance (emit [EvBlobDelete (Note.fileKey n)]
                (advance st)))))))
  end.
Proof.
  intros Hc Hfind H0 H1.
  unfold run, Admin.delete_notes, try_catch.
  rewrite !casting_ok by (simpl; by rewrite Hc).
  unfold Note_findById, query,
    deleteFile, deleteS3Object, Note_findByIdAndDelete, update,
    await_call, bind, ret, respond.
  rewrite H0. simpl. rewrite Hfind. simpl. rewrite H1. simpl.
  destruct (rejects st (S (S (clock st)))); reflexivity.
Qed.

(** DELETE /admin/notes/:id of an identifier that casts, as the [_id] of
    a stored Note does, when every call is answered: the Note and
    its blob are gone and the Faculty collection is as it was, so a list
    of uploads that named the Note now names a Note that does not exist. *)
Theorem admin_note_delete_keeps_ledger id st n :
  castable id = true ->
  find_first (fun x => String.eqb (Note._id x) id)
    (notes (committed st)) = Some n ->
  NoDup (map Note._id (notes (committed st))) ->
  (forall i, i < 3 -> rejects st (clock st + i) = None) ->
  (run (delete_notes id) st).1
    = Some (json 200 (Message "Note deleted")) /\
  (id ∉ map Note._id
          (notes (committed (run (delete_notes id) st).2))) /\
  bucket (run (delete_notes id) st).2 !! Note.fileKey n = None /\
  faculty (committed (run (delete_notes id) st).2)
    = faculty (committed st) /\
  ((exists f, f ∈ faculty (committed st) /\ id ∈ Faculty.uploadedNotes f) ->
   ledger_ok (committed (run (delete_notes id) st).2) = false).
Proof.
  intros Hc Hfind Hnd Hrej.
  pose proof (Hrej 0 ltac:(lia)) as H0. pose proof (Hrej 1 ltac:(lia)) as H1.
  pose proof (Hrej 2 ltac:(lia)) as H2.
  rewrite Nat.add_0_r in H0.
  replace (clock st + 1) with (S (clock st)) in H1 by lia.
  replace (clock st + 2) with (S (S (clock st))) in H2 by lia.
  rewrite (admin_delete_notes_run id st n Hc Hfind H0 H1), H2.
  cbn [fst snd committed bucket emit set_committed set_bucket advance
       notes set_notes faculty].
  assert (Habs : id ∉ map Note._id
            (remove_first (fun x => String.eqb (Note._id x) id)
               (notes (committed st))))
    by (by apply (remove_first_absent Note._id)).
  split; [reflexivity|]. split; [exact Habs|].
  split; [apply lookup_delete_eq|]. split; [reflexivity|].
  intros (f & Hf & Hl). unfold ledger_ok.
  cbn [faculty notes set_notes].
  destruct (forallb _ (faculty (committed st))) eqn:Hall; [|reflexivity].
  exfalso. rewrite forallb_forall in Hall.
  specialize (Hall f (proj1 (list_elem_of_In _ _) Hf)).
  rewrite forallb_forall in Hall.
  specialize (Hall id (proj1 (list_elem_of_In _ _) Hl)).
  apply existsb_exists in Hall as (m & Hm & Heq).
  apply String.eqb_eq in Heq. apply Habs.
  apply list_elem_of_In in Hm. rewrite <- Heq at 1.
  by apply (list_elem_of_fmap_2 Note._id).
Qed.

(** DELETE /admin/notes/:id of an identifier that casts deletes the blob
    first: when the deletion of
    the Note then rejects, the route answers 500, the Note is still in the
    store and its blob is gone. *)
Theorem admin_note_delete_blob_goes_first id st n e :
  castable id = true ->
  find_first (fun x => String.eqb (Note._id x) id)
    (notes (committed st)) = Some n ->
  rejects st (clock st) = None ->
  rejects st (S (clock st)) = None ->
  rejects st (S (S (clock st))) = Some e ->
  (run (delete_notes id) st).1
    = Some (json 500 (Message "Server error")) /\
  n ∈ notes (committed (run (delete_notes id) st).2) /\
  bucket (run (delete_notes id) st).2 !! Note.fileKey n = None.
Proof.
  intros Hc Hfind H0 H1 H2.
  rewrite (admin_delete_notes_run id st n Hc Hfind H0 H1), H2.
  destruct (find_first_some _ _ _ Hfind) as [_ Hin]. simpl.
  split; [reflexivity|]. split; [exact Hin | apply lookup_delete_eq].
Qed.
End NoteDelete.

Lemma note_delete_pulls_ledger_witness :
  let st := Sample.world Sample.db0 Sample.never in
  (run (SampleDriver.delete_note "n1") st).1
    = Some (json 200 (Message "Note deleted successfully")) /\
  bucket (run (SampleDriver.delete_note "n1") st).2
    !! Note.fileKey Sample.note1 = None.
Proof.
  intros st.
  assert (Hnd : NoDup (map Note._id (notes (committed st))))
    by (apply (bool_decide_unpack _); vm_compute; exact I).
  destruct (note_delete_pulls_ledger SampleDriver.castable
              SampleDriver.castError "n1" st Sample.note1)
    as (Hr & _ & _ & _ & Hb);
    [reflexivity | reflexivity | discriminate | exact Hnd | reflexivity |].
  split; [exact Hr | exact Hb].
Defined.

Lemma note_delete_blob_goes_first_witness :
  let st := Sample.world Sample.db0 (Sample.at_call 2) in
  (run (SampleDriver.delete_note "n1") st).1
    = Some (json 500 (MessageError "Delete failed" "ECONNRESET")) /\
  Sample.note1 ∈ notes (committed (run (SampleDriver.delete_note "n1") st).2).
Proof.
  intros st.
  destruct (note_delete_blob_goes_first SampleDriver.castable
              SampleDriver.castError "n1" st Sample.note1 "ECONNRESET")
    as (Hr & Hn & _);
    [reflexivity | reflexivity | discriminate | reflexivity | reflexivity
    | left; reflexivity |].
  split; [exact Hr | exact Hn].
Defined.

Lemma admin_note_delete_keeps_ledger_witness :
  let st := Sample.world Sample.db0 Sample.never in
  ledger_ok (committed (run (SampleDriver.delete_notes "n1") st).2) = false.
Proof.
  intros st.
  assert (Hnd : NoDup (map Note._id (notes (committed st))))
    by (apply (bool_decide_unpack _); vm_compute; exact I).
  destruct (admin_note_delete_keeps_ledger SampleDriver.castable
              SampleDriver.castError "n1" st Sample.note1)
    as (_ & _ & _ & _ & Hl);
    [reflexivity | reflexivity | exact Hnd | reflexivity |].
  apply Hl. exists Sample.fac1. split.
  - simpl. rewrite !elem_of_cons. auto.
  - simpl. rewrite !elem_of_cons. auto.
Defined.

Lemma admin_note_delete_blob_goes_first_witness :
  let st := Sample.world Sample.db0 (Sample.at_call 2) in
  Sample.note1
    ∈ notes (committed (run (SampleDriver.delete_notes "n1") st).2) /\
  bucket (run (SampleDriver.delete_notes "n1") st).2
    !! Note.fileKey Sample.note1 = None.
Proof.
  intros st.
  destruct (admin_note_delete_blob_goes_first SampleDriver.castable
              SampleDriver.castError "n1" st Sample.note1 "ECONNRESET")
    as (_ & Hn & Hb);
    [reflexivity | reflexivity | reflexivity | reflexivity | reflexivity |].
  split; [exact Hn | exact Hb].
Defined.

(** ** The frame of a cascade *)

#[local] Instance shrunk_preorder : PreOrder shrunk.
Proof.
  split.
  - intros d. by repeat split.
  - intros d1 d2 d3 (Hr1 & Hb1 & Hs1 & Hn1 & Hf1) (Hr2 & Hb2 & Hs2 & Hn2 & Hf2).
    repeat split; try (etrans; eauto); congruence.
Qed.

#[local] Instance framed_preorder : PreOrder framed.
Proof.
  split.
  - intros st. split; [done|]. split.
    + exists []. split; [by rewrite app_nil_r|].
      intros k [b Hb] Hn. congruence.
    + intros H. split; [exact H | reflexivity].
  - intros st1 st2 st3 (Hb1 & (e1 & Ht1 & Hk1) & Hs1)
      (Hb2 & (e2 & Ht2 & Hk2) & Hs2). split; [by etrans|]. split.
    + exists (e1 ++ e2)%list. split; [by rewrite Ht2, Ht1, app_assoc|].
      intros k Hk Hn. apply elem_of_app.
      destruct (bucket st2 !! k) as [b|] eqn:Hb.
      * right. apply Hk2; [by rewrite Hb | exact Hn].
      * left. by apply Hk1.
    + intros H1. destruct (Hs1 H1) as [H2 Hc1].
      destruct (Hs2 H2) as [H3 Hc2]. split; [exact H3 | by etrans].
Qed.

Lemma framed_same st st' :
  bucket st' = bucket st -> trace st' = trace st ->
  committed st' = committed st -> session st' = session st ->
  framed st st'.
Proof.
  intros Hb Ht Hc Hs. unfold framed, in_sync. rewrite Hb, Ht, Hc, Hs.
  split; [done|]. split.
  - exists []. split; [by rewrite app_nil_r|].
    intros k [b Hk] Hn; simpl in *; congruence.
  - intros H. split; [exact H | reflexivity].
Qed.

Lemma framed_await : steps framed await_call.
Proof.
  intros st. unfold await_call.
  destruct (rejects st (clock st)); (split; [by apply framed_same | exact I]).
Qed.

Lemma framed_query {A} v (q : Db -> A) : steps framed (query v q).
Proof.
  intros st. unfold query, await_call. rewrite bind_run.
  destruct (rejects st (clock st)); (split; [by apply framed_same | exact I]).
Qed.

(** An update in the transaction that only takes records out. *)
Lemma framed_update f evs :
  (forall d, shrunk d (f d)) -> steps framed (update InSession f evs).
Proof.
  intros Hf st. unfold update, await_call. rewrite bind_run.
  destruct (rejects st (clock st)); simpl;
    (split; [|exact I]); [by apply framed_same|].
  split; [done|]. split.
  - eexists. split; [reflexivity|]. intros k [b Hk] Hn; simpl in *; congruence.
  - unfold in_sync. simpl. intros H. split; [|reflexivity].
    etrans; [exact H | apply Hf].
Qed.

Lemma framed_deleteFile key : steps framed (deleteFile key).
Proof.
  intros st. unfold deleteFile, deleteS3Object, await_call.
  rewrite !bind_run. simpl.
  destruct (rejects st (clock st)); simpl; (split; [|exact I]).
  - split; [done|]. split.
    + eexists. split; [reflexivity|]. intros k [b Hk] Hn; simpl in *; congruence.
    + intros H. split; [exact H | reflexivity].
  - split; [apply delete_subseteq|]. split.
    + eexists. split; [reflexivity|]. intros k Hk Hn.
      destruct (decide (k = key)) as [->|Hne]; [by left|].
      simpl in Hn. rewrite lookup_delete_ne in Hn by done.
      destruct Hk as [b Hk]. simpl in Hk. congruence.
    + intros H. split; [exact H | reflexivity].
Qed.

Lemma framed_commit : steps framed commitTransaction.
Proof.
  intros st. unfold commitTransaction, await_call. rewrite bind_run.
  destruct (rejects st (clock st)); simpl;
    (split; [|exact I]); [by apply framed_same|].
  split; [done|]. split.
  - eexists. split; [reflexivity|]. intros k [b Hk] Hn; simpl in *; congruence.
  - unfold in_sync. simpl. intros H. split; [reflexivity | exact H].
Qed.

Lemma framed_abort : steps framed abortTransaction.
Proof.
  intros st. unfold abortTransaction, await_call. rewrite bind_run.
  destruct (rejects st (clock st)); simpl;
    (split; [|exact I]); [by apply framed_same|].
  split; [done|]. split.
  - eexists. split; [reflexivity|]. intros k [b Hk] Hn; simpl in *; congruence.
  - intros H. split; [exact H | reflexivity].
Qed.

Lemma steps_try_catch {A} (R : St -> St -> Prop) `{!Transitive R}
    (body : M A) (handler : string -> M A) :
  steps R body -> (forall e, steps R (handler e)) ->
  steps R (try_catch body handler).
Proof.
  intros Hb Hh st. specialize (Hb st). unfold try_catch.
  destruct (body st) as [[a|e|r] st']; simpl in *; try exact Hb.
  destruct Hb as [Hb _]. specialize (Hh e st') as [Hh Hr].
  split; [etrans; eauto | exact Hr].
Qed.

Lemma remove_first_subseteq {A} (p : A -> bool) (l : list A) :
  remove_first p l ⊆ l.
Proof.
  induction l as [|x l IH]; simpl; [done|].
  destruct (p x); [intros y Hy; by right|].
  intros y Hy. apply elem_of_cons in Hy as [->|Hy]; [by left|].
  right. by apply IH.
Qed.

Create HintDb frame_steps.
#[local] Hint Resolve framed_await framed_query framed_deleteFile
  framed_commit framed_abort : frame_steps.
#[local] Hint Extern 1 (steps framed (update InSession _ _)) =>
  apply framed_update; intros; unfold shrunk; simpl;
  repeat split;
  first [ reflexivity | apply drop_matching_subseteq
        | apply remove_first_subseteq ] : frame_steps.
#[local] Hint Extern 1 (steps framed (ret _)) =>
  apply steps_ret; apply _ : frame_steps.
#[local] Hint Extern 1 (steps framed (respond _)) =>
  apply steps_respond; [apply _ | simpl; discriminate] : frame_steps.
#[local] Hint Extern 2 (steps framed (bind _ _)) =>
  apply steps_bind; [apply _ | | intros ?] : frame_steps.
#[local] Hint Extern 2 (steps framed (for_of _ _)) =>
  apply steps_for_of; [apply _ | intros ? _] : frame_steps.
#[local] Hint Extern 2 (steps framed (try_catch _ _)) =>
  apply steps_try_catch; [apply _ | | intros ?] : frame_steps.
#[local] Hint Extern 3 (steps framed (if ?c then _ else _)) =>
  destruct c : frame_steps.
#[local] Hint Extern 3 (steps framed (match ?c with _ => _ end)) =>
  destruct c : frame_steps.

Ltac frame_steps :=
  unfold Note_find, Note_deleteMany, Note_findById, Note_findByIdAndDelete,
    Subject_find, Subject_deleteMany, Subject_findById,
    Subject_findByIdAndDelete, Branch_find, Branch_deleteMany,
    Branch_findById, Branch_findByIdAndDelete, Regulation_findById,
    Regulation_findByIdAndDelete;
  auto 30 with frame_steps.

Lemma cascade_framed isValid kind id :
  exists rest,
    deleteHierarchy isValid kind id = (startSession ;;; rest) /\
    steps framed rest.
Proof.
  destruct kind; simpl; (eexists; split; [reflexivity|]); frame_steps.
Qed.

(** Whatever its outcome, a cascade creates and changes no record and
    leaves the Faculty collection alone; it adds and changes no blob, and
    a blob that is gone had its deletion issued during the call. *)
Theorem cascade_frame isValid kind id st :
  shrunk (committed st)
    (committed (run (deleteHierarchy isValid kind id) st).2) /\
  bucket (run (deleteHierarchy isValid kind id) st).2 ⊆ bucket st /\
  (forall k, is_Some (bucket st !! k) ->
     bucket (run (deleteHierarchy isValid kind id) st).2 !! k = None ->
     EvBlobDelete k
       ∈ events_since st (run (deleteHierarchy isValid kind id) st).2).
Proof.
  destruct (cascade_framed isValid kind id) as (rest & -> & Hrest).
  assert (Hsync : forall s, session s = committed s -> in_sync s)
    by (intros s Hs; unfold in_sync; rewrite Hs; reflexivity).
  unfold run, startSession, await_call in *. rewrite !bind_run in *.
  destruct (rejects st (clock st)) as [e|]; simpl in *.
  { split; [reflexivity|]. split; [done|].
    intros k [b Hk] Hn; simpl in *; congruence. }
  specialize (Hrest (set_session (committed st) (advance st))) as [H _].
  destruct (rest _) as [[r|e|r] st1]; simpl in *;
    destruct H as (Hb & (evs & Ht & Hk) & Hs);
    (split; [apply Hs, Hsync; reflexivity|]); (split; [exact Hb|]);
    intros k Hin Hn; rewrite (events_since_app st st1 evs Ht); by apply Hk.
Qed.

(** ** Blobs after a successful cascade *)

Lemma swept_await t0 :
  triple (swept t0) await_call (fun _ => swept t0) refused.
Proof.
  intros st H. unfold await_call.
  destruct (rejects st (clock st)); [exact I | exact H].
Qed.

Lemma swept_query {A} t0 v (q : Db -> A) :
  triple (swept t0) (query v q) (fun _ => swept t0) refused.
Proof.
  intros st H. unfold query, await_call. rewrite bind_run.
  destruct (rejects st (clock st)); [exact I | exact H].
Qed.

Lemma swept_emit t0 evs st :
  (forall k, EvBlobDelete k ∉ evs) -> swept t0 st -> swept t0 (emit evs st).
Proof.
  intros Hn (e0 & Ht & Hk). exists (e0 ++ evs)%list. simpl. split.
  - by rewrite Ht, app_assoc.
  - intros k Hin. apply elem_of_app in Hin as [Hin|Hin]; [by apply Hk|].
    by destruct (Hn k).
Qed.

Lemma not_blob_removed k kind ids : EvBlobDelete k ∉ removed kind ids.
Proof.
  unfold removed. intros H. apply list_elem_of_fmap in H as (x & Hx & _).
  discriminate.
Qed.

Lemma swept_update t0 v f evs :
  (forall d k, EvBlobDelete k ∉ evs d) ->
  triple (swept t0) (update v f evs) (fun _ => swept t0) refused.
Proof.
  intros Hn st H. unfold update, await_call. rewrite bind_run.
  destruct (rejects st (clock st)); [exact I|]. simpl.
  apply swept_emit; [apply Hn|].
  destruct H as (e0 & Ht & Hk). exists e0. by destruct v.
Qed.

Lemma swept_deleteFile t0 key :
  triple (swept t0) (deleteFile key) (fun _ => swept t0) refused.
Proof.
  intros st (e0 & Ht & Hk). unfold deleteFile, deleteS3Object, await_call.
  rewrite !bind_run. simpl.
  destruct (rejects st (clock st)); [exact I|]. simpl.
  exists (e0 ++ [EvBlobDelete key])%list. simpl. split.
  - by rewrite Ht, app_assoc.
  - intros k Hin. apply lookup_delete_None.
    apply elem_of_app in Hin as [Hin|Hin]; [right; by apply Hk|].
    left. apply list_elem_of_singleton in Hin. congruence.
Qed.

Lemma swept_commit t0 :
  triple (swept t0) commitTransaction (fun _ => swept t0) refused.
Proof.
  intros st H. unfold commitTransaction, await_call. rewrite bind_run.
  destruct (rejects st (clock st)); [exact I|]. simpl.
  apply swept_emit.
  - intros k Hin. apply list_elem_of_singleton in Hin. discriminate.
  - destruct H as (e0 & Ht & Hk). by exists e0.
Qed.

Ltac sweep :=
  cbv beta;
  lazymatch goal with
  | |- triple (swept ?t) (bind _ _) _ _ =>
      apply triple_bind with (R := fun _ => swept t);
      [sweep | intros ?; sweep]
  | |- triple (swept _) (for_of _ _) _ _ =>
      apply triple_for_each; intros ? _; sweep
  | |- triple (swept _) (if ?c then _ else _) _ _ => destruct c; sweep
  | |- triple (swept _) (match ?c with _ => _ end) _ _ => destruct c; sweep
  | |- triple (swept _) (ret _) _ _ => apply triple_ret; intros ? H; exact H
  | |- triple (swept _) (respond _) _ _ =>
      apply triple_respond; intros ? _; simpl; discriminate
  | |- triple (swept _) (query _ _) _ _ => apply swept_query
  | |- triple (swept _) (update _ _ _) _ _ =>
      apply swept_update; intros; apply not_blob_removed
  | |- triple (swept _) (deleteFile _) _ _ => apply swept_deleteFile
  | |- triple (swept _) commitTransaction _ _ => apply swept_commit
  end.

Lemma cascade_swept isValid kind id t0 :
  exists body msg,
    deleteHierarchy isValid kind id =
      (startSession ;;;
       try_catch body
         (fun _ => abortTransaction ;;; ret (json 500 (Message msg)))) /\
    triple (swept t0) body (fun _ => swept t0) refused.
Proof.
  destruct kind; simpl;
    (eexists; eexists; split; [reflexivity|]);
    unfold Note_find, Note_deleteMany, Subject_find, Subject_deleteMany,
      Subject_findById, Subject_findByIdAndDelete, Branch_find,
      Branch_deleteMany, Branch_findById, Branch_findByIdAndDelete,
      Regulation_findById, Regulation_findByIdAndDelete;
    sweep.
Qed.

Lemma success_swept isValid kind id st :
  succeeded kind (run (deleteHierarchy isValid kind id) st).1 ->
  swept (trace st) (run (deleteHierarchy isValid kind id) st).2.
Proof.
  destruct (cascade_swept isValid kind id (trace st))
    as (body & msg & -> & Hbody).
  unfold run, startSession, await_call. rewrite !bind_run.
  destruct (rejects st (clock st)) as [e|]; simpl; [discriminate|].
  unfold try_catch.
  assert (H0 : swept (trace st) (set_session (committed st) (advance st))).
  { exists []. simpl. split; [by rewrite app_nil_r|].
    intros k Hk. by apply not_elem_of_nil in Hk. }
  specialize (Hbody _ H0).
  destruct (body _) as [[r|e|r] st1]; simpl in *.
  - intros _. exact Hbody.
  - unfold abortTransaction, await_call. rewrite !bind_run.
    destruct (rejects st1 (clock st1)); simpl; discriminate.
  - intros Hs. exfalso. by apply (refusal_not_succeeded kind r).
Qed.

(** After a successful cascade, every blob whose deletion was issued
    during the call is gone from the bucket. *)
Theorem cascade_success_sweeps isValid kind id st k :
  succeeded kind (run (deleteHierarchy isValid kind id) st).1 ->
  EvBlobDelete k
    ∈ events_since st (run (deleteHierarchy isValid kind id) st).2 ->
  bucket (run (deleteHierarchy isValid kind id) st).2 !! k = None.
Proof.
  intros Hs Hin.
  destruct (success_swept isValid kind id st Hs) as (evs & Ht & Hk).
  rewrite (events_since_app _ _ _ Ht) in Hin. by apply Hk.
Qed.

Lemma cascade_success_sweeps_witness :
  bucket (run (deleteHierarchy Sample.valid BranchRoot "b1")
            (Sample.world Sample.db0 Sample.never)).2
    !! "uploads/1_A.pdf" = None.
Proof.
  apply cascade_success_sweeps.
  - reflexivity.
  - match goal with |- _ ∈ ?l =>
      let l' := eval vm_compute in l in change l with l' end.
    rewrite !elem_of_cons. auto.
Defined.

(** ** What a successful cascade on a branch or a subject leaves *)

Lemma has_id_found {A} (get : A -> string) id (l : list A) :
  is_Some (find_first (fun x => String.eqb (get x) id) l) ->
  has_id get id l = [id].
Proof. unfold has_id. by intros [x ->]. Qed.

Lemma branch_effect_walk isValid id d0 t0 (r200 : Response) :
  triple (on_body (fresh d0 t0))
    ((if negb (isValid id)
      then respond (json 400 (Message "Invalid ID")) else ret tt) ;;;
     branch <~ Branch_findById InSession id ;;
     (if branch is None
      then respond (json 404 (Message "Branch not found"))
      else ret tt) ;;;
     branchNotes <~ Note_find InSession (ByBranch id) ;;
     for_of branchNotes (fun note => deleteFile (Note.fileKey note)) ;;;
     Note_deleteMany InSession (ByBranch id) ;;;
     Subject_deleteMany InSession id ;;;
     Branch_findByIdAndDelete InSession id ;;;
     commitTransaction ;;;
     ret r200)
    (fun r => on_body (fun d t =>
       d = set_branches
             (remove_first (fun x => String.eqb (Branch._id x) id)
                (branches d0))
             (set_subjects (drop_matching (subject_in id) (subjects d0))
                (set_notes
                   (drop_matching (note_matches (ByBranch id)) (notes d0))
                   d0)) /\
       t = (t0 ++ blob_events (keep (note_matches (ByBranch id)) (notes d0))
               ++ removed KNote
                    (map Note._id
                       (keep (note_matches (ByBranch id)) (notes d0)))
               ++ removed KSubject
                    (map Subject._id (keep (subject_in id) (subjects d0)))
               ++ [EvRemove KBranch id; EvCommit])%list))
    (fun r => on_body (passes r)).
Proof.
  eapply triple_bind with (R := fun _ => on_body (fresh d0 t0)).
  { destruct (negb (isValid id)).
    - apply triple_respond. intros s _. unfold on_body, passes. simpl. lia.
    - apply triple_ret. by intros s H. }
  intros _. eapply triple_bind.
  { unfold Branch_findById. apply body_query. by intros. }
  intros branch.
  eapply triple_bind with
    (R := fun _ => on_body (fun d t => fresh d0 t0 d t /\
            is_Some (find_first (fun b => String.eqb (Branch._id b) id)
                       (branches d0)))).
  { destruct branch as [b|].
    - apply triple_ret. intros s [[Hd Ht] Hb]. unfold on_body in *.
      split; [done|]. rewrite <- Hd, <- Hb. by eexists.
    - apply triple_respond. intros s _. unfold on_body, passes. simpl. lia. }
  intros _. eapply triple_purge_seq.
  { apply (body_purge _ _ (fun d t =>
      d = set_notes (drop_matching (note_matches (ByBranch id)) (notes d0))
            d0 /\
      t = (t0 ++ blob_events (keep (note_matches (ByBranch id)) (notes d0))
              ++ removed KNote
                   (map Note._id
                      (keep (note_matches (ByBranch id)) (notes d0))))%list /\
      is_Some (find_first (fun b => String.eqb (Branch._id b) id)
                 (branches d0)))).
    intros d t [[-> ->] Hb]. split; [by intros | done]. }
  eapply triple_bind.
  { unfold Subject_deleteMany.
    apply (body_update _ _ _ (fun d t =>
      d = set_subjects (drop_matching (subject_in id) (subjects d0))
            (set_notes
               (drop_matching (note_matches (ByBranch id)) (notes d0)) d0) /\
      t = (t0 ++ blob_events (keep (note_matches (ByBranch id)) (notes d0))
              ++ removed KNote
                   (map Note._id
                      (keep (note_matches (ByBranch id)) (notes d0)))
              ++ removed KSubject
                   (map Subject._id
                      (keep (subject_in id) (subjects d0))))%list /\
      is_Some (find_first (fun b => String.eqb (Branch._id b) id)
                 (branches d0)))).
    intros d t (-> & -> & Hb). split; [done|]. simpl.
    split; [done|]. split; [|done]. by rewrite <- !app_assoc. }
  intros ?. eapply triple_bind.
  { unfold Branch_findByIdAndDelete.
    apply (body_update _ _ _ (fun d t =>
      d = set_branches
            (remove_first (fun x => String.eqb (Branch._id x) id)
               (branches d0))
            (set_subjects (drop_matching (subject_in id) (subjects d0))
               (set_notes
                  (drop_matching (note_matches (ByBranch id)) (notes d0))
                  d0)) /\
      t = (t0 ++ blob_events (keep (note_matches (ByBranch id)) (notes d0))
              ++ removed KNote
                   (map Note._id
                      (keep (note_matches (ByBranch id)) (notes d0)))
              ++ removed KSubject
                   (map Subject._id (keep (subject_in id) (subjects d0)))
              ++ [EvRemove KBranch id])%list)).
    intros d t (-> & -> & Hb). split; [done|]. simpl.
    split; [done|]. rewrite (has_id_found _ _ _ Hb). simpl.
    by rewrite <- !app_assoc. }
  intros ?. eapply triple_conseq;
    [ apply body_commit | intros ? H; exact H | | intros ? ? H; exact H ].
  - by intros.
  - intros r s (_ & t' & Ht & Hd & Hx). unfold on_body.
    rewrite Hd, Ht, Hx. split; [done|]. by rewrite <- !app_assoc.
Qed.

Lemma subject_effect_walk isValid id d0 t0 (r200 : Response) :
  triple (on_body (fresh d0 t0))
    ((if negb (isValid id)
      then respond (json 400 (Message "Invalid ID")) else ret tt) ;;;
     subject <~ Subject_findById InSession id ;;
     (if subject is None
      then respond (json 404 (Message "Subject not found"))
      else ret tt) ;;;
     notes <~ Note_find InSession (BySubject id) ;;
     for_of notes (fun note => deleteFile (Note.fileKey note)) ;;;
     Note_deleteMany InSession (BySubject id) ;;;
     Subject_findByIdAndDelete InSession id ;;;
     commitTransaction ;;;
     ret r200)
    (fun r => on_body (fun d t =>
       d = set_subjects
             (remove_first (fun x => String.eqb (Subject._id x) id)
                (subjects d0))
             (set_notes
                (drop_matching (note_matches (BySubject id)) (notes d0))
                d0) /\
       t = (t0 ++ blob_events (keep (note_matches (BySubject id)) (notes d0))
               ++ removed KNote
                    (map Note._id
                       (keep (note_matches (BySubject id)) (notes d0)))
               ++ [EvRemove KSubject id; EvCommit])%list))
    (fun r => on_body (passes r)).
Proof.
  eapply triple_bind with (R := fun _ => on_body (fresh d0 t0)).
  { destruct (negb (isValid id)).
    - apply triple_respond. intros s _. unfold on_body, passes. simpl. lia.
    - apply triple_ret. by intros s H. }
  intros _. eapply triple_bind.
  { unfold Subject_findById. apply body_query. by intros. }
  intros subject.
  eapply triple_bind with
    (R := fun _ => on_body (fun d t => fresh d0 t0 d t /\
            is_Some (find_first (fun b => String.eqb (Subject._id b) id)
                       (subjects d0)))).
  { destruct subject as [b|].
    - apply triple_ret. intros s [[Hd Ht] Hb]. unfold on_body in *.
      split; [done|]. rewrite <- Hd, <- Hb. by eexists.
    - apply triple_respond. intros s _. unfold on_body, passes. simpl. lia. }
  intros _. eapply triple_purge_seq.
  { apply (body_purge _ _ (fun d t =>
      d = set_notes (drop_matching (note_matches (BySubject id)) (notes d0))
            d0 /\
      t = (t0 ++ blob_events (keep (note_matches (BySubject id)) (notes d0))
              ++ removed KNote
                   (map Note._id
                      (keep (note_matches (BySubject id)) (notes d0))))%list /\
      is_Some (find_first (fun b => String.eqb (Subject._id b) id)
                 (subjects d0)))).
    intros d t [[-> ->] Hb]. split; [by intros | done]. }
  eapply triple_bind.
  { unfold Subject_findByIdAndDelete.
    apply (body_update _ _ _ (fun d t =>
      d = set_subjects
            (remove_first (fun x => String.eqb (Subject._id x) id)
               (subjects d0))
            (set_notes
               (drop_matching (note_matches (BySubject id)) (notes d0))
               d0) /\
      t = (t0 ++ blob_events (keep (note_matches (BySubject id)) (notes d0))
              ++ removed KNote
                   (map Note._id
                      (keep (note_matches (BySubject id)) (notes d0)))
              ++ [EvRemove KSubject id])%list)).
    intros d t (-> & -> & Hb). split; [done|]. simpl.
    split; [done|]. rewrite (has_id_found _ _ _ Hb). simpl.
    by rewrite <- !app_assoc. }
  intros ?. eapply triple_conseq;
    [ apply body_commit | intros ? H; exact H | | intros ? ? H; exact H ].
  - by intros.
  - intros r s (_ & t' & Ht & Hd & Hx). unfold on_body.
    rewrite Hd, Ht, Hx. split; [done|]. by rewrite <- !app_assoc.
Qed.

Lemma branch_success isValid id st :
  succeeded BranchRoot (run (deleteHierarchy isValid BranchRoot id) st).1 ->
  committed (run (deleteHierarchy isValid BranchRoot id) st).2
    = set_branches
        (remove_first (fun x => String.eqb (Branch._id x) id)
           (branches (committed st)))
        (set_subjects
           (drop_matching (subject_in id) (subjects (committed st)))
           (set_notes
              (drop_matching (note_matches (ByBranch id))
                 (notes (committed st)))
              (committed st))) /\
  events_since st (run (deleteHierarchy isValid BranchRoot id) st).2
    = (blob_events (keep (note_matches (ByBranch id)) (notes (committed st)))
         ++ removed KNote
              (map Note._id
                 (keep (note_matches (ByBranch id)) (notes (committed st))))
         ++ removed KSubject
              (map Subject._id
                 (keep (subject_in id) (subjects (committed st))))
         ++ [EvRemove KBranch id; EvCommit])%list.
Proof.
  intros Hs. rewrite (success_committed _ _ _ _ Hs).
  destruct (run _ st) as [r st'] eqn:Hrun. simpl in *.
  unfold Admin.delete_branches in Hrun.
  eapply success_run in Hrun;
    [ | apply branch_effect_walk | exact Hs ].
  destruct Hrun as (r' & Hd & Ht). split; [exact Hd|].
  by apply events_since_app.
Qed.

Lemma subject_success isValid id st :
  succeeded SubjectRoot (run (deleteHierarchy isValid SubjectRoot id) st).1 ->
  committed (run (deleteHierarchy isValid SubjectRoot id) st).2
    = set_subjects
        (remove_first (fun x => String.eqb (Subject._id x) id)
           (subjects (committed st)))
        (set_notes
           (drop_matching (note_matches (BySubject id))
              (notes (committed st)))
           (committed st)) /\
  events_since st (run (deleteHierarchy isValid SubjectRoot id) st).2
    = (blob_events (keep (note_matches (BySubject id)) (notes (committed st)))
         ++ removed KNote
              (map Note._id
                 (keep (note_matches (BySubject id)) (notes (committed st))))
         ++ [EvRemove KSubject id; EvCommit])%list.
Proof.
  intros Hs. rewrite (success_committed _ _ _ _ Hs).
  destruct (run _ st) as [r st'] eqn:Hrun. simpl in *.
  unfold Admin.delete_subjects in Hrun.
  eapply success_run in Hrun;
    [ | apply subject_effect_walk | exact Hs ].
  destruct Hrun as (r' & Hd & Ht). split; [exact Hd|].
  by apply events_since_app.
Qed.

Lemma blob_event_of n ns (tail : list Event) :
  n ∈ ns -> EvBlobDelete (Note.fileKey n) ∈ (blob_events ns ++ tail)%list.
Proof.
  intros Hn. apply elem_of_app. left. unfold blob_events.
  by apply (list_elem_of_fmap_2 (fun n => EvBlobDelete (Note.fileKey n))).
Qed.

(** A successful DELETE /admin/branches/:id leaves the Notes that do not
    name the branch, the Subjects that do not, the Branches but the first
    with that [_id], and the Regulations and Faculty as they were.  It
    issued the blob deletions first, then removed the Notes, the Subjects
    and the Branch, and committed; the blobs of the removed Notes are gone. *)
Theorem branch_cascade_effect isValid id st :
  succeeded BranchRoot (run (deleteHierarchy isValid BranchRoot id) st).1 ->
  notes (committed (run (deleteHierarchy isValid BranchRoot id) st).2)
    = drop_matching (note_matches (ByBranch id)) (notes (committed st)) /\
  subjects (committed (run (deleteHierarchy isValid BranchRoot id) st).2)
    = drop_matching (subject_in id) (subjects (committed st)) /\
  branches (committed (run (deleteHierarchy isValid BranchRoot id) st).2)
    = remove_first (fun x => String.eqb (Branch._id x) id)
        (branches (committed st)) /\
  regulations (committed (run (deleteHierarchy isValid BranchRoot id) st).2)
    = regulations (committed st) /\
  faculty (committed (run (deleteHierarchy isValid BranchRoot id) st).2)
    = faculty (committed st) /\
  events_since st (run (deleteHierarchy isValid BranchRoot id) st).2
    = (blob_events (keep (note_matches (ByBranch id)) (notes (committed st)))
         ++ removed KNote
              (map Note._id
                 (keep (note_matches (ByBranch id)) (notes (committed st))))
         ++ removed KSubject
              (map Subject._id
                 (keep (subject_in id) (subjects (committed st))))
         ++ [EvRemove KBranch id; EvCommit])%list /\
  (forall n, n ∈ notes (committed st) -> Note.branch n = id ->
     bucket (run (deleteHierarchy isValid BranchRoot id) st).2
       !! Note.fileKey n = None).
Proof.
  intros Hs. destruct (branch_success isValid id st Hs) as [Hd Ht].
  rewrite Hd. simpl. repeat (split; [reflexivity|]).
  split; [exact Ht|]. intros n Hn Hb.
  destruct (success_swept isValid BranchRoot id st Hs) as (evs & He & Hk).
  apply Hk. rewrite <- (events_since_app _ _ _ He), Ht.
  apply blob_event_of, elem_of_keep. split; [|exact Hn].
  simpl. by apply String.eqb_eq.
Qed.

(** A successful DELETE /admin/subjects/:id leaves the Notes that do not
    name the subject, the Subjects but the first with that [_id], and
    everything else as it was.  It issued the blob deletions first, then
    removed the Notes and the Subject, and committed; the blobs of the
    removed Notes are gone. *)
Theorem subject_cascade_effect isValid id st :
  succeeded SubjectRoot (run (deleteHierarchy isValid SubjectRoot id) st).1 ->
  notes (committed (run (deleteHierarchy isValid SubjectRoot id) st).2)
    = drop_matching (note_matches (BySubject id)) (notes (committed st)) /\
  subjects (committed (run (deleteHierarchy isValid SubjectRoot id) st).2)
    = remove_first (fun x => String.eqb (Subject._id x) id)
        (subjects (committed st)) /\
  branches (committed (run (deleteHierarchy isValid SubjectRoot id) st).2)
    = branches (committed st) /\
  regulations (committed (run (deleteHierarchy isValid SubjectRoot id) st).2)
    = regulations (committed st) /\
  faculty (committed (run (deleteHierarchy isValid SubjectRoot id) st).2)
    = faculty (committed st) /\
  events_since st (run (deleteHierarchy isValid SubjectRoot id) st).2
    = (blob_events (keep (note_matches (BySubject id)) (notes (committed st)))
         ++ removed KNote
              (map Note._id
                 (keep (note_matches (BySubject id)) (notes (committed st))))
         ++ [EvRemove KSubject id; EvCommit])%list /\
  (forall n, n ∈ notes (committed st) -> Note.subject n = id ->
     bucket (run (deleteHierarchy isValid SubjectRoot id) st).2
       !! Note.fileKey n = None).
Proof.
  intros Hs. destruct (subject_success isValid id st Hs) as [Hd Ht].
  rewrite Hd. simpl. repeat (split; [reflexivity|]).
  split; [exact Ht|]. intros n Hn Hb.
  destruct (success_swept isValid SubjectRoot id st Hs) as (evs & He & Hk).
  apply Hk. rewrite <- (events_since_app _ _ _ He), Ht.
  apply blob_event_of, elem_of_keep. split; [|exact Hn].
  simpl. by apply String.eqb_eq.
Qed.

(** The cascade on a branch removes Notes by their [branch] field only:
    a Note filed under one of the branch's Subjects but naming another
    branch stays, and then names a Subject that is gone. *)
Theorem branch_cascade_leaves_strays isValid id st n s :
  succeeded BranchRoot (run (deleteHierarchy isValid BranchRoot id) st).1 ->
  n ∈ notes (committed st) ->
  s ∈ subjects (committed st) ->
  Note.subject n = Subject._id s ->
  Subject.branch s = id ->
  Note.branch n <> id ->
  n ∈ notes (committed (run (deleteHierarchy isValid BranchRoot id) st).2) /\
  s ∉ subjects (committed (run (deleteHierarchy isValid BranchRoot id) st).2).
Proof.
  intros Hs Hn Hsub _ Hb Hne.
  destruct (branch_success isValid id st Hs) as [Hd _].
  rewrite Hd. simpl. split.
  - apply elem_of_drop_matching. split; [|exact Hn].
    simpl. by apply String.eqb_neq.
  - intros Hin. apply elem_of_drop_matching in Hin as [Hf _].
    unfold subject_in in Hf. apply String.eqb_neq in Hf. done.
Qed.

Lemma branch_cascade_effect_witness :
  notes (committed
           (run (deleteHierarchy Sample.valid BranchRoot "b1")
              (Sample.world Sample.db0 Sample.never)).2)
    = [Sample.note2] /\
  bucket (run (deleteHierarchy Sample.valid BranchRoot "b1")
            (Sample.world Sample.db0 Sample.never)).2
    !! "uploads/1_A.pdf" = None.
Proof.
  destruct (branch_cascade_effect Sample.valid "b1"
              (Sample.world Sample.db0 Sample.never))
    as (Hn & _ & _ & _ & _ & _ & Hb); [reflexivity|].
  split; [exact Hn|].
  apply (Hb Sample.note1); [|reflexivity].
  simpl. rewrite !elem_of_cons. auto.
Defined.

Lemma subject_cascade_effect_witness :
  notes (committed
           (run (deleteHierarchy Sample.valid SubjectRoot "s2")
              (Sample.world Sample.db0 Sample.never)).2)
    = [Sample.note1] /\
  subjects (committed
              (run (deleteHierarchy Sample.valid SubjectRoot "s2")
                 (Sample.world Sample.db0 Sample.never)).2)
    = [Sample.sub1].
Proof.
  destruct (subject_cascade_effect Sample.valid "s2"
              (Sample.world Sample.db0 Sample.never))
    as (Hn & Hs & _); [reflexivity|].
  split; [exact Hn | exact Hs].
Defined.

Lemma branch_cascade_leaves_strays_witness :
  Sample3.misfiled
    ∈ notes (committed
               (run (deleteHierarchy Sample.valid BranchRoot "b1")
                  (Sample.world Sample3.db3 Sample.never)).2) /\
  Sample.sub1
    ∉ subjects (committed
                  (run (deleteHierarchy Sample.valid BranchRoot "b1")
                     (Sample.world Sample3.db3 Sample.never)).2).
Proof.
  apply (branch_cascade_leaves_strays Sample.valid "b1"
           (Sample.world Sample3.db3 Sample.never)
           Sample3.misfiled Sample.sub1).
  - reflexivity.
  - simpl. rewrite !elem_of_cons. auto.
  - simpl. rewrite !elem_of_cons. auto.
  - reflexivity.
  - reflexivity.
  - discriminate.
Defined.

(** ** What a cascade on a regulation spares *)

Lemma existsb_elem {A} (p : A -> bool) (l : list A) x :
  x ∈ l -> p x = true -> existsb p l = true.
Proof.
  intros Hx Hp. apply existsb_exists. exists x.
  split; [by apply list_elem_of_In | exact Hp].
Qed.

Lemma refs_by_regulation d0 rid n :
  note_matches (ByRegulation rid) n = true -> note_refs d0 rid n = true.
Proof. unfold note_refs. simpl. by intros ->. Qed.

Lemma refs_by_branch d0 rid b n :
  b ∈ branches_of d0 rid ->
  note_matches (ByBranch (Branch._id b)) n = true ->
  note_refs d0 rid n = true.
Proof.
  intros Hb Hm. unfold note_refs.
  rewrite (existsb_elem _ _ b Hb Hm). by rewrite orb_true_r.
Qed.

Lemma refs_by_subject d0 rid s n :
  s ∈ subjects_of d0 rid ->
  note_matches (BySubject (Subject._id s)) n = true ->
  note_refs d0 rid n = true.
Proof.
  intros Hs Hm. unfold note_refs.
  rewrite (existsb_elem _ _ s Hs Hm). by rewrite orb_true_r.
Qed.

Lemma subject_of_branch d0 rid b s :
  b ∈ branches_of d0 rid -> subject_in (Branch._id b) s = true ->
  subject_refs d0 rid s = true.
Proof. intros Hb Hs. by apply (existsb_elem _ _ b). Qed.

Lemma spared_start d0 rid : spared d0 rid d0.
Proof. by repeat split. Qed.

Lemma spared_purge d0 rid f d :
  (forall n, note_matches f n = true -> note_refs d0 rid n = true) ->
  spared d0 rid d ->
  spared d0 rid (set_notes (drop_matching (note_matches f) (notes d)) d).
Proof.
  intros Hf (Hfa & Hn & Hs & Hkn & Hks). unfold spared. simpl.
  split; [exact Hfa|]. split; [|split; [exact Hs|split; [|exact Hks]]].
  - etrans; [apply drop_matching_subseteq | exact Hn].
  - intros n Hin Hr. apply elem_of_drop_matching. split; [|by apply Hkn].
    destruct (note_matches f n) eqn:Hm; [|done].
    rewrite (Hf n Hm) in Hr. discriminate.
Qed.

Lemma spared_subjects d0 rid bid d :
  (forall s, subject_in bid s = true -> subject_refs d0 rid s = true) ->
  spared d0 rid d ->
  spared d0 rid
    (set_subjects (drop_matching (subject_in bid) (subjects d)) d).
Proof.
  intros Hf (Hfa & Hn & Hs & Hkn & Hks). unfold spared. simpl.
  split; [exact Hfa|]. split; [exact Hn|]. split; [|split; [exact Hkn|]].
  - etrans; [apply drop_matching_subseteq | exact Hs].
  - intros s Hin Hr. apply elem_of_drop_matching. split; [|by apply Hks].
    destruct (subject_in bid s) eqn:Hm; [|done].
    rewrite (Hf s Hm) in Hr. discriminate.
Qed.

Lemma regulation_spare_walk isValid id d0 t0 (r200 : Response) :
  triple (on_body (fresh d0 t0))
    ((if negb (isValid id)
      then respond (json 400 (Message "Invalid ID")) else ret tt) ;;;
     regulation <~ Regulation_findById InSession id ;;
     (if regulation is None
      then respond (json 404 (Message "Regulation not found"))
      else ret tt) ;;;
     notes <~ Note_find InSession (ByRegulation id) ;;
     for_of notes (fun note => deleteFile (Note.fileKey note)) ;;;
     Note_deleteMany InSession (ByRegulation id) ;;;
     branches <~ Branch_find InSession id ;;
     for_of branches (fun branch =>
       branchNotes <~ Note_find InSession (ByBranch (Branch._id branch)) ;;
       for_of branchNotes (fun note => deleteFile (Note.fileKey note)) ;;;
       Note_deleteMany InSession (ByBranch (Branch._id branch)) ;;;
       subjects <~ Subject_find InSession (Branch._id branch) ;;
       for_of subjects (fun subject =>
         subjectNotes <~
           Note_find InSession (BySubject (Subject._id subject)) ;;
         for_of subjectNotes (fun note => deleteFile (Note.fileKey note)) ;;;
         Note_deleteMany InSession (BySubject (Subject._id subject))) ;;;
       Subject_deleteMany InSession (Branch._id branch)) ;;;
     Branch_deleteMany InSession id ;;;
     Regulation_findByIdAndDelete InSession id ;;;
     commitTransaction ;;;
     ret r200)
    (fun r => on_body (fun d t =>
       spared d0 id d /\
       branches d = drop_matching (branch_in id) (branches d0)))
    (fun r => on_body (passes r)).
Proof.
  eapply triple_bind with (R := fun _ => on_body (fresh d0 t0)).
  { destruct (negb (isValid id)).
    - apply triple_respond. intros s _. unfold on_body, passes. simpl. lia.
    - by apply triple_ret. }
  intros _. eapply triple_bind.
  { unfold Regulation_findById. apply body_query. by intros. }
  intros regulation.
  eapply triple_bind with (R := fun _ => on_body (fresh d0 t0)).
  { destruct regulation.
    - apply triple_ret. by intros s [H _].
    - apply triple_respond. intros s _. unfold on_body, passes. simpl. lia. }
  intros _. eapply triple_purge_seq.
  { apply (body_purge _ _
             (fun d t => spared d0 id d /\ branches d = branches d0)).
    intros d t [-> ->]. split; [by intros|]. split; [|done].
    apply spared_purge; [apply refs_by_regulation | apply spared_start]. }
  eapply triple_bind.
  { unfold Branch_find. apply body_query. by intros. }
  intros bs.
  eapply triple_conseq with
    (P := fun s => bs = branches_of d0 id /\
                   on_body (fun d t => spared d0 id d /\
                                       branches d = branches d0) s);
    [ | | intros ? ? H; exact H | intros ? ? H; exact H ]; cycle 1.
  { intros s [[Hsp Hb] ->]. split; [|by split].
    unfold branches_of. by rewrite Hb. }
  apply triple_pure. intros Hbs.
  eapply triple_bind.
  { apply triple_for_each. intros b Hb. rewrite Hbs in Hb.
    eapply triple_purge_seq.
    { apply (body_purge _ _
               (fun d t => spared d0 id d /\ branches d = branches d0)).
      intros d t [Hsp Hbr]. split; [by intros|]. split; [|done].
      apply spared_purge; [|exact Hsp]. intros n. by apply refs_by_branch. }
    eapply triple_bind.
    { unfold Subject_find. apply body_query. by intros. }
    intros ss.
    eapply triple_conseq with
      (P := fun s => ss ⊆ subjects_of d0 id /\
                     on_body (fun d t => spared d0 id d /\
                                         branches d = branches d0) s);
      [ | | intros ? ? H; exact H | intros ? ? H; exact H ]; cycle 1.
    { intros s [[Hsp Hbr] ->]. split; [|by split].
      intros x Hx. apply elem_of_keep in Hx as [Hin Hx].
      apply elem_of_keep. destruct Hsp as (_ & _ & Hsub & _).
      split; [by apply (subject_of_branch _ _ b) | by apply Hsub]. }
    apply triple_pure. intros Hss.
    eapply triple_bind.
    { apply triple_for_each. intros s Hs. apply Hss in Hs.
      apply body_purge. intros d t [Hsp Hbr]. split; [by intros|].
      split; [|done]. apply spared_purge; [|exact Hsp].
      intros n. by apply refs_by_subject. }
    intros ?. unfold Subject_deleteMany. apply body_update.
    intros d t [Hsp Hbr]. split; [done|]. split; [|done].
    apply spared_subjects; [|exact Hsp].
    intros s. by apply subject_of_branch. }
  intros ?.
  eapply triple_bind.
  { unfold Branch_deleteMany.
    apply (body_update _ _ _
             (fun d t => spared d0 id d /\
                branches d = drop_matching (branch_in id) (branches d0))).
    intros d t [Hsp Hbr]. split; [done|]. split; [exact Hsp|].
    simpl. by rewrite Hbr. }
  intros ?.
  eapply triple_bind.
  { unfold Regulation_findByIdAndDelete.
    apply (body_update _ _ _
             (fun d t => spared d0 id d /\
                branches d = drop_matching (branch_in id) (branches d0))).
    intros d t H. split; [done | exact H]. }
  intros ?. eapply triple_conseq;
    [ apply body_commit | intros ? H; exact H | | intros ? ? H; exact H ].
  - by intros.
  - intros r s (_ & t' & _ & H). exact H.
Qed.

Lemma regulation_spared isValid id st :
  succeeded RegulationRoot
    (run (deleteHierarchy isValid RegulationRoot id) st).1 ->
  spared (committed st) id
    (committed (run (deleteHierarchy isValid RegulationRoot id) st).2) /\
  branches (committed (run (deleteHierarchy isValid RegulationRoot id) st).2)
    = drop_matching (branch_in id) (branches (committed st)).
Proof.
  intros Hs. rewrite (success_committed _ _ _ _ Hs).
  destruct (run _ st) as [r st'] eqn:Hrun. simpl in *.
  unfold Admin.delete_regulations in Hrun.
  eapply success_run in Hrun;
    [ | apply regulation_spare_walk | exact Hs ].
  by destruct Hrun as (r' & H).
Qed.

Lemma keep_nil_elem {A} (p : A -> bool) (l : list A) x :
  keep p l = [] -> x ∈ l -> p x = false.
Proof.
  intros Hk Hx. destruct (p x) eqn:Hp; [|done].
  assert (Hin : x ∈ keep p l) by (by apply elem_of_keep).
  rewrite Hk in Hin. by apply not_elem_of_nil in Hin.
Qed.

(** Whatever its outcome, the cascade on a regulation removes no Note,
    Subject or Branch outside the hierarchy of that regulation. *)
Theorem regulation_cascade_spares isValid id st :
  (forall n, n ∈ notes (committed st) ->
     note_refs (committed st) id n = false ->
     n ∈ notes
           (committed
              (run (deleteHierarchy isValid RegulationRoot id) st).2)) /\
  (forall s, s ∈ subjects (committed st) ->
     subject_refs (committed st) id s = false ->
     s ∈ subjects
           (committed
              (run (deleteHierarchy isValid RegulationRoot id) st).2)) /\
  (forall b, b ∈ branches (committed st) ->
     Branch.regulation b <> id ->
     b ∈ branches
           (committed
              (run (deleteHierarchy isValid RegulationRoot id) st).2)).
Proof.
  destruct (cascade_run isValid RegulationRoot id st)
    as (evs & _ & [(Hs & _) | (_ & Hc & _)]).
  - destruct (regulation_spared isValid id st Hs)
      as [(_ & _ & _ & Hn & Hsub) Hb].
    split; [exact Hn|]. split; [exact Hsub|].
    intros b Hin Hne. rewrite Hb. apply elem_of_drop_matching.
    split; [|exact Hin]. by apply String.eqb_neq.
  - rewrite Hc. auto.
Qed.

(** After a successful cascade on regulation [id], the store holds the
    Notes and the Subjects of before that are outside the hierarchy of
    the regulation and no others, the Branches of other regulations, in
    their order, the Regulations but the first with that [_id], and the
    Faculty collection as it was. *)
Theorem regulation_cascade_effect isValid id st :
  succeeded RegulationRoot
    (run (deleteHierarchy isValid RegulationRoot id) st).1 ->
  (forall n,
     n ∈ notes
           (committed (run (deleteHierarchy isValid RegulationRoot id) st).2)
     <-> n ∈ notes (committed st) /\
         note_refs (committed st) id n = false) /\
  (forall s,
     s ∈ subjects
           (committed (run (deleteHierarchy isValid RegulationRoot id) st).2)
     <-> s ∈ subjects (committed st) /\
         subject_refs (committed st) id s = false) /\
  branches (committed (run (deleteHierarchy isValid RegulationRoot id) st).2)
    = drop_matching (branch_in id) (branches (committed st)) /\
  regulations
    (committed (run (deleteHierarchy isValid RegulationRoot id) st).2)
    = remove_first (fun x => String.eqb (Regulation._id x) id)
        (regulations (committed st)) /\
  faculty (committed (run (deleteHierarchy isValid RegulationRoot id) st).2)
    = faculty (committed st).
Proof.
  intros Hs.
  destruct (regulation_spared isValid id st Hs)
    as [(Hf & Hn & Hsub & Hkn & Hks) Hb].
  destruct (regulation_success isValid id st Hs)
    as (t' & _ & Hr & (_ & Hcs & Hcn & _)).
  split; [|split; [|auto]].
  - intros n. split.
    + intros Hin. split; [by apply Hn|]. by apply (keep_nil_elem _ _ _ Hcn).
    + intros [Hin Hrf]. by apply Hkn.
  - intros s. split.
    + intros Hin. split; [by apply Hsub|]. by apply (keep_nil_elem _ _ _ Hcs).
    + intros [Hin Hrf]. by apply Hks.
Qed.

Lemma regulation_cascade_effect_witness :
  (Sample.stray
     ∉ notes (committed
                (run (deleteHierarchy Sample.valid RegulationRoot "r1")
                   (Sample.world Sample.db1 Sample.never)).2)) /\
  regulations
    (committed
       (run (deleteHierarchy Sample.valid RegulationRoot "r1")
          (Sample.world Sample.db1 Sample.never)).2) = [Sample.reg2].
Proof.
  destruct (regulation_cascade_effect Sample.valid "r1"
              (Sample.world Sample.db1 Sample.never))
    as (Hn & _ & _ & Hr & _); [reflexivity|].
  split; [|exact Hr].
  intros Hin. apply Hn in Hin as [_ Hrf]. discriminate.
Defined.

(** ** The writes of the faculty routes *)

Lemma find_first_absent {A} (get : A -> string) id (l : list A) :
  find_first (fun x => String.eqb (get x) id) l = None -> id ∉ map get l.
Proof.
  induction l as [|x l IH]; simpl; intros H; [apply not_elem_of_nil|].
  destruct (String.eqb_spec (get x) id) as [Heq|Hne]; [discriminate|].
  intros Hin. apply elem_of_cons in Hin as [Heq|Hin]; [congruence|].
  by apply IH.
Qed.

Lemma run_try_catch (body : M Response) (r500 : Response) st
    (Q : Response -> St -> Prop) (E : option Response -> St -> Prop) :
  triple (fun s => s = st) body Q E ->
  match (run (try_catch body (fun _ => ret r500)) st).1 with
  | Some r =>
      Q r (run (try_catch body (fun _ => ret r500)) st).2 \/
      E (Some r) (run (try_catch body (fun _ => ret r500)) st).2 \/
      (r = r500 /\ E None (run (try_catch body (fun _ => ret r500)) st).2)
  | None => False
  end.
Proof.
  intros H. specialize (H st eq_refl). unfold run, try_catch.
  destruct (body st) as [[r|e|r] st']; simpl; auto.
Qed.

Lemma post_faculty_body h newObjectId Date_now b st :
  triple (fun s => s = st)
    ((if Admin.falsy (Admin.b_name b) || Admin.falsy (Admin.b_email b)
         || Admin.falsy (Admin.b_password b)
         || Admin.falsy (Admin.b_employeeId b)
         || Admin.falsy (Admin.b_designation b)
      then respond (json 400 (Message "Required fields missing"))
      else ret tt) ;;;
     byEmail <~ Admin.Faculty_findOne
                  (fun f => String.eqb (Faculty.email f) (Admin.b_email b)) ;;
     (if byEmail is Some _
      then respond (json 400 (Message "Email already exists"))
      else ret tt) ;;;
     byEmployeeId <~ Admin.Faculty_findOne
                  (fun f => String.eqb (Faculty.employeeId f)
                              (Admin.b_employeeId b)) ;;
     (if byEmployeeId is Some _
      then respond (json 400 (Message "Employee ID already exists"))
      else ret tt) ;;;
     saved <~ Admin.Faculty_create newObjectId Date_now
                (Admin.b_name b) (Admin.b_email b) (h (Admin.b_password b))
                (Admin.b_employeeId b) (Admin.b_designation b) ;;
     ret (json 201
            (FacultyDoc (delete "password" (Admin.toObject saved)))))
    (fun r s => exists doc,
       r = json 201 (FacultyDoc (delete "password" (Admin.toObject doc))) /\
       created h b (committed st) doc (committed s))
    (left_alone (committed st) 201).
Proof.
  eapply triple_bind with
    (R := fun _ s =>
            (Admin.b_name b <> "" /\ Admin.b_email b <> "" /\
             Admin.b_password b <> "" /\ Admin.b_employeeId b <> "" /\
             Admin.b_designation b <> "") /\
            committed s = committed st).
  { unfold Admin.falsy.
    destruct (String.eqb_spec (Admin.b_name b) "");
      [apply triple_respond; intros s ->; split; [done | simpl; lia]|].
    destruct (String.eqb_spec (Admin.b_email b) "");
      [apply triple_respond; intros s ->; split; [done | simpl; lia]|].
    destruct (String.eqb_spec (Admin.b_password b) "");
      [apply triple_respond; intros s ->; split; [done | simpl; lia]|].
    destruct (String.eqb_spec (Admin.b_employeeId b) "");
      [apply triple_respond; intros s ->; split; [done | simpl; lia]|].
    destruct (String.eqb_spec (Admin.b_designation b) "");
      [apply triple_respond; intros s ->; split; [done | simpl; lia]|].
    simpl. apply triple_ret. by intros s ->. }
  intros _. apply triple_pure. intros (Hn & He & Hp & Hi & Hd).
  eapply triple_bind with
    (R := fun a s => committed s = committed st /\
            a = find_first
                  (fun f => String.eqb (Faculty.email f) (Admin.b_email b))
                  (faculty (committed st))).
  { unfold Admin.Faculty_findOne. apply triple_query. intros s Hs. simpl.
    rewrite Hs. by repeat split. }
  intros byEmail. eapply triple_bind with
    (R := fun _ s =>
            (Admin.b_email b ∉ map Faculty.email (faculty (committed st))) /\
            committed s = committed st).
  { destruct byEmail.
    - apply triple_respond. intros s [Hs _]. split; [done | simpl; lia].
    - apply triple_ret. intros s [Hs Hf]. split; [|done].
      by apply find_first_absent. }
  intros _. apply triple_pure. intros Hfe.
  eapply triple_bind with
    (R := fun a s => committed s = committed st /\
            a = find_first
                  (fun f => String.eqb (Faculty.employeeId f)
                              (Admin.b_employeeId b))
                  (faculty (committed st))).
  { unfold Admin.Faculty_findOne. apply triple_query. intros s Hs. simpl.
    rewrite Hs. by repeat split. }
  intros byId. eapply triple_bind with
    (R := fun _ s =>
            (Admin.b_employeeId b
               ∉ map Faculty.employeeId (faculty (committed st))) /\
            committed s = committed st).
  { destruct byId.
    - apply triple_respond. intros s [Hs _]. split; [done | simpl; lia].
    - apply triple_ret. intros s [Hs Hf]. split; [|done].
      by apply find_first_absent. }
  intros _. apply triple_pure. intros Hfi.
  eapply triple_bind with
    (R := fun doc s => created h b (committed st) doc (committed s)).
  { unfold Admin.Faculty_create.
    eapply triple_bind with (R := fun _ s => committed s = committed st).
    - apply triple_await. intros s Hs. by repeat split.
    - intros _ s Hs. simpl. rewrite Hs. unfold created. simpl.
      by repeat split. }
  intros doc. apply triple_ret. intros s H. by exists doc.
Qed.

Lemma post_faculty_run h newObjectId Date_now b st :
  (exists doc,
     (run (Admin.post_faculty h newObjectId Date_now b) st).1
       = Some (json 201
                 (FacultyDoc (delete "password" (Admin.toObject doc)))) /\
     created h b (committed st) doc
       (committed (run (Admin.post_faculty h newObjectId Date_now b) st).2))
  \/
  (left_alone (committed st) 201
     (run (Admin.post_faculty h newObjectId Date_now b) st).1
     (run (Admin.post_faculty h newObjectId Date_now b) st).2 /\
   (run (Admin.post_faculty h newObjectId Date_now b) st).1 <> None).
Proof.
  pose proof (run_try_catch _ (json 500 (Message "Server error")) st _ _
                (post_faculty_body h newObjectId Date_now b st)) as H.
  unfold Admin.post_faculty. cbv zeta.
  destruct (run _ st) as [[r|] st'] eqn:Hrun; simpl in *; [|done].
  destruct H as [(doc & -> & Hc) | [H | [-> [Hc _]]]].
  - left. by exists doc.
  - right. done.
  - right. split; [|done]. split; [done | simpl; lia].
Qed.

(** POST /admin/faculty answers 201 exactly when it has added one
    Faculty document: it is the last of the collection, it has the name,
    the e-mail address, the employee id and the designation of the body,
    the hash of the password of the body and no uploads; the five fields of
    the body are not empty and no document had that e-mail address or that
    employee id.  With any other answer the store is as before. *)
Theorem post_faculty_effect h newObjectId Date_now b st :
  match (run (Admin.post_faculty h newObjectId Date_now b) st).1 with
  | Some r =>
      if Nat.eqb (status r) 201
      then exists doc,
             r = json 201
                   (FacultyDoc (delete "password" (Admin.toObject doc))) /\
             created h b (committed st) doc
               (committed
                  (run (Admin.post_faculty h newObjectId Date_now b) st).2)
      else committed (run (Admin.post_faculty h newObjectId Date_now b) st).2
             = committed st
  | None => False
  end.
Proof.
  destruct (post_faculty_run h newObjectId Date_now b st)
    as [(doc & Hr & Hc) | [[Hc Hs] Hn]].
  - rewrite Hr. simpl. by exists doc.
  - destruct (run _ st).1 as [r|]; [|done].
    destruct (Nat.eqb_spec (status r) 201); [done | exact Hc].
Qed.

(** POST /admin/faculty keeps e-mail addresses and employee ids unique,
    whatever its outcome. *)
Theorem post_faculty_keeps_unique h newObjectId Date_now b st :
  unique_faculty (committed st) ->
  unique_faculty
    (committed (run (Admin.post_faculty h newObjectId Date_now b) st).2).
Proof.
  intros [He Hi].
  destruct (post_faculty_run h newObjectId Date_now b st)
    as [(doc & _ & Hc) | [[Hc _] _]]; [|by rewrite Hc].
  destruct Hc as (-> & _ & Hde & Hdi & _ & _ & _ & _ & _ & _ & _ & _
                  & Hfe & Hfi).
  unfold unique_faculty. simpl. rewrite !map_app. simpl.
  rewrite Hde, Hdi. split.
  - apply NoDup_app. split; [exact He|]. split; [|apply NoDup_singleton].
    intros x Hx Hx'. apply list_elem_of_singleton in Hx'. by subst.
  - apply NoDup_app. split; [exact Hi|]. split; [|apply NoDup_singleton].
    intros x Hx Hx'. apply list_elem_of_singleton in Hx'. by subst.
Qed.

Lemma post_faculty_keeps_unique_witness :
  unique_faculty
    (committed
       (run (Admin.post_faculty (fun p => "#" ++ p) Sample.newId Sample.now
               (Admin.mkFacultyBody "Ravi" "ravi@example.org" "pw" "E2"
                  "Lecturer"))
          (Sample.world Sample.db0 Sample.never)).2).
Proof.
  apply post_faculty_keeps_unique.
  split; apply (bool_decide_unpack _); vm_compute; exact I.
Defined.

Lemma find_first_all_false {A} (p : A -> bool) (l : list A) x :
  find_first p l = None -> x ∈ l -> p x = false.
Proof.
  induction l as [|y l IH]; simpl; intros H Hx.
  - by apply not_elem_of_nil in Hx.
  - destruct (p y) eqn:Hp; [discriminate|].
    apply elem_of_cons in Hx as [->|Hx]; [exact Hp | by apply IH].
Qed.

Lemma put_faculty_body isValid h id b st :
  triple (fun s => s = st)
    ((if negb (isValid id)
      then respond (json 400 (Message "Invalid ID")) else ret tt) ;;;
     found <~ Admin.Faculty_findOne
                (fun f => String.eqb (Faculty._id f) id) ;;
     match found with
     | None => respond (json 404 (Message "Faculty not found"))
     | Some faculty =>
         faculty <~
           (if negb (Admin.falsy (Admin.b_email b))
               && negb (String.eqb (Admin.b_email b) (Faculty.email faculty))
            then
              emailExists <~ Admin.Faculty_findOne (fun f =>
                String.eqb (Faculty.email f) (Admin.b_email b)
                && negb (String.eqb (Faculty._id f) id)) ;;
              if emailExists is Some _
              then respond (json 400 (Message "Email already exists"))
              else ret (Admin.with_email (Admin.b_email b) faculty)
            else ret faculty) ;;
         faculty <~
           (if negb (Admin.falsy (Admin.b_employeeId b))
               && negb (String.eqb (Admin.b_employeeId b)
                          (Faculty.employeeId faculty))
            then
              empExists <~ Admin.Faculty_findOne (fun f =>
                String.eqb (Faculty.employeeId f) (Admin.b_employeeId b)
                && negb (String.eqb (Faculty._id f) id)) ;;
              if empExists is Some _
              then respond (json 400 (Message "Employee ID already exists"))
              else ret (Admin.with_employeeId (Admin.b_employeeId b) faculty)
            else ret faculty) ;;
         let faculty :=
           if negb (Admin.falsy (Admin.b_name b))
           then Admin.with_name (Admin.b_name b) faculty else faculty in
         let faculty :=
           if negb (Admin.falsy (Admin.b_designation b))
           then Admin.with_designation (Admin.b_designation b) faculty
           else faculty in
         let faculty :=
           if negb (Admin.falsy (Admin.b_password b))
           then Admin.with_password (h (Admin.b_password b)) faculty
           else faculty in
         updated <~ Admin.Faculty_save faculty ;;
         ret (json 200
                (FacultyDoc (delete "password" (Admin.toObject updated))))
     end)
    (fun r s => exists f doc,
       r = json 200 (FacultyDoc (delete "password" (Admin.toObject doc))) /\
       edited h id b (committed st) f doc (committed s))
    (left_alone (committed st) 200).
Proof.
  eapply triple_bind with (R := fun _ s => committed s = committed st).
  { destruct (negb (isValid id)).
    - apply triple_respond. intros s ->. split; [done | simpl; lia].
    - apply triple_ret. by intros s ->. }
  intros _. eapply triple_bind with
    (R := fun a s =>
            a = find_first (fun f => String.eqb (Faculty._id f) id)
                  (faculty (committed st)) /\
            committed s = committed st).
  { unfold Admin.Faculty_findOne. apply triple_query. intros s Hs. simpl.
    rewrite Hs. by repeat split. }
  intros [f|]; cycle 1.
  { apply triple_respond. intros s [_ Hs]. split; [done | simpl; lia]. }
  apply triple_pure. intros Hf. symmetry in Hf.
  pose proof (find_first_some _ _ _ Hf) as [Hfid Hfin].
  apply String.eqb_eq in Hfid.
  eapply triple_bind with
    (R := fun f1 s =>
            (Faculty._id f1 = id /\
             Faculty.uploadedNotes f1 = Faculty.uploadedNotes f /\
             Faculty.createdAt f1 = Faculty.createdAt f /\
             Faculty.name f1 = Faculty.name f /\
             Faculty.employeeId f1 = Faculty.employeeId f /\
             Faculty.designation f1 = Faculty.designation f /\
             Faculty.password f1 = Faculty.password f /\
             Faculty.email f1
               = (if Admin.falsy (Admin.b_email b) then Faculty.email f
                  else Admin.b_email b) /\
             (forall g, g ∈ faculty (committed st) ->
                Faculty.email g = Faculty.email f1 ->
                Faculty.email f1 <> Faculty.email f -> Faculty._id g = id)) /\
            committed s = committed st).
  { unfold Admin.falsy.
    destruct (String.eqb_spec (Admin.b_email b) "") as [He|He]; simpl.
    { apply triple_ret. intros s Hs. by repeat split. }
    destruct (String.eqb_spec (Admin.b_email b) (Faculty.email f))
      as [He'|He']; simpl.
    { apply triple_ret. intros s Hs. by repeat split. }
    eapply triple_bind with
      (R := fun a s =>
              a = find_first (fun f0 =>
                    String.eqb (Faculty.email f0) (Admin.b_email b)
                    && negb (String.eqb (Faculty._id f0) id))
                    (faculty (committed st)) /\
              committed s = committed st).
    { unfold Admin.Faculty_findOne. apply triple_query. intros s Hs. simpl.
      rewrite Hs. by repeat split. }
    intros [g|].
    - apply triple_respond. intros s [_ Hs]. split; [done | simpl; lia].
    - apply triple_ret. intros s [Hnone Hs]. symmetry in Hnone.
      split; [|done]. simpl. repeat split; try done.
      intros g Hg Heq _.
      pose proof (find_first_all_false _ _ g Hnone Hg) as Hp. simpl in Hp.
      apply String.eqb_eq in Heq. rewrite Heq in Hp. simpl in Hp.
      apply negb_false_iff in Hp. by apply String.eqb_eq. }
  intros f1. apply triple_pure.
  intros (H1id & H1u & H1c & H1n & H1e & H1d & H1p & H1m & H1x).
  eapply triple_bind with
    (R := fun f2 s =>
            (Faculty._id f2 = id /\
             Faculty.uploadedNotes f2 = Faculty.uploadedNotes f /\
             Faculty.createdAt f2 = Faculty.createdAt f /\
             Faculty.name f2 = Faculty.name f /\
             Faculty.email f2 = Faculty.email f1 /\
             Faculty.designation f2 = Faculty.designation f /\
             Faculty.password f2 = Faculty.password f /\
             Faculty.employeeId f2
               = (if Admin.falsy (Admin.b_employeeId b)
                  then Faculty.employeeId f else Admin.b_employeeId b) /\
             (forall g, g ∈ faculty (committed st) ->
                Faculty.employeeId g = Faculty.employeeId f2 ->
                Faculty.employeeId f2 <> Faculty.employeeId f ->
                Faculty._id g = id)) /\
            committed s = committed st).
  { unfold Admin.falsy.
    destruct (String.eqb_spec (Admin.b_employeeId b) "") as [He|He]; simpl.
    { apply triple_ret. intros s Hs. by repeat split. }
    destruct (String.eqb_spec (Admin.b_employeeId b)
                (Faculty.employeeId f1)) as [He'|He']; simpl.
    { apply triple_ret. intros s Hs. split; [|done].
      repeat split; try done; congruence. }
    eapply triple_bind with
      (R := fun a s =>
              a = find_first (fun f0 =>
                    String.eqb (Faculty.employeeId f0) (Admin.b_employeeId b)
                    && negb (String.eqb (Faculty._id f0) id))
                    (faculty (committed st)) /\
              committed s = committed st).
    { unfold Admin.Faculty_findOne. apply triple_query. intros s Hs. simpl.
      rewrite Hs. by repeat split. }
    intros [g|].
    - apply triple_respond. intros s [_ Hs]. split; [done | simpl; lia].
    - apply triple_ret. intros s [Hnone Hs]. symmetry in Hnone.
      split; [|done]. simpl. repeat split; try done.
      intros g Hg Heq _.
      pose proof (find_first_all_false _ _ g Hnone Hg) as Hp. simpl in Hp.
      apply String.eqb_eq in Heq. rewrite Heq in Hp. simpl in Hp.
      apply negb_false_iff in Hp. by apply String.eqb_eq. }
  intros f2. apply triple_pure.
  intros (H2id & H2u & H2c & H2n & H2m & H2d & H2p & H2e & H2x).
  cbv zeta.
  eapply triple_bind with
    (R := fun doc s => edited h id b (committed st) f doc (committed s)).
  { unfold Admin.Faculty_save.
    eapply triple_bind with (R := fun _ s => committed s = committed st).
    - apply triple_await. intros s Hs. by repeat split.
    - intros _ s Hs. simpl. rewrite Hs. unfold edited, Admin.falsy in *.
      split; [exact Hf|]. split; [reflexivity|].
      destruct (String.eqb (Admin.b_name b) "");
        destruct (String.eqb (Admin.b_designation b) "");
        destruct (String.eqb (Admin.b_password b) ""); simpl;
        rewrite ?H2id, ?H2u, ?H2c, ?H2n, ?H2m, ?H2d, ?H2p, ?H2e;
        repeat split; try done;
        intros g Hg Heq Hne; first [by apply H1x; congruence
                                   | by apply H2x; congruence]. }
  intros doc. apply triple_ret. intros s H. by exists f, doc.
Qed.

Lemma put_faculty_run isValid h id b st :
  (exists f doc,
     (run (Admin.put_faculty isValid h id b) st).1
       = Some (json 200
                 (FacultyDoc (delete "password" (Admin.toObject doc)))) /\
     edited h id b (committed st) f doc
       (committed (run (Admin.put_faculty isValid h id b) st).2))
  \/
  (left_alone (committed st) 200
     (run (Admin.put_faculty isValid h id b) st).1
     (run (Admin.put_faculty isValid h id b) st).2 /\
   (run (Admin.put_faculty isValid h id b) st).1 <> None).
Proof.
  pose proof (run_try_catch _ (json 500 (Message "Server error")) st _ _
                (put_faculty_body isValid h id b st)) as H.
  unfold Admin.put_faculty.
  destruct (run _ st) as [[r|] st'] eqn:Hrun; simpl in *; [|done].
  destruct H as [(f & doc & -> & Hc) | [H | [-> [Hc _]]]].
  - left. by exists f, doc.
  - right. done.
  - right. split; [|done]. split; [done | simpl; lia].
Qed.

(** PUT /admin/faculty/:id answers 200 exactly when it has written one
    Faculty document in the place of the first with that [_id]: the
    document keeps its [_id], its uploads and its creation time; each of
    name, e-mail address, employee id and designation is the one of the
    body when the body gives it and the one of before otherwise, the
    password is the hash of the one of the body or the hash of before; a
    new e-mail address or employee id was that of no other [_id].  With any
    other answer the store is as before. *)
Theorem put_faculty_effect isValid h id b st :
  match (run (Admin.put_faculty isValid h id b) st).1 with
  | Some r =>
      if Nat.eqb (status r) 200
      then exists f doc,
             r = json 200
                   (FacultyDoc (delete "password" (Admin.toObject doc))) /\
             edited h id b (committed st) f doc
               (committed (run (Admin.put_faculty isValid h id b) st).2)
      else committed (run (Admin.put_faculty isValid h id b) st).2
             = committed st
  | None => False
  end.
Proof.
  destruct (put_faculty_run isValid h id b st)
    as [(f & doc & Hr & Hc) | [[Hc Hs] Hn]].
  - rewrite Hr. simpl. by exists f, doc.
  - destruct (run _ st).1 as [r|]; [|done].
    destruct (Nat.eqb_spec (status r) 200); [done | exact Hc].
Qed.

Lemma map_update_first {A B} (get : A -> B) (p : A -> bool) (g : A -> A)
    (l : list A) :
  (forall x, p x = true -> get (g x) = get x) ->
  map get (update_first p g l) = map get l.
Proof.
  intros H. induction l as [|x l IH]; simpl; [done|].
  destruct (p x) eqn:Hp; simpl; [by rewrite H | by rewrite IH].
Qed.

Lemma elem_of_update_first {A} (p : A -> bool) (g : A -> A) (l : list A) y :
  y ∈ update_first p g l -> y ∈ l \/ exists x, x ∈ l /\ y = g x.
Proof.
  induction l as [|x l IH]; simpl; intros Hy.
  - by apply not_elem_of_nil in Hy.
  - destruct (p x).
    + apply elem_of_cons in Hy as [->|Hy].
      * right. exists x. split; [left | done].
      * left. by right.
    + apply elem_of_cons in Hy as [->|Hy]; [left; left|].
      destruct (IH Hy) as [H | (z & Hz & ->)]; [left; by right|].
      right. exists z. split; [by right | done].
Qed.

Lemma NoDup_elem_inj {A} (get : A -> string) (l : list A) x y :
  NoDup (map get l) -> x ∈ l -> y ∈ l -> get x = get y -> x = y.
Proof.
  induction l as [|z l IH]; simpl; intros Hnd Hx Hy Heq.
  - by apply not_elem_of_nil in Hx.
  - apply NoDup_cons in Hnd as [Hz Hnd].
    apply elem_of_cons in Hx as [->|Hx];
      apply elem_of_cons in Hy as [->|Hy]; auto.
    + exfalso. apply Hz. rewrite Heq.
      by apply (list_elem_of_fmap_2 get).
    + exfalso. apply Hz. rewrite <- Heq.
      by apply (list_elem_of_fmap_2 get).
Qed.

Lemma NoDup_update_first {A} (key get : A -> string) id doc (l : list A) :
  NoDup (map key l) -> NoDup (map get l) ->
  (forall g, g ∈ l -> get g = get doc -> key g = id) ->
  NoDup (map get
           (update_first (fun x => String.eqb (key x) id) (fun _ => doc) l)).
Proof.
  induction l as [|x l IH]; simpl; intros Hk Hg Hdoc; [constructor|].
  apply NoDup_cons in Hk as [Hkx Hk]. apply NoDup_cons in Hg as [Hgx Hg].
  destruct (String.eqb_spec (key x) id) as [Hid|Hid]; simpl.
  - apply NoDup_cons. split; [|exact Hg].
    intros Hin. apply list_elem_of_fmap in Hin as (g & Heq & Hin).
    apply Hkx. rewrite Hid, <- (Hdoc g); [|by right|done].
    by apply (list_elem_of_fmap_2 key).
  - apply NoDup_cons. split.
    + intros Hin. apply list_elem_of_fmap in Hin as (g & Heq & Hin).
      apply elem_of_update_first in Hin as [Hin | (z & Hz & ->)].
      * apply Hgx. rewrite Heq. by apply (list_elem_of_fmap_2 get).
      * apply Hid. apply Hdoc; [left | done].
    + apply IH; auto. intros g Hin. apply Hdoc. by right.
Qed.

(** PUT /admin/faculty/:id keeps e-mail addresses and employee ids
    unique when the [_id]s are, whatever its outcome, and it changes no
    [_id] and no list of uploads. *)
Theorem put_faculty_keeps_unique isValid h id b st :
  NoDup (map Faculty._id (faculty (committed st))) ->
  unique_faculty (committed st) ->
  unique_faculty
    (committed (run (Admin.put_faculty isValid h id b) st).2) /\
  map Faculty._id
    (faculty (committed (run (Admin.put_faculty isValid h id b) st).2))
    = map Faculty._id (faculty (committed st)) /\
  map Faculty.uploadedNotes
    (faculty (committed (run (Admin.put_faculty isValid h id b) st).2))
    = map Faculty.uploadedNotes (faculty (committed st)).
Proof.
  intros Hids [He Hi].
  destruct (put_faculty_run isValid h id b st)
    as [(f & doc & _ & Hc) | [[Hc _] _]]; [|by rewrite Hc].
  destruct Hc as (Hf & -> & Hid & Hu & _ & _ & _ & _ & _ & _ & Hxe & Hxi).
  destruct (find_first_some _ _ _ Hf) as [Hfid Hfin].
  apply String.eqb_eq in Hfid. simpl. rewrite Hid.
  split; [split|split].
  - apply (NoDup_update_first Faculty._id Faculty.email); auto.
    intros g Hg Heq.
    destruct (decide (Faculty.email doc = Faculty.email f)) as [Hsame|Hne];
      [|by apply Hxe].
    rewrite Hsame in Heq.
    by rewrite (NoDup_elem_inj Faculty.email _ g f He Hg Hfin Heq).
  - apply (NoDup_update_first Faculty._id Faculty.employeeId); auto.
    intros g Hg Heq.
    destruct (decide (Faculty.employeeId doc = Faculty.employeeId f))
      as [Hsame|Hne]; [|by apply Hxi].
    rewrite Hsame in Heq.
    by rewrite (NoDup_elem_inj Faculty.employeeId _ g f Hi Hg Hfin Heq).
  - apply map_update_first. intros x Hx. apply String.eqb_eq in Hx.
    congruence.
  - assert (Hall : forall l,
      (forall x, x ∈ l -> Faculty._id x = id -> x = f) ->
      map Faculty.uploadedNotes
        (update_first (fun x => String.eqb (Faculty._id x) id)
           (fun _ => doc) l) = map Faculty.uploadedNotes l).
    { induction l as [|x l IH]; simpl; intros Hl; [done|].
      destruct (String.eqb_spec (Faculty._id x) id) as [Hx|Hx]; simpl.
      - rewrite (Hl x); [by rewrite Hu | left | done].
      - rewrite IH; [done|]. intros y Hy. apply Hl. by right. }
    apply Hall. intros x Hx Hxid.
    apply (NoDup_elem_inj Faculty._id _ x f Hids Hx Hfin). congruence.
Qed.

Lemma put_faculty_keeps_unique_witness :
  unique_faculty
    (committed
       (run (Admin.put_faculty Sample.valid (fun p => "#" ++ p) "f1"
               (Admin.mkFacultyBody "" "asha@college.example" "" "" ""))
          (Sample.world Sample.db0 Sample.never)).2).
Proof.
  apply put_faculty_keeps_unique.
  - apply (bool_decide_unpack _); vm_compute; exact I.
  - split; apply (bool_decide_unpack _); vm_compute; exact I.
Defined.

(** ** Names of uploads *)

Lemma plain_dot (s ext : string) : plain (s ++ String "."%char ext) = false.
Proof.
  induction s as [|c s IH].
  - reflexivity.
  - change (plain_char c && plain (s ++ String "."%char ext) = false).
    rewrite IH. apply andb_false_r.
Qed.

(** The title of an upload is its name up to the last dot, when one or
    more characters other than a slash and a dot follow that dot. *)
Theorem strip_extension_cuts (base ext : string) :
  plain ext = true -> ext <> "" ->
  strip_extension (base ++ String "."%char ext) = base.
Proof.
  intros Hp Hne. induction base as [|c base IH].
  - change (strip_extension (String "."%char ext) = "").
    simpl. rewrite Hp. apply String.eqb_neq in Hne. by rewrite Hne.
  - change (strip_extension (String c (base ++ String "."%char ext))
            = String c base).
    simpl. rewrite plain_dot, andb_false_r. by rewrite IH.
Qed.

Lemma strip_extension_cuts_witness :
  strip_extension ("unit1.v2" ++ String "."%char "pdf") = "unit1.v2".
Proof. apply strip_extension_cuts; [reflexivity | discriminate]. Defined.

(** The title of an upload is its name, or its name is the title, a dot
    and one or more characters other than a slash and a dot. *)
Theorem strip_extension_spec (s : string) :
  strip_extension s = s \/
  exists ext, s = strip_extension s ++ String "."%char ext /\
              ext <> "" /\ plain ext = true.
Proof.
  induction s as [|c s IH]; [by left|]. simpl.
  destruct (Ascii.eqb_spec c "."%char) as [->|Hc]; simpl.
  - destruct (String.eqb_spec s "") as [->|Hs]; simpl; [by left|].
    destruct (plain s) eqn:Hp.
    + right. by exists s.
    + destruct IH as [->|(ext & Heq & Hne & Hpe)]; [by left|].
      right. exists ext. split; [|done].
      change (String "."%char s
              = String "."%char (strip_extension s ++ String "."%char ext)).
      by rewrite <- Heq.
  - destruct IH as [->|(ext & Heq & Hne & Hpe)]; [by left|].
    right. exists ext. split; [|done].
    change (String c s
            = String c (strip_extension s ++ String "."%char ext)).
    by rewrite <- Heq.
Qed.

(** ** POST /save-notes *)

Lemma push_all_nil f : push_all [] f = f.
Proof. destruct f. unfold push_all. simpl. by rewrite app_nil_r. Qed.

Lemma update_first_id {A} (p : A -> bool) (g : A -> A) (l : list A) :
  (forall x, g x = x) -> update_first p g l = l.
Proof.
  intros H. induction l as [|x l IH]; simpl; [done|].
  destruct (p x); [by rewrite H | by rewrite IH].
Qed.

Lemma pushed_nil uid l : pushed uid [] l = l.
Proof. apply update_first_id, push_all_nil. Qed.

Lemma update_first_twice {A} (p : A -> bool) (g1 g2 : A -> A) (l : list A) :
  (forall x, p (g1 x) = p x) ->
  update_first p g2 (update_first p g1 l)
    = update_first p (fun x => g2 (g1 x)) l.
Proof.
  intros H. induction l as [|x l IH]; simpl; [done|].
  destruct (p x) eqn:Hp; simpl.
  - by rewrite H, Hp.
  - by rewrite Hp, IH.
Qed.

Lemma update_first_ext {A} (p : A -> bool) (g1 g2 : A -> A) (l : list A) :
  (forall x, g1 x = g2 x) -> update_first p g1 l = update_first p g2 l.
Proof.
  intros H. induction l as [|x l IH]; simpl; [done|].
  destruct (p x); [by rewrite H | by rewrite IH].
Qed.

Lemma pushed_app uid ids1 ids2 l :
  pushed uid ids2 (pushed uid ids1 l) = pushed uid (ids1 ++ ids2) l.
Proof.
  unfold pushed. rewrite update_first_twice by reflexivity.
  apply update_first_ext. intros f. unfold push_all. simpl.
  by rewrite app_assoc.
Qed.

Lemma pushed_one uid nid l :
  update_first (fun f => String.eqb (Faculty._id f) uid) (push_note nid) l
    = pushed uid [nid] l.
Proof. reflexivity. Qed.

Lemma grown_refl uid st : grown uid st [] [] st.
Proof.
  unfold grown. rewrite app_nil_r, pushed_nil. by repeat split.
Qed.

Lemma grown_trans uid st1 st2 st3 n1 i1 n2 i2 :
  grown uid st1 n1 i1 st2 -> grown uid st2 n2 i2 st3 ->
  grown uid st1 (n1 ++ n2) (i1 ++ i2) st3.
Proof.
  intros (Hn1 & Hf1 & Hr1 & Hb1 & Hs1 & Hk1 & Ht1 & Hv1)
         (Hn2 & Hf2 & Hr2 & Hb2 & Hs2 & Hk2 & Ht2 & Hv2).
  unfold grown. rewrite Hn2, Hn1, Hf2, Hf1, pushed_app, app_assoc.
  repeat split; congruence.
Qed.

Section SaveRuns.
Variable castable : string -> bool.
Variable newObjectId : nat -> string.
Variable Date_now : nat -> nat.
Variable validationError typeError : string.
Variable user : User.t.
Variable b : SaveBody.t.

Local Abbreviation save_each :=
  (SaveNotes.save_each castable newObjectId Date_now validationError
     typeError user b).
Local Abbreviation post_save_notes :=
  (SaveNotes.post_save_notes castable newObjectId Date_now validationError
     typeError user b).

(** One turn of the loop. *)
Lemma save_one_run file (k : Note.t -> M (list SavedNote.t)) st :
  let r :=
    (title <~ match UploadedFile.originalName file with
              | Some name => ret (strip_extension name)
              | None => throw typeError
              end ;;
     savedNote <~ SaveNotes.Note_create castable newObjectId Date_now
                    validationError title (SaveBody.regulation b)
                    (SaveBody.subject b) (SaveBody.branch b)
                    (SaveBody.semester b) (UploadedFile.fileKey file)
                    (User.id user) ;;
     Faculty_push Direct (User.id user) (Note._id savedNote) ;;;
     k savedNote) st in
  (exists e, r = (Throw e, advance st) \/ r = (Throw e, st)) \/
  (exists n st1,
     built castable user b file n /\
     ((exists e, r = (Throw e, st1) /\
                 grown (User.id user) st [n] [] st1) \/
      (r = k n st1 /\ grown (User.id user) st [n] [Note._id n] st1))).
Proof.
  unfold SaveNotes.Note_create, Faculty_push, update.
  unfold bind, await_call, ret, throw. simpl.
  destruct (UploadedFile.originalName file) as [name|] eqn:Hname; cycle 1.
  { left. exists typeError. by right. }
  destruct (SaveNotes.validate _ _ _ _ _ _ _ _) eqn:Hv; cycle 1.
  { left. exists validationError. by right. }
  destruct (rejects st (clock st)) as [e|] eqn:H0.
  { left. exists e. by left. }
  simpl.
  set (n := Note.mk _ _ _ _ _ _ _ _ _).
  assert (Hb : built castable user b file n).
  { unfold built. simpl. repeat split; try done. by exists name. }
  right. exists n.
  destruct (rejects st (S (clock st))) as [e|] eqn:H1; simpl.
  - eexists. split; [exact Hb|]. left. exists e. split; [reflexivity|].
    unfold grown. simpl. rewrite pushed_nil. by repeat split.
  - eexists. split; [exact Hb|]. right. split; [reflexivity|].
    unfold grown. simpl. rewrite app_nil_r. by repeat split.
Qed.

Lemma save_each_run files :
  forall acc st,
    match save_each files acc st with
    | (Ok saved, st') =>
        exists new,
          Forall2 (built castable user b) files new /\
          saved = (acc ++ map (to_saved b) new)%list /\
          grown (User.id user) st new (map Note._id new) st'
    | (Throw e, st') =>
        exists done rest new ids,
          files = (done ++ rest)%list /\
          Forall2 (built castable user b) done new /\
          listed new ids /\
          grown (User.id user) st new ids st'
    | (Return _, _) => False
    end.
Proof.
  induction files as [|file files IH]; intros acc st.
  - simpl. exists []. split; [constructor|]. split; [by rewrite app_nil_r|].
    apply grown_refl.
  - cbn [SaveNotes.save_each].
    match goal with |- context [bind _ (fun title => bind _ (fun savedNote =>
        bind _ (fun _ => @?k savedNote))) st] =>
      destruct (save_one_run file k st)
        as [(e & [Hr | Hr]) | (n & st1 & Hb & [(e & Hr & Hg) | [Hr Hg]])];
      cbv zeta in Hr; rewrite Hr; clear Hr
    end.
    + exists [], (file :: files), [], []. split; [done|].
      split; [constructor|]. split; [by left|].
      unfold grown. simpl. rewrite app_nil_r, pushed_nil. by repeat split.
    + exists [], (file :: files), [], []. split; [done|].
      split; [constructor|]. split; [by left | apply grown_refl].
    + exists [file], files, [n], []. split; [done|].
      split; [constructor; [exact Hb | constructor]|]. split; [|exact Hg].
      right. by exists [], n.
    + cbv beta.
      assert (Hsn : SavedNote.mk (Note._id n) (Note.title n)
                      (Note.semester n) (SaveBody.branch b)
                      (SaveBody.subject b) (SaveBody.regulation b)
                      (Note.fileKey n) = to_saved b n) by reflexivity.
      rewrite Hsn.
      specialize (IH (acc ++ [to_saved b n])%list st1).
      destruct (save_each files _ st1) as [[saved|e|r] st'];
        [ | |done].
      * destruct IH as (new & HF & -> & Hg').
        exists (n :: new). split; [by constructor|].
        split; [by rewrite <- app_assoc|].
        apply (grown_trans _ _ _ _ _ _ _ _ Hg Hg').
      * destruct IH as (done & rest & new & ids & -> & HF & Hl & Hg').
        exists (file :: done), rest, (n :: new), (Note._id n :: ids).
        split; [done|]. split; [by constructor|]. split.
        -- destruct Hl as [-> | (new' & m & -> & ->)]; [by left|].
           right. by exists (n :: new'), m.
        -- apply (grown_trans _ _ _ _ _ _ _ _ Hg Hg').
Qed.
#[local] Arguments SaveNotes.save_each : simpl never.

Lemma save_notes_listed st :
  exists new ids,
    listed new ids /\
    grown (User.id user) st new ids (run_reply post_save_notes st).2.
Proof.
  unfold SaveNotes.post_save_notes, run_reply, try_catch.
  rewrite bind_run.
  destruct (negb (String.eqb (User.role user) "faculty")); simpl.
  { exists [], []. split; [by left | apply grown_refl]. }
  destruct (SaveBody.uploadedFiles b) as [[|file files]|]; simpl;
    try (exists [], []; split; [by left | apply grown_refl]).
  rewrite bind_run.
  pose proof (save_each_run (file :: files) [] st) as H.
  destruct (save_each (file :: files) [] st) as [[saved|e|r] st'];
    simpl in *; [ | |done].
  - destruct H as (new & _ & _ & Hg). exists new, (map Note._id new).
    split; [by left | exact Hg].
  - destruct H as (done & rest & new & ids & _ & _ & Hl & Hg).
    by exists new, ids.
Qed.

(** Whatever its outcome, POST /save-notes has added to the store one
    Note for each file of an initial part of [uploadedFiles], built from
    the file, the body and the user, and has added their [_id]s, in
    order, to the uploads of the first Faculty document with the [_id] of
    the user (all but the last when the call stopped between the save and
    the listing); nothing else has moved.  It answers 201 only when the
    user is a faculty member and that part is all of [uploadedFiles], not
    empty, and then [savedNotes] lists the Notes added; a 403 or a 400
    comes with nothing added.  A failure does not undo the Notes saved
    before it. *)
Theorem save_notes_effect st :
  exists done rest new ids,
    default [] (SaveBody.uploadedFiles b) = (done ++ rest)%list /\
    Forall2 (built castable user b) done new /\
    listed new ids /\
    grown (User.id user) st new ids (run_reply post_save_notes st).2 /\
    match (run_reply post_save_notes st).1 with
    | Some (SavedNotes code message saved) =>
        code = 201 /\ message = "Notes saved successfully" /\
        User.role user = "faculty" /\ done <> [] /\ rest = [] /\
        ids = map Note._id new /\ saved = map (to_saved b) new
    | Some (Plain r) =>
        status r = 500 \/
        (new = [] /\ ids = [] /\ (status r = 403 \/ status r = 400))
    | None => False
    end.
Proof.
  unfold SaveNotes.post_save_notes, run_reply, try_catch.
  rewrite bind_run.
  destruct (String.eqb_spec (User.role user) "faculty") as [Hrole|Hrole];
    simpl; cycle 1.
  { exists [], (default [] (SaveBody.uploadedFiles b)), [], [].
    split; [done|]. split; [constructor|]. split; [by left|].
    split; [apply grown_refl|]. right. auto. }
  destruct (SaveBody.uploadedFiles b) as [[|file files]|]; simpl.
  - exists [], [], [], []. split; [done|]. split; [constructor|].
    split; [by left|]. split; [apply grown_refl|]. right. auto.
  - rewrite bind_run.
    pose proof (save_each_run (file :: files) [] st) as H.
    destruct (save_each (file :: files) [] st) as [[saved|e|r] st'];
      simpl in *; [ | |done].
    + destruct H as (new & HF & -> & Hg).
      exists (file :: files), [], new, (map Note._id new).
      split; [by rewrite app_nil_r|]. split; [exact HF|].
      split; [by left|]. split; [exact Hg|]. by repeat split.
    + destruct H as (done & rest & new & ids & Hd & HF & Hl & Hg).
      exists done, rest, new, ids. repeat (split; [done|]). by left.
  - exists [], [], [], []. split; [done|]. split; [constructor|].
    split; [by left|]. split; [apply grown_refl|]. right. auto.
Qed.

Lemma listed_elem new ids nid :
  listed new ids -> nid ∈ ids -> exists n, n ∈ new /\ Note._id n = nid.
Proof.
  intros [-> | (new' & m & -> & ->)] Hin;
    apply list_elem_of_fmap in Hin as (n & -> & Hn); exists n;
    (split; [|done]); [done|].
  apply elem_of_app. by left.
Qed.

Lemma grown_ledger uid st new ids st' :
  grown uid st new ids st' -> listed new ids ->
  ledger_ok (committed st) = true -> ledger_ok (committed st') = true.
Proof.
  intros (Hn & Hf & _) Hl Hok. unfold ledger_ok in *.
  rewrite forallb_forall in Hok. apply forallb_forall. intros f' Hf'.
  apply forallb_forall. intros nid Hnid. apply existsb_exists.
  rewrite Hn. rewrite Hf in Hf'. apply list_elem_of_In in Hf'.
  apply list_elem_of_In in Hnid.
  assert (Hold : forall f, f ∈ faculty (committed st) ->
            nid ∈ Faculty.uploadedNotes f ->
            exists x, In x (notes (committed st) ++ new)%list /\
                      String.eqb (Note._id x) nid = true).
  { intros f Hin Hup. apply list_elem_of_In in Hin, Hup.
    specialize (Hok f Hin). rewrite forallb_forall in Hok.
    specialize (Hok nid Hup). apply existsb_exists in Hok as (x & Hx & He).
    exists x. split; [|exact He]. apply in_or_app. by left. }
  apply elem_of_update_first in Hf' as [Hin | (f & Hin & ->)];
    [by apply (Hold f')|].
  simpl in Hnid. apply elem_of_app in Hnid as [Hup | Hid];
    [by apply (Hold f)|].
  destruct (listed_elem _ _ _ Hl Hid) as (n & Hnin & <-).
  exists n. split; [|apply String.eqb_refl].
  apply in_or_app. right. by apply list_elem_of_In.
Qed.

(** POST /save-notes keeps the ledger, whatever its outcome: it saves a
    Note before it lists it, so every upload listed names a Note of the
    store. *)
Theorem save_notes_keeps_ledger st :
  ledger_ok (committed st) = true ->
  ledger_ok (committed (run_reply post_save_notes st).2) = true.
Proof.
  intros Hok.
  destruct (save_notes_listed st) as (new & ids & Hl & Hg).
  by apply (grown_ledger _ _ _ _ _ Hg Hl).
Qed.

End SaveRuns.

Lemma save_notes_keeps_ledger_witness :
  ledger_ok
    (committed
       (run_reply
          (SaveNotes.post_save_notes Sample.valid Sample4.objectId Sample.now
             "ValidationError" "TypeError" Sample4.asha
             (Sample4.body [Sample4.unit1; Sample4.hidden]))
          (Sample.world Sample.db0 Sample.never)).2) = true.
Proof. apply save_notes_keeps_ledger. reflexivity. Defined.

Section SaveGood.
Variable castable : string -> bool.
Variable newObjectId : nat -> string.
Variable Date_now : nat -> nat.
Variable validationError typeError : string.
Variable user : User.t.
Variable b : SaveBody.t.

Local Abbreviation save_each :=
  (SaveNotes.save_each castable newObjectId Date_now validationError
     typeError user b).
Local Abbreviation post_save_notes :=
  (SaveNotes.post_save_notes castable newObjectId Date_now validationError
     typeError user b).
Local Abbreviation fresh := (fresh_notes newObjectId Date_now user b).

Lemma save_each_good pre :
  forall rest acc st,
    forallb (savable castable user b) pre = true ->
    (forall i, i < 2 * length pre -> rejects st (clock st + i) = None) ->
    exists st1,
      save_each (pre ++ rest) acc st
        = save_each rest (acc ++ map (to_saved b) (fresh (clock st) pre)) st1
      /\ grown (User.id user) st (fresh (clock st) pre)
           (map Note._id (fresh (clock st) pre)) st1
      /\ clock st1 = clock st + 2 * length pre
      /\ rejects st1 = rejects st.
Proof.
  induction pre as [|file pre IH]; intros rest acc st Hok Hrej.
  - exists st. simpl. rewrite app_nil_r. split; [done|].
    split; [apply grown_refl|]. split; [lia | done].
  - simpl in Hok. apply andb_true_iff in Hok as [Hfile Hok].
    unfold savable in Hfile.
    destruct (UploadedFile.originalName file) as [name|] eqn:Hname;
      [|discriminate].
    pose proof (Hrej 0 ltac:(simpl; lia)) as H0.
    pose proof (Hrej 1 ltac:(simpl; lia)) as H1.
    rewrite Nat.add_0_r in H0.
    replace (clock st + 1) with (S (clock st)) in H1 by lia.
    set (n := Note.mk (newObjectId (S (clock st))) (strip_extension name)
                (SaveBody.regulation b) (SaveBody.subject b)
                (SaveBody.branch b) (SaveBody.semester b)
                (UploadedFile.fileKey file) (User.id user)
                (Date_now (S (clock st)))).
    set (st2 := emit []
                  (set_committed
                     (set_faculty
                        (pushed (User.id user) [Note._id n]
                           (faculty (committed st)))
                        (set_notes (notes (committed st) ++ [n])
                           (committed st)))
                     (advance (advance st)))).
    assert (Hstep : forall acc',
      save_each ((file :: pre) ++ rest) acc' st
        = save_each (pre ++ rest) (acc' ++ [to_saved b n]) st2).
    { intros acc'. cbn [app SaveNotes.save_each].
      unfold SaveNotes.Note_create, Faculty_push, update.
      unfold bind, await_call, ret, throw.
      rewrite Hname. simpl. rewrite Hfile. simpl. rewrite H0. simpl.
      rewrite H1. reflexivity. }
    destruct (IH rest (acc ++ [to_saved b n])%list st2 Hok)
      as (st1 & Hrun & Hg & Hc & Hr).
    { intros i Hi. change (rejects st (S (S (clock st)) + i) = None).
      replace (S (S (clock st)) + i) with (clock st + (2 + i)) by lia.
      apply Hrej. simpl. lia. }
    exists st1. simpl in Hc.
    assert (Hfresh : fresh (clock st) (file :: pre)
                     = n :: fresh (S (S (clock st))) pre).
    { simpl. by rewrite Hname. }
    rewrite Hfresh. split; [|split; [|split]].
    + rewrite Hstep, Hrun. simpl. by rewrite <- app_assoc.
    + apply (grown_trans _ st st2 st1 [n] [Note._id n]); [|exact Hg].
      unfold grown. simpl. rewrite app_nil_r. by repeat split.
    + simpl. lia.
    + exact Hr.
Qed.

Lemma save_each_bad bad post :
  savable castable user b bad = false ->
  exists e, (e = typeError \/ e = validationError) /\
    forall acc st, save_each (bad :: post) acc st = (Throw e, st).
Proof.
  unfold savable. intros Hbad.
  destruct (UploadedFile.originalName bad) as [name|] eqn:Hname.
  - exists validationError. split; [by right|]. intros acc st.
    cbn [SaveNotes.save_each]. unfold SaveNotes.Note_create.
    unfold bind, ret, throw. rewrite Hname. simpl. by rewrite Hbad.
  - exists typeError. split; [by left|]. intros acc st.
    cbn [SaveNotes.save_each]. unfold bind, throw. by rewrite Hname.
Qed.

#[local] Arguments SaveNotes.save_each : simpl never.

(** When the user is a faculty member, every file passes the checks and
    every call is answered, POST /save-notes answers 201 with one element
    of [savedNotes] for each file, in order; the store has gained their
    Notes, last, and the first Faculty document with the [_id] of the user
    has gained their [_id]s, last. *)
Theorem save_notes_success files st :
  User.role user = "faculty" ->
  SaveBody.uploadedFiles b = Some files ->
  files <> [] ->
  forallb (savable castable user b) files = true ->
  (forall i, i < 2 * length files -> rejects st (clock st + i) = None) ->
  (run_reply post_save_notes st).1
    = Some (SavedNotes 201 "Notes saved successfully"
              (map (to_saved b) (fresh (clock st) files))) /\
  grown (User.id user) st (fresh (clock st) files)
    (map Note._id (fresh (clock st) files))
    (run_reply post_save_notes st).2.
Proof.
  intros Hrole Hfiles Hne Hok Hrej.
  destruct (save_each_good files [] [] st Hok Hrej)
    as (st1 & Hrun & Hg & _).
  rewrite app_nil_r in Hrun. simpl in Hrun.
  unfold SaveNotes.post_save_notes, run_reply, try_catch.
  rewrite bind_run, Hrole, Hfiles. simpl.
  destruct files as [|file files']; [done|].
  rewrite bind_run, Hrun. simpl. done.
Qed.

(** POST /save-notes is not atomic: when a file that fails the checks
    follows files that pass them, and every call is answered, the answer is
    500 and the Notes of the files before it stay saved and listed. *)
Theorem save_notes_stops_at_bad_file pre bad post st :
  User.role user = "faculty" ->
  SaveBody.uploadedFiles b = Some (pre ++ bad :: post)%list ->
  forallb (savable castable user b) pre = true ->
  savable castable user b bad = false ->
  (forall i, i < 2 * length pre -> rejects st (clock st + i) = None) ->
  (exists e,
     (e = typeError \/ e = validationError) /\
     (run_reply post_save_notes st).1
       = Some (Plain (json 500 (MessageError "Server error" e)))) /\
  grown (User.id user) st (fresh (clock st) pre)
    (map Note._id (fresh (clock st) pre))
    (run_reply post_save_notes st).2.
Proof.
  intros Hrole Hfiles Hok Hbad Hrej.
  destruct (save_each_good pre (bad :: post) [] st Hok Hrej)
    as (st1 & Hrun & Hg & _).
  pose proof (save_each_bad bad post Hbad) as Hthrow.
  destruct Hthrow as (e & He & Hthrow).
  rewrite Hthrow in Hrun.
  unfold SaveNotes.post_save_notes, run_reply, try_catch.
  rewrite bind_run, Hrole, Hfiles. simpl.
  destruct (pre ++ bad :: post)%list as [|f fs] eqn:Hl.
  { by destruct pre. }
  rewrite bind_run, Hrun. simpl. split; [|exact Hg]. by exists e.
Qed.

End SaveGood.

Lemma save_notes_success_witness :
  (run_reply
     (SaveNotes.post_save_notes Sample.valid Sample4.objectId Sample.now
        "ValidationError" "TypeError" Sample4.asha
        (Sample4.body [Sample4.unit1; Sample4.unit2]))
     (Sample.world Sample.db0 Sample.never)).1
  = Some (SavedNotes 201 "Notes saved successfully"
            [SavedNote.mk "new1" "unit1.v2" "1" "b1" "s1" "r1"
               "uploads/9_unit1.v2.pdf";
             SavedNote.mk "new3" "unit2" "1" "b1" "s1" "r1"
               "uploads/9_unit2.pdf"]).
Proof.
  apply (save_notes_success Sample.valid Sample4.objectId Sample.now
           "ValidationError" "TypeError" Sample4.asha
           (Sample4.body [Sample4.unit1; Sample4.unit2])
           [Sample4.unit1; Sample4.unit2]
           (Sample.world Sample.db0 Sample.never));
    [reflexivity | reflexivity | discriminate | reflexivity | reflexivity].
Defined.

Lemma save_notes_stops_at_bad_file_witness :
  map Note.title
    (notes
       (committed
          (run_reply
             (SaveNotes.post_save_notes Sample.valid Sample4.objectId
                Sample.now "ValidationError" "TypeError" Sample4.asha
                (Sample4.body [Sample4.unit1; Sample4.hidden; Sample4.unit2]))
             (Sample.world Sample.db0 Sample.never)).2))
  = ["A"; "B"; "unit1.v2"].
Proof.
  destruct (save_notes_stops_at_bad_file Sample.valid Sample4.objectId
              Sample.now "ValidationError" "TypeError" Sample4.asha
              (Sample4.body [Sample4.unit1; Sample4.hidden; Sample4.unit2])
              [Sample4.unit1] Sample4.hidden [Sample4.unit2]
              (Sample.world Sample.db0 Sample.never))
    as (_ & Hn & _);
    [reflexivity | reflexivity | reflexivity | reflexivity | reflexivity |].
  rewrite Hn. reflexivity.
Defined.

(** ** DELETE /admin/faculty/:id *)

Lemma remove_first_none {A} (p : A -> bool) (l : list A) :
  find_first p l = None -> remove_first p l = l.
Proof.
  induction l as [|x l IH]; simpl; [done|].
  destruct (p x); [discriminate|]. intros H. by rewrite IH.
Qed.

Lemma set_faculty_same d : set_faculty (faculty d) d = d.
Proof. by destruct d. Qed.

Lemma delete_faculty_run isValid id st :
  match find_first (fun f => String.eqb (Faculty._id f) id)
          (faculty (committed st)) with
  | Some f =>
      (run (AdminFaculty.delete_faculty isValid id) st).1
        = Some (json 200 (Message "Faculty deleted")) /\
      committed (run (AdminFaculty.delete_faculty isValid id) st).2
        = set_faculty
            (remove_first (fun f => String.eqb (Faculty._id f) id)
               (faculty (committed st))) (committed st)
  | None => False
  end \/
  (exists r,
     (run (AdminFaculty.delete_faculty isValid id) st).1 = Some r /\
     status r <> 200 /\
     committed (run (AdminFaculty.delete_faculty isValid id) st).2
       = committed st).
Proof.
  unfold run, AdminFaculty.delete_faculty, try_catch,
    Faculty_findByIdAndDelete.
  unfold bind, await_call, ret, respond.
  destruct (negb (isValid id)); simpl.
  { right. eexists. split; [reflexivity|]. split; [simpl; lia | done]. }
  destruct (rejects st (clock st)); simpl.
  { right. eexists. split; [reflexivity|]. split; [simpl; lia | done]. }
  destruct (find_first _ (faculty (committed st))) as [f|] eqn:Hf; simpl.
  - left. done.
  - right. eexists. split; [reflexivity|]. split; [simpl; lia|].
    by rewrite (remove_first_none _ _ Hf), set_faculty_same.
Qed.

(** DELETE /admin/faculty/:id answers 200 exactly when it has removed
    the first Faculty document with that [_id]; with any other answer the
    store is as before.  It removes no Note and no blob: the Notes of the
    removed Faculty stay, and name an uploader that is gone when [_id]s
    are unique. *)
Theorem delete_faculty_effect isValid id st :
  bucket (run (AdminFaculty.delete_faculty isValid id) st).2 = bucket st /\
  notes (committed (run (AdminFaculty.delete_faculty isValid id) st).2)
    = notes (committed st) /\
  match (run (AdminFaculty.delete_faculty isValid id) st).1 with
  | Some r =>
      if Nat.eqb (status r) 200
      then
        is_Some (find_first (fun f => String.eqb (Faculty._id f) id)
                   (faculty (committed st))) /\
        faculty
          (committed (run (AdminFaculty.delete_faculty isValid id) st).2)
          = remove_first (fun f => String.eqb (Faculty._id f) id)
              (faculty (committed st)) /\
        (NoDup (map Faculty._id (faculty (committed st))) ->
         forall n, n ∈ notes (committed st) -> Note.uploadedBy n = id ->
           Note.uploadedBy n
             ∉ map Faculty._id
                 (faculty
                    (committed
                       (run (AdminFaculty.delete_faculty isValid id) st).2)))
      else committed (run (AdminFaculty.delete_faculty isValid id) st).2
             = committed st
  | None => False
  end.
Proof.
  split; [|split].
  - unfold run, AdminFaculty.delete_faculty, try_catch,
      Faculty_findByIdAndDelete.
    unfold bind, await_call, ret, respond.
    destruct (negb (isValid id)); simpl; [done|].
    destruct (rejects st (clock st)); simpl; [done|].
    by destruct (find_first _ _).
  - destruct (delete_faculty_run isValid id st) as [H | (r & _ & _ & ->)];
      [|done].
    destruct (find_first _ _); [|done]. destruct H as [_ ->]. done.
  - destruct (delete_faculty_run isValid id st) as [H | (r & -> & Hs & Hc)].
    + destruct (find_first _ _) as [f|] eqn:Hf; [|done].
      destruct H as [-> ->]. simpl. split; [by eexists|]. split; [done|].
      intros Hnd n _ ->. by apply remove_first_absent.
    + destruct (Nat.eqb_spec (status r) 200); [done | exact Hc].
Qed.

(** ** Saving a file and deleting its Note *)

Lemma find_first_app_fresh {A} (get : A -> string) id (l : list A) x :
  id ∉ map get l -> get x = id ->
  find_first (fun y => String.eqb (get y) id) (l ++ [x]) = Some x.
Proof.
  intros Hid Hx. induction l as [|y l IH]; simpl.
  - by rewrite Hx, String.eqb_refl.
  - destruct (String.eqb_spec (get y) id) as [Heq|Hne].
    + exfalso. apply Hid. rewrite <- Heq. simpl. left.
    + apply IH. intros Hin. apply Hid. simpl. by right.
Qed.

Lemma remove_first_app_fresh {A} (get : A -> string) id (l : list A) x :
  id ∉ map get l -> get x = id ->
  remove_first (fun y => String.eqb (get y) id) (l ++ [x]) = l.
Proof.
  intros Hid Hx. induction l as [|y l IH]; simpl.
  - by rewrite Hx, String.eqb_refl.
  - destruct (String.eqb_spec (get y) id) as [Heq|Hne].
    + exfalso. apply Hid. rewrite <- Heq. simpl. left.
    + rewrite IH; [done|]. intros Hin. apply Hid. simpl. by right.
Qed.

Lemma drop_matching_none {A} (p : A -> bool) (l : list A) :
  (forall x, x ∈ l -> p x = false) -> drop_matching p l = l.
Proof.
  induction l as [|x l IH]; intros H; [done|].
  unfold drop_matching in *. rewrite filter_cons_True.
  - rewrite IH; [done|]. intros y Hy. apply H. by right.
  - rewrite (H x); [done | left].
Qed.

Lemma pull_push nid f :
  nid ∉ Faculty.uploadedNotes f -> pull_note nid (push_all [nid] f) = f.
Proof.
  intros Hn. destruct f as [i n e m d p up c]. unfold pull_note, push_all.
  simpl in *. f_equal. unfold drop_matching. rewrite filter_app.
  rewrite filter_cons_False, filter_nil, app_nil_r.
  - apply drop_matching_none. intros x Hx.
    apply String.eqb_neq. intros ->. done.
  - rewrite String.eqb_refl. simpl. tauto.
Qed.

Lemma update_first_id_in {A} (p : A -> bool) (g : A -> A) (l : list A) :
  (forall x, x ∈ l -> g x = x) -> update_first p g l = l.
Proof.
  induction l as [|x l IH]; intros H; simpl; [done|].
  destruct (p x).
  - rewrite H; [done | left].
  - rewrite IH; [done|]. intros y Hy. apply H. by right.
Qed.

Lemma ledger_fresh d nid f :
  ledger_ok d = true -> nid ∉ map Note._id (notes d) ->
  f ∈ faculty d -> nid ∉ Faculty.uploadedNotes f.
Proof.
  unfold ledger_ok. intros Hok Hfresh Hf Hin.
  rewrite forallb_forall in Hok.
  specialize (Hok f (proj1 (list_elem_of_In _ _) Hf)).
  rewrite forallb_forall in Hok.
  specialize (Hok nid (proj1 (list_elem_of_In _ _) Hin)).
  apply existsb_exists in Hok as (n & Hn & Heq).
  apply String.eqb_eq in Heq. apply Hfresh. rewrite <- Heq.
  apply (list_elem_of_fmap_2 Note._id). by apply list_elem_of_In.
Qed.

Lemma db_ext (d d' : Db) :
  regulations d = regulations d' -> branches d = branches d' ->
  subjects d = subjects d' -> notes d = notes d' ->
  faculty d = faculty d' -> d = d'.
Proof. destruct d, d'. simpl. by intros -> -> -> -> ->. Qed.

Section SaveDelete.
Variable castable : string -> bool.
Variable castError : string -> string.
Variable newObjectId : nat -> string.
Variable Date_now : nat -> nat.
Variable validationError typeError : string.
Variable user : User.t.
Variable b : SaveBody.t.

Local Abbreviation post_save_notes :=
  (SaveNotes.post_save_notes castable newObjectId Date_now validationError
     typeError user b).

(** Saving one file and then deleting its Note restores the store: when
    the file passes the checks, its [_id] is new and casts, the ledger
    holds and every call is answered, DELETE /notes/:id on the new [_id] answers
    200, the store is the one before POST /save-notes, and the bucket has
    lost the key of the file. *)
Theorem save_then_delete_restores file st :
  User.role user = "faculty" ->
  SaveBody.uploadedFiles b = Some [file] ->
  savable castable user b file = true ->
  (forall i, i < 6 -> rejects st (clock st + i) = None) ->
  newObjectId (S (clock st)) ∉ map Note._id (notes (committed st)) ->
  castable (newObjectId (S (clock st))) = true ->
  ledger_ok (committed st) = true ->
  (run (Notes.delete_note castable castError
          (newObjectId (S (clock st))))
     (run_reply post_save_notes st).2).1
    = Some (json 200 (Message "Note deleted successfully")) /\
  committed
    (run (Notes.delete_note castable castError
            (newObjectId (S (clock st))))
       (run_reply post_save_notes st).2).2
    = committed st /\
  bucket
    (run (Notes.delete_note castable castError
            (newObjectId (S (clock st))))
       (run_reply post_save_notes st).2).2
    = delete (UploadedFile.fileKey file) (bucket st).
Proof.
  intros Hrole Hfiles Hsav Hrej Hfresh Hcast Hledger.
  destruct (save_each_good castable newObjectId Date_now validationError
              typeError user b [file] [] [] st) as (st1 & Hrun & Hg & Hc & Hr).
  { simpl. by rewrite Hsav. }
  { intros i Hi. apply Hrej. simpl in Hi. lia. }
  assert (Hst1 : (run_reply post_save_notes st).2 = st1).
  { unfold SaveNotes.post_save_notes, run_reply, try_catch.
    rewrite bind_run, Hrole, Hfiles.
    change (negb (String.eqb "faculty" "faculty")) with false.
    cbv iota. unfold ret at 1. cbv beta iota.
    rewrite bind_run. cbn [app] in Hrun. rewrite Hrun. reflexivity. }
  rewrite Hst1. clear Hst1 Hrun.
  unfold savable in Hsav.
  destruct (UploadedFile.originalName file) as [name|] eqn:Hname;
    [|discriminate].
  cbn [fresh_notes map] in Hg. rewrite Hname in Hg. cbn [default] in Hg.
  set (n := Note.mk (newObjectId (S (clock st))) (strip_extension name)
              (SaveBody.regulation b) (SaveBody.subject b)
              (SaveBody.branch b) (SaveBody.semester b)
              (UploadedFile.fileKey file) (User.id user)
              (Date_now (S (clock st)))) in *.
  destruct Hg as (Hn & Hf & Hre & Hbr & Hsu & Hbu & _ & _).
  assert (Hkey : Note.fileKey n <> "").
  { unfold SaveNotes.validate in Hsav.
    apply andb_true_iff in Hsav as [Hsav _].
    apply andb_true_iff in Hsav as [_ Hk].
    apply negb_true_iff in Hk. by apply String.eqb_neq in Hk. }
  assert (Hfind : find_first
                    (fun x => String.eqb (Note._id x) (Note._id n))
                    (notes (committed st1)) = Some n).
  { rewrite Hn. by apply (find_first_app_fresh Note._id). }
  simpl in Hc.
  assert (Hrej' : forall i, i < 4 -> rejects st1 (clock st1 + i) = None).
  { intros i Hi. rewrite Hr, Hc.
    replace (clock st + 2 + i) with (clock st + (2 + i)) by lia.
    apply Hrej. lia. }
  pose proof (Hrej' 0 ltac:(lia)) as H0. pose proof (Hrej' 1 ltac:(lia)) as H1.
  pose proof (Hrej' 2 ltac:(lia)) as H2. pose proof (Hrej' 3 ltac:(lia)) as H3.
  rewrite Nat.add_0_r in H0.
  replace (clock st1 + 1) with (S (clock st1)) in H1 by lia.
  replace (clock st1 + 2) with (S (S (clock st1))) in H2 by lia.
  replace (clock st1 + 3) with (S (S (S (clock st1)))) in H3 by lia.
  change (newObjectId (S (clock st))) with (Note._id n).
  rewrite (delete_note_run castable castError (Note._id n) st1 n Hcast Hfind
             Hkey H0 H1), H2, H3.
  cbn [fst snd committed bucket emit set_committed set_bucket advance
       notes set_notes set_faculty faculty regulations branches subjects].
  split; [done|]. split; [|by rewrite Hbu].
  apply db_ext; cbn [notes set_notes set_faculty faculty regulations
                       branches subjects]; try done.
  - rewrite Hn. by apply (remove_first_app_fresh Note._id).
  - rewrite Hf. unfold pushed.
    rewrite update_first_twice by reflexivity.
    apply update_first_id_in. intros f Hin. apply pull_push.
    by apply (ledger_fresh (committed st)).
Qed.

End SaveDelete.

Lemma save_then_delete_restores_witness :
  committed
    (run (Notes.delete_note Sample.valid SampleDriver.castError "new1")
       (run_reply
          (SaveNotes.post_save_notes Sample.valid Sample4.objectId Sample.now
             "ValidationError" "TypeError" Sample4.asha
             (Sample4.body [Sample4.unit1]))
          (Sample.world Sample.db0 Sample.never)).2).2
    = Sample.db0.
Proof.
  destruct (save_then_delete_restores Sample.valid SampleDriver.castError
              Sample4.objectId
              Sample.now "ValidationError" "TypeError" Sample4.asha
              (Sample4.body [Sample4.unit1]) Sample4.unit1
              (Sample.world Sample.db0 Sample.never))
    as (_ & Hc & _);
    [reflexivity | reflexivity | reflexivity | reflexivity | | reflexivity
    | reflexivity | exact Hc].
  simpl. rewrite !elem_of_cons. intros [H|[H|H]]; try discriminate.
  by apply not_elem_of_nil in H.
Defined.

(** ** Refusals of the cascades *)

(** A cascade on an [id] the driver does not accept answers 400 and
    touches nothing: no record, no blob, and the trace has neither commit
    nor abort. *)
Theorem invalid_id_is_idle isValid kind id st :
  isValid id = false ->
  rejects st (clock st) = None ->
  (run (deleteHierarchy isValid kind id) st).1
    = Some (json 400 (Message "Invalid ID")) /\
  committed (run (deleteHierarchy isValid kind id) st).2 = committed st /\
  bucket (run (deleteHierarchy isValid kind id) st).2 = bucket st /\
  trace (run (deleteHierarchy isValid kind id) st).2 = trace st.
Proof.
  intros Hv H0.
  destruct kind;
    unfold run, deleteHierarchy, Admin.delete_regulations,
      Admin.delete_branches, Admin.delete_subjects, startSession, try_catch,
      await_call, bind, ret, respond;
    rewrite H0; simpl; rewrite Hv; simpl; done.
Qed.

Lemma invalid_id_is_idle_witness :
  (run (deleteHierarchy Sample.valid SubjectRoot "")
     (Sample.world Sample.db0 Sample.never)).1
    = Some (json 400 (Message "Invalid ID")).
Proof.
  apply (invalid_id_is_idle Sample.valid SubjectRoot ""
           (Sample.world Sample.db0 Sample.never)); reflexivity.
Defined.

(** A cascade that succeeded cannot be repeated: when the [_id]s of the
    collection of the root are unique, the same request on the store it
    left answers 404 and touches nothing. *)
Theorem cascade_twice_not_found isValid kind id st :
  NoDup (root_ids kind (committed st)) ->
  succeeded kind (run (deleteHierarchy isValid kind id) st).1 ->
  isValid id = true ->
  rejects (run (deleteHierarchy isValid kind id) st).2
    (clock (run (deleteHierarchy isValid kind id) st).2) = None ->
  rejects (run (deleteHierarchy isValid kind id) st).2
    (S (clock (run (deleteHierarchy isValid kind id) st).2)) = None ->
  idle_not_found isValid kind id (run (deleteHierarchy isValid kind id) st).2.
Proof.
  intros Hnd Hs Hv H0 H1.
  pose proof (root_absent_after_success isValid kind id st Hnd Hs) as Habs.
  unfold idle_not_found.
  rewrite (not_found_run isValid kind id _ Hv Habs H0 H1). by repeat split.
Qed.

Lemma cascade_twice_not_found_witness :
  idle_not_found Sample.valid BranchRoot "b1"
    (run (deleteHierarchy Sample.valid BranchRoot "b1")
       (Sample.world Sample.db0 Sample.never)).2.
Proof.
  apply cascade_twice_not_found;
    [ apply (bool_decide_unpack _); vm_compute; exact I
    | reflexivity | reflexivity | reflexivity | reflexivity ].
Defined.
